(** * Pair trading bot: position lifecycle and hedge rebalancing core

    A shallow embedding of the order-volume, hedge-drift, pyramiding and
    setup-recovery code of the pair trading bot:

    - [core/mt5_trade_executor.py]  (module [Executor])
    - [strategy/hybrid_rebalancer.py] (module [Hybrid])
    - [core/setup_tracker.py], [core/setup_recovery.py] (module [Recovery])

    Conventions of the embedding.

    - A Python [float] is an exact rational in canonical form ([Qc]), so
      that two equal numbers are equal terms.  Rounding error of binary
      floating point is outside the model; every worked example below
      uses values on which exact and binary arithmetic agree to the
      printed precision.  A statement that rests on an exact sum,
      product or quotient says so; statements about rounding to a step
      hold for any nearest multiple, however a tie is broken.
    - [round(x)] is Python 3 rounding: to the nearest integer, ties to
      the even one.
    - A [dict] keyed by strings is a [gmap string _].
    - [time.time()] and [datetime.now()] are read from a clock value
      [now] handed to each operation.
    - Logging has no effect on results and is left out.
    - A Python exception is an outcome [Raise e] of the [py_result]
      type; the broker terminal (the [MetaTrader5] module) is a record
      of functions together with the log of the requests it received. *)

From Stdlib Require Import ZArith QArith Qcanon Qround Qabs Qcabs Lia Lqa.
From stdpp Require Import base decidable option list strings pretty gmap numbers.

Local Open Scope Z_scope.

(** ** Python numbers *)

Module PyNum.

(** Decimal literals of the source, e.g. [fl 0.01]. *)
Definition fl (x : Q) : Qc := Q2Qc x.

(** [int -> float] conversion. *)
Definition of_int (n : Z) : Qc := Q2Qc (inject_Z n).

(** [round(x)] with one argument: nearest integer, ties to even. *)
Definition round_half_even (x : Q) : Z :=
  let f := Qfloor x in
  match Qcompare (x - inject_Z f) (1 # 2) with
  | Lt => f
  | Gt => f + 1
  | Eq => if Z.even f then f else f + 1
  end.

Definition py_round (x : Qc) : Z := round_half_even (this x).

(** [round(x, 2)]: nearest multiple of 0.01, ties to even. *)
Definition py_round2 (x : Qc) : Qc :=
  (of_int (py_round (x * of_int 100)) / of_int 100)%Qc.

(** [abs(x)], [min(a, b)], [max(a, b)] on floats.  Python's [min]
    returns its first argument unless the second is smaller, [max]
    its first argument unless the second is larger. *)
Definition py_abs (x : Qc) : Qc := Qcabs x.
Definition py_min (a b : Qc) : Qc := if bool_decide (b < a)%Qc then b else a.
Definition py_max (a b : Qc) : Qc := if bool_decide (a < b)%Qc then b else a.

(** Comparison operators as booleans. *)
Definition ltb (a b : Qc) : bool := bool_decide (a < b)%Qc.
Definition leb (a b : Qc) : bool := bool_decide (a ≤ b)%Qc.
Definition eqb (a b : Qc) : bool := bool_decide (a = b).

End PyNum.
Import PyNum.

(** ** Python outcomes *)

Module Py.

Inductive exn : Type :=
| ValueError (msg : string)
| ZeroDivisionError
| UnboundLocalError (name : string)
| AttributeError (attr : string).

Inductive py_result (A : Type) : Type :=
| Return (a : A)
| Raise (e : exn).
Arguments Return {A} a.
Arguments Raise {A} e.

Global Instance py_ret : MRet py_result := fun A a => Return a.
Global Instance py_bind : MBind py_result := fun A B k m =>
  match m with
  | Return a => k a
  | Raise e => Raise e
  end.

(** [x / y] on floats raises on a zero divisor. *)
Definition py_div (x y : Qc) : py_result Qc :=
  if bool_decide (y = 0%Qc) then Raise ZeroDivisionError else Return (x / y)%Qc.

(** Reading a local variable: [None] is a name that no assignment of
    the executed path has bound yet. *)
Definition read_local {A} (name : string) (binding : option A) : py_result A :=
  match binding with
  | Some v => Return v
  | None => Raise (UnboundLocalError name)
  end.

(** [str.upper()] on ASCII text. *)
Definition upper_ascii (c : Ascii.ascii) : Ascii.ascii :=
  let n := Ascii.nat_of_ascii c in
  if (Nat.leb 97 n && Nat.leb n 122)%bool
  then Ascii.ascii_of_nat (n - 32)%nat else c.

Fixpoint upper (s : string) : string :=
  match s with
  | EmptyString => EmptyString
  | String c r => String (upper_ascii c) (upper r)
  end.

Global Instance exn_eq_dec : EqDecision exn.
Proof. solve_decision. Defined.

Global Instance py_result_eq_dec {A : Type} `{EqDecision A} :
  EqDecision (py_result A).
Proof. solve_decision. Defined.

End Py.
Import Py.


(** A computation of the executor: it may raise, and it appends every
    request handed to [order_send] to the log of the terminal. *)
Definition exec (E A : Type) : Type := list E -> py_result A * list E.

Definition exec_ret {E A} (a : A) : exec E A := fun log => (Return a, log).
Definition exec_raise {E A} (e : exn) : exec E A := fun log => (Raise e, log).
Definition exec_lift {E A} (r : py_result A) : exec E A := fun log => (r, log).
Definition exec_bind {E A B} (m : exec E A) (k : A -> exec E B) : exec E B :=
  fun log =>
    match m log with
    | (Return a, log') => k a log'
    | (Raise e, log') => (Raise e, log')
    end.

Declare Scope exec_scope.
Delimit Scope exec_scope with exec.
Notation "'let*' x := m 'in' k" := (exec_bind m (fun x => k))
  (at level 10, x name, m at level 100, k at level 200) : exec_scope.

(** ** [core/mt5_trade_executor.py] *)

Module Executor.

(** What the code reads of [mt5.symbol_info(symbol)]. *)
Record SymbolInfo : Type := {
  visible : bool;
  volume_min : Qc;
  volume_max : Qc;
  volume_step : Qc
}.

(** [mt5.symbol_info_tick(symbol)]. *)
Record Tick : Type := { ask : Qc; bid : Qc }.

Inductive mt5_order_type : Type := ORDER_TYPE_BUY | ORDER_TYPE_SELL.

(** The request dictionary passed to [mt5.order_send]. *)
Record OrderRequest : Type := {
  req_symbol : string;
  req_volume : Qc;
  req_type : mt5_order_type;
  req_price : Qc;
  req_deviation : Z;
  req_magic : Z;
  req_comment : string;
  req_sl : option Qc;
  req_tp : option Qc
}.

(** The fields read of the value returned by [mt5.order_send]. *)
Record OrderSendResult : Type := {
  retcode : Z;
  order : Z;
  res_volume : Qc;
  res_price : Qc;
  res_comment : string
}.

Definition TRADE_RETCODE_DONE : Z := 10009.

(** The terminal: answers of the [MetaTrader5] module.  The answer of
    [order_send] may depend on the requests received before. *)
Record Terminal : Type := {
  symbol_info : string -> option SymbolInfo;
  symbol_select : string -> bool;
  symbol_info_tick : string -> option Tick;
  order_send : list OrderRequest -> OrderRequest -> option OrderSendResult;
  last_error : string
}.

Record TradeResult : Type := {
  success : bool;
  order_ticket : option Z;
  volume : Qc;
  price : Qc;
  comment : string;
  error_code : option Z;
  error_description : option string
}.

Record MT5TradeExecutor : Type := {
  magic_number : Z;
  volume_multiplier : Qc;
  primary_symbol : string;
  secondary_symbol : string
}.

Definition failed (ticket : option Z) (v p : Qc) (c : string) : TradeResult :=
  {| success := false; order_ticket := ticket; volume := v; price := p;
     comment := c; error_code := None; error_description := None |}.

(** [round(volume / volume_step) * volume_step]. *)
Definition round_to_step (vol step : Qc) : py_result Qc :=
  q ← py_div vol step; mret (of_int (py_round q) * step)%Qc.

(** Lines 140-154 of [place_market_order]: round to the step, then
    [if volume < volume_min ... elif volume > volume_max ...]. *)
Definition adjust_volume_market (info : SymbolInfo) (vol : Qc) : py_result Qc :=
  v ← round_to_step vol (volume_step info);
  mret (if ltb v (volume_min info) then volume_min info
        else if ltb (volume_max info) v then volume_max info
        else v).

(** Lines 311-312 and 331-332 of [place_spread_orders]: round to the
    step, then [max(min_, min(max_, adjusted))]. *)
Definition adjust_volume_spread (info : SymbolInfo) (vol : Qc) : py_result Qc :=
  v ← round_to_step vol (volume_step info);
  mret (py_max (volume_min info) (py_min (volume_max info) v)).

(** The [if info: ... else: round(volume, 2)] of [place_spread_orders]. *)
Definition adjust_or_round2 (info : option SymbolInfo) (vol : Qc) : py_result Qc :=
  match info with
  | Some i => adjust_volume_spread i vol
  | None => mret (py_round2 vol)
  end.

(** [if order_type.upper() == 'BUY': price = tick.ask ... else:
    price = tick.bid ...]; reading [.ask] or [.bid] of a missing tick
    raises [AttributeError]. *)
Definition order_side (order_type : string) (tick : Tick) : Qc * mt5_order_type :=
  if String.eqb (upper order_type) "BUY" then (ask tick, ORDER_TYPE_BUY)
  else (bid tick, ORDER_TYPE_SELL).

Definition tick_attr (order_type : string) : string :=
  if String.eqb (upper order_type) "BUY" then "ask" else "bid".

(** The tail shared by the two order functions: build the request,
    send it, and turn the answer into a [TradeResult]. *)
Definition send (mt5 : Terminal) (request : OrderRequest)
  : exec OrderRequest (option OrderSendResult) :=
  fun log => (Return (order_send mt5 log request), log ++ [request]).

Definition place_market_order (self : MT5TradeExecutor) (mt5 : Terminal)
    (symbol order_type : string) (vol : Qc) (sl tp : option Qc)
    (deviation : Z) (cmt : string) : exec OrderRequest TradeResult :=
  (match symbol_info mt5 symbol with
   | None =>
       exec_ret (failed None 0 0 ("Symbol " +:+ symbol +:+ " not found"))
   | Some info =>
       if negb (visible info) && negb (symbol_select mt5 symbol)
       then exec_ret (failed None 0 0 ("Failed to select " +:+ symbol))
       else
         let* vol := exec_lift (adjust_volume_market info vol) in
         match symbol_info_tick mt5 symbol with
         | None => exec_raise (AttributeError (tick_attr order_type))
         | Some tick =>
             let '(px, ty) := order_side order_type tick in
             let request :=
               {| req_symbol := symbol; req_volume := vol; req_type := ty;
                  req_price := px; req_deviation := deviation;
                  req_magic := magic_number self; req_comment := cmt;
                  req_sl := sl; req_tp := tp |} in
             let* result := send mt5 request in
             match result with
             | None => exec_ret (failed None vol px "order_send returned None")
             | Some r =>
                 if bool_decide (retcode r ≠ TRADE_RETCODE_DONE)
                 then exec_ret
                        {| success := false; order_ticket := Some (order r);
                           volume := vol; price := px;
                           comment := res_comment r;
                           error_code := Some (retcode r);
                           error_description := Some (res_comment r) |}
                 else exec_ret
                        {| success := true; order_ticket := Some (order r);
                           volume := res_volume r; price := res_price r;
                           comment := "Order executed successfully";
                           error_code := None; error_description := None |}
             end
         end
   end)%exec.

(** [_place_order_no_adjustment]: the volume is sent as given. *)
Definition _place_order_no_adjustment (self : MT5TradeExecutor) (mt5 : Terminal)
    (symbol order_type : string) (vol : Qc) (sl tp : option Qc)
    (deviation : Z) (cmt : string) : exec OrderRequest TradeResult :=
  (match symbol_info mt5 symbol with
   | None =>
       exec_ret (failed None 0 0 ("Symbol " +:+ symbol +:+ " not found"))
   | Some info =>
       if negb (visible info) && negb (symbol_select mt5 symbol)
       then exec_ret (failed None 0 0 ("Failed to select " +:+ symbol))
       else
         match symbol_info_tick mt5 symbol with
         | None => exec_raise (AttributeError (tick_attr order_type))
         | Some tick =>
             let '(px, ty) := order_side order_type tick in
             let request :=
               {| req_symbol := symbol; req_volume := vol; req_type := ty;
                  req_price := px; req_deviation := deviation;
                  req_magic := magic_number self; req_comment := cmt;
                  req_sl := sl; req_tp := tp |} in
             let* result := send mt5 request in
             match result with
             | None =>
                 exec_ret (failed None 0 0
                   ("MT5 order_send returned None (error: "
                      +:+ last_error mt5 +:+ ")"))
             | Some r =>
                 if bool_decide (retcode r ≠ TRADE_RETCODE_DONE)
                 then exec_ret (failed (Some (order r)) 0 0
                        (pretty (retcode r) +:+ ": " +:+ res_comment r))
                 else exec_ret
                        {| success := true; order_ticket := Some (order r);
                           volume := res_volume r; price := res_price r;
                           comment := "Success";
                           error_code := None; error_description := None |}
             end
         end
   end)%exec.

(** Lines 283-341 of [place_spread_orders]: the volumes of the two
    legs and the ratio check, before any order is sent. *)
Record VolumePlan : Type := {
  hedge_ratio : Qc;
  gold_adjusted : Qc;
  silver_adjusted : Qc;
  final_ratio : Qc;
  ratio_error : Qc
}.

Definition plan_volumes (self : MT5TradeExecutor) (mt5 : Terminal)
    (gold_volume silver_volume : Qc) : py_result VolumePlan :=
  let gold_volume := (gold_volume * volume_multiplier self)%Qc in
  let silver_volume := (silver_volume * volume_multiplier self)%Qc in
  hedge_ratio ←
    (if ltb 0 gold_volume then py_div silver_volume gold_volume
     else mret (fl 1.0));
  gold_adjusted ←
    adjust_or_round2 (symbol_info mt5 (primary_symbol self)) gold_volume;
  let silver_from_hedge := (gold_adjusted * hedge_ratio)%Qc in
  silver_adjusted ←
    adjust_or_round2 (symbol_info mt5 (secondary_symbol self)) silver_from_hedge;
  final_ratio ←
    (if ltb 0 gold_adjusted then py_div silver_adjusted gold_adjusted
     else mret 0%Qc);
  ratio_error ←
    (if ltb 0 hedge_ratio
     then d ← py_div (py_abs (final_ratio - hedge_ratio)) hedge_ratio;
          mret (d * of_int 100)%Qc
     else mret 0%Qc);
  mret {| hedge_ratio := hedge_ratio; gold_adjusted := gold_adjusted;
          silver_adjusted := silver_adjusted; final_ratio := final_ratio;
          ratio_error := ratio_error |}.

(** The values [place_spread_orders] hands back.  The source returns
    tuples of two shapes: [((gold, silver), spread_id)] and
    [((gold, silver), spread_id, entry_zscore)]. *)
Inductive SpreadReturn : Type :=
| Pair2 (results : TradeResult * TradeResult) (spread_id : string)
| Triple3 (results : TradeResult * TradeResult)
          (spread_id : option string) (entry_zscore : option Qc).

Definition ticket_text (t : option Z) : string :=
  match t with Some n => pretty n | None => "None" end.

(** [place_spread_orders].  [short_id] is the [%H%M%S] text of the
    clock.  The local name [spread_id] is assigned only after both
    orders succeeded (line 388); [spread_id_local] is its binding on
    the path that reaches line 364. *)
Definition place_spread_orders (self : MT5TradeExecutor) (mt5 : Terminal)
    (gold_volume silver_volume : Qc) (side : string) (entry_zscore : Qc)
    (sl_gold tp_gold sl_silver tp_silver : option Qc) (short_id : string)
  : exec OrderRequest SpreadReturn :=
  (let gold_comment := "ID:" +:+ short_id in
   let silver_comment := "ID:" +:+ short_id in
   let spread_id_local : option string := None in
   let* types :=
     (if String.eqb (upper side) "LONG" then exec_ret ("BUY", "SELL")
      else if String.eqb (upper side) "SHORT" then exec_ret ("SELL", "BUY")
      else exec_raise (ValueError ("Invalid side: " +:+ side))) in
   let '(gold_type, silver_type) := types in
   let* plan := exec_lift (plan_volumes self mt5 gold_volume silver_volume) in
   let* gold_result :=
     _place_order_no_adjustment self mt5 (primary_symbol self) gold_type
       (gold_adjusted plan) sl_gold tp_gold 20 gold_comment in
   if negb (success gold_result) then
     let* spread_id := exec_lift (read_local "spread_id" spread_id_local) in
     exec_ret (Pair2 (gold_result,
                      failed None 0 0 "Gold order failed, Silver order skipped")
                     spread_id)
   else
     let* silver_result :=
       _place_order_no_adjustment self mt5 (secondary_symbol self) silver_type
         (silver_adjusted plan) sl_silver tp_silver 20 silver_comment in
     if negb (success gold_result) || negb (success silver_result) then
       exec_ret (Triple3 (gold_result, silver_result) None None)
     else
       let spread_id :=
         ticket_text (order_ticket gold_result) +:+ "-"
           +:+ ticket_text (order_ticket silver_result) in
       exec_ret (Triple3 (gold_result, silver_result)
                         (Some spread_id) (Some entry_zscore)))%exec.

(** What [close_position] reads of a position returned by
    [mt5.positions_get(ticket=...)]. *)
Inductive mt5_position_type : Type := POSITION_TYPE_BUY | POSITION_TYPE_SELL.

Record PositionInfo : Type := {
  pos_symbol : string;
  pos_type : mt5_position_type;
  pos_volume : Qc
}.

(** The request dictionary of [close_position]: a deal on an existing
    position, without stop loss or take profit. *)
Record CloseDeal : Type := {
  cd_symbol : string;
  cd_volume : Qc;
  cd_type : mt5_order_type;
  cd_position : Z;
  cd_price : Qc;
  cd_deviation : Z;
  cd_magic : Z;
  cd_comment : string
}.

(** The terminal as [close_position] uses it.  [ct_positions_get]
    answers [mt5.positions_get(ticket=...)]: the empty list stands for
    both [None] and the empty tuple, which the code treats alike.  The
    open positions and the answers to orders may depend on the closing
    deals received before. *)
Record ClosingTerminal : Type := {
  ct_positions_get : list CloseDeal -> Z -> list PositionInfo;
  ct_symbol_info_tick : string -> option Tick;
  ct_order_send : list CloseDeal -> CloseDeal -> option OrderSendResult
}.

(** [close_position] *)
Definition close_position (self : MT5TradeExecutor) (mt5 : ClosingTerminal)
    (ticket : Z) (vol : option Qc) (deviation : Z)
  : exec CloseDeal TradeResult :=
  fun log =>
    match ct_positions_get mt5 log ticket with
    | [] =>
        (Return (failed (Some ticket) 0 0
                   ("Position " +:+ pretty ticket +:+ " not found")), log)
    | position :: _ =>
        let vol := default (pos_volume position) vol in
        match ct_symbol_info_tick mt5 (pos_symbol position) with
        | None =>
            (Raise (AttributeError
                      (match pos_type position with
                       | POSITION_TYPE_BUY => "bid"
                       | POSITION_TYPE_SELL => "ask"
                       end)), log)
        | Some tick =>
            let '(close_type, px) :=
              match pos_type position with
              | POSITION_TYPE_BUY => (ORDER_TYPE_SELL, bid tick)
              | POSITION_TYPE_SELL => (ORDER_TYPE_BUY, ask tick)
              end in
            let request :=
              {| cd_symbol := pos_symbol position; cd_volume := vol;
                 cd_type := close_type; cd_position := ticket;
                 cd_price := px; cd_deviation := deviation;
                 cd_magic := magic_number self;
                 cd_comment := "PairBot-Close" |} in
            let log' := log ++ [request] in
            match ct_order_send mt5 log request with
            | None =>
                (Return (failed (Some ticket) vol px "order_send returned None"),
                 log')
            | Some r =>
                if bool_decide (retcode r ≠ TRADE_RETCODE_DONE)
                then (Return {| success := false; order_ticket := Some ticket;
                                volume := vol; price := px;
                                comment := res_comment r;
                                error_code := Some (retcode r);
                                error_description := None |}, log')
                else (Return {| success := true; order_ticket := Some (order r);
                                volume := res_volume r; price := res_price r;
                                comment := "Position closed successfully";
                                error_code := None;
                                error_description := None |}, log')
            end
        end
    end.

(** [close_spread_positions] *)
Definition close_spread_positions (self : MT5TradeExecutor)
    (mt5 : ClosingTerminal) (gold_ticket silver_ticket : Z)
  : exec CloseDeal (TradeResult * TradeResult) :=
  (let* gold_result := close_position self mt5 gold_ticket None 20 in
   let* silver_result := close_position self mt5 silver_ticket None 20 in
   exec_ret (gold_result, silver_result))%exec.

(** *** Notions used in the statements about the executor *)

Global Instance symbol_info_eq_dec : EqDecision SymbolInfo.
Proof. solve_decision. Defined.
Global Instance order_type_eq_dec : EqDecision mt5_order_type.
Proof. solve_decision. Defined.
Global Instance order_request_eq_dec : EqDecision OrderRequest.
Proof. solve_decision. Defined.
Global Instance trade_result_eq_dec : EqDecision TradeResult.
Proof. solve_decision. Defined.
Global Instance volume_plan_eq_dec : EqDecision VolumePlan.
Proof. solve_decision. Defined.
Global Instance spread_return_eq_dec : EqDecision SpreadReturn.
Proof. solve_decision. Defined.

(** The value of [round_to_step] when the step is not zero. *)
Definition stepped (vol step : Qc) : Qc :=
  (of_int (py_round (vol / step)) * step)%Qc.

(** The clamp of [place_market_order] and the clamp of
    [place_spread_orders] on their own. *)
Definition clamp_market (lo hi v : Qc) : Qc :=
  if ltb v lo then lo else if ltb hi v then hi else v.

Definition clamp_spread (lo hi v : Qc) : Qc := py_max lo (py_min hi v).

(** The value both quantizers return for a positive step and
    [volume_min <= volume_max]. *)
Definition quantized (info : SymbolInfo) (x : Qc) : Qc :=
  clamp_market (volume_min info) (volume_max info)
    (stepped x (volume_step info)).

(** The order type of the primary leg for a side that passed the
    validation of [place_spread_orders]. *)
Definition gold_type_of (side : string) : string :=
  if String.eqb (upper side) "LONG" then "BUY" else "SELL".

(** A terminal for worked examples: both symbols trade in steps of 0.01
    between 0.01 and 100 lots; [answer] is what [order_send] replies to
    a request, given the requests before it. *)
Definition example_info : SymbolInfo :=
  {| visible := true; volume_min := fl 0.01; volume_max := fl 100;
     volume_step := fl 0.01 |}.

Definition example_terminal
    (answer : list OrderRequest -> OrderRequest -> option OrderSendResult)
  : Terminal :=
  {| symbol_info := fun _ => Some example_info;
     symbol_select := fun _ => true;
     symbol_info_tick := fun _ => Some {| ask := fl 2650.5; bid := fl 2650.0 |};
     order_send := answer;
     last_error := "(1, 'Success')" |}.

Definition example_executor : MT5TradeExecutor :=
  {| magic_number := 234000; volume_multiplier := fl 1.0;
     primary_symbol := "XAUUSD"; secondary_symbol := "XAGUSD" |}.

(** A broker that rejects every order (return code 10006). *)
Definition reject_all (_ : list OrderRequest) (_ : OrderRequest)
  : option OrderSendResult :=
  Some {| retcode := 10006; order := 0; res_volume := 0%Qc; res_price := 0%Qc;
          res_comment := "Request rejected" |}.

(** A symbol whose minimum volume is not a multiple of its step. *)
Definition odd_min_info : SymbolInfo :=
  {| visible := true; volume_min := fl 0.875; volume_max := fl 10;
     volume_step := fl 0.5 |}.

Global Instance mt5_position_type_eq_dec : EqDecision mt5_position_type.
Proof. solve_decision. Defined.
Global Instance position_info_eq_dec : EqDecision PositionInfo.
Proof. solve_decision. Defined.
Global Instance close_deal_eq_dec : EqDecision CloseDeal.
Proof. solve_decision. Defined.

(** The order type of the secondary leg for a side that passed the
    validation of [place_spread_orders]. *)
Definition silver_type_of (side : string) : string :=
  if String.eqb (upper side) "LONG" then "SELL" else "BUY".

(** The terminal knows the symbol and reports a volume step of zero. *)
Definition zero_step (mt5 : Terminal) (symbol : string) : Prop :=
  ∃ info, symbol_info mt5 symbol = Some info ∧ volume_step info = 0%Qc.

(** A broker that fills every order as requested; tickets count up
    from 1000 with the requests received. *)
Definition accept_all (log : list OrderRequest) (rq : OrderRequest)
  : option OrderSendResult :=
  Some {| retcode := TRADE_RETCODE_DONE; order := 1000 + Z.of_nat (length log);
          res_volume := req_volume rq; res_price := req_price rq;
          res_comment := "Request executed" |}.

(** The result [_place_order_no_adjustment] builds from a fill. *)
Definition filled (ticket : Z) (v p : Qc) : TradeResult :=
  {| success := true; order_ticket := Some ticket; volume := v; price := p;
     comment := "Success"; error_code := None; error_description := None |}.

(** A terminal with the two legs of one spread open (tickets 1000 and
    1001); the broker rejects the closing deal of the first and fills
    the closing deal of the second. *)
Definition example_closing_terminal : ClosingTerminal :=
  {| ct_positions_get := fun _ t =>
       if bool_decide (t = 1000)
       then [ {| pos_symbol := "XAUUSD"; pos_type := POSITION_TYPE_BUY;
                 pos_volume := fl 0.01 |} ]
       else if bool_decide (t = 1001)
       then [ {| pos_symbol := "XAGUSD"; pos_type := POSITION_TYPE_SELL;
                 pos_volume := fl 0.10 |} ]
       else [];
     ct_symbol_info_tick := fun _ =>
       Some {| ask := fl 2650.5; bid := fl 2650.0 |};
     ct_order_send := fun log deal =>
       if bool_decide (cd_position deal = 1000)
       then Some {| retcode := 10006; order := 0; res_volume := 0%Qc;
                    res_price := 0%Qc; res_comment := "Request rejected" |}
       else Some {| retcode := TRADE_RETCODE_DONE;
                    order := 2000 + Z.of_nat (length log);
                    res_volume := cd_volume deal; res_price := cd_price deal;
                    res_comment := "Request executed" |} |}.



(** A terminal with the same two positions on which every closing deal
    is filled and a filled deal removes its position: a ticket is open
    until a deal for it is in the log. *)
Definition filling_closing_terminal : ClosingTerminal :=
  {| ct_positions_get := fun log t =>
       if bool_decide (t ∈ cd_position <$> log) then []
       else ct_positions_get example_closing_terminal [] t;
     ct_symbol_info_tick := ct_symbol_info_tick example_closing_terminal;
     ct_order_send := fun log deal =>
       Some {| retcode := TRADE_RETCODE_DONE;
               order := 2000 + Z.of_nat (length log);
               res_volume := cd_volume deal; res_price := cd_price deal;
               res_comment := "Request executed" |} |}.

End Executor.

(** ** [strategy/hybrid_rebalancer.py] *)

Module Hybrid.

(** [@dataclass RebalanceLevel] *)
Module RebalanceLevel.
Record t : Type := mk {
  zscore : Qc;
  executed : bool;
  timestamp : option Qc;
  gold_lots : Qc;
  silver_lots : Qc
}.
End RebalanceLevel.

(** The two [reason] texts of [check_hedge_drift], with the numbers
    they print. *)
Inductive Reason : Type :=
| SecondaryShort (abs_drift drift_pct : Qc)
| SecondaryLongBuyingPrimary (abs_drift drift_pct : Qc).

(** [@dataclass HedgeAdjustment] *)
Module HedgeAdjustment.
Record t : Type := mk {
  spread_id : string;
  symbol : string;
  action : string;
  quantity : Qc;
  reason : Reason;
  old_hedge : Qc;
  new_hedge : Qc;
  drift_pct : Qc
}.
End HedgeAdjustment.

(** The [position_data] dictionary built by [register_position]; its
    keys are fixed, so it is a record. *)
Module Position.
Record t : Type := mk {
  spread_id : string;
  side : string;
  entry_zscore : Qc;
  entry_hedge_ratio : Qc;
  current_hedge_ratio : Qc;
  gold_lots : Qc;
  silver_lots : Qc;
  total_position_size : Qc;
  size_per_level : Qc;
  levels : list RebalanceLevel.t;
  total_executed : Z;
  entry_time : Qc;
  last_adjustment_time : option Qc;
  primary_symbol : string;
  secondary_symbol : string
}.
End Position.

(** [class HybridRebalancer]: configuration and tracking state. *)
Record HybridRebalancer : Type := {
  scale_interval : Qc;
  max_zscore : Qc;
  initial_fraction : Qc;
  hedge_drift_threshold : Qc;
  min_absolute_drift : Qc;
  min_adjustment_interval : Z;
  enable_hedge_adjustment : bool;
  active_positions : gmap string Position.t;
  last_adjustment : gmap string Qc;
  adjustment_history : list HedgeAdjustment.t
}.

(** [__init__] with its default arguments. *)
Definition init (scale_interval max_zscore initial_fraction
                 hedge_drift_threshold min_absolute_drift : Qc)
                (min_adjustment_interval : Z)
                (enable_hedge_adjustment : bool) : HybridRebalancer :=
  {| scale_interval := scale_interval; max_zscore := max_zscore;
     initial_fraction := initial_fraction;
     hedge_drift_threshold := hedge_drift_threshold;
     min_absolute_drift := min_absolute_drift;
     min_adjustment_interval := min_adjustment_interval;
     enable_hedge_adjustment := enable_hedge_adjustment;
     active_positions := ∅; last_adjustment := ∅;
     adjustment_history := [] |}.

Definition default_rebalancer : HybridRebalancer :=
  init (fl 0.5) (fl 3.0) (fl 0.33) (fl 0.05) (fl 0.01) 3600 true.

Definition with_positions (self : HybridRebalancer)
    (ap : gmap string Position.t) : HybridRebalancer :=
  {| scale_interval := scale_interval self; max_zscore := max_zscore self;
     initial_fraction := initial_fraction self;
     hedge_drift_threshold := hedge_drift_threshold self;
     min_absolute_drift := min_absolute_drift self;
     min_adjustment_interval := min_adjustment_interval self;
     enable_hedge_adjustment := enable_hedge_adjustment self;
     active_positions := ap; last_adjustment := last_adjustment self;
     adjustment_history := adjustment_history self |}.

Definition with_tracking (self : HybridRebalancer)
    (la : gmap string Qc) (hist : list HedgeAdjustment.t) : HybridRebalancer :=
  {| scale_interval := scale_interval self; max_zscore := max_zscore self;
     initial_fraction := initial_fraction self;
     hedge_drift_threshold := hedge_drift_threshold self;
     min_absolute_drift := min_absolute_drift self;
     min_adjustment_interval := min_adjustment_interval self;
     enable_hedge_adjustment := enable_hedge_adjustment self;
     active_positions := active_positions self; last_adjustment := la;
     adjustment_history := hist |}.

(** The [while abs(current_z) < self.max_zscore] loop of
    [calculate_pyramiding_levels]; [next] is [current_z -= interval]
    (LONG) or [current_z += interval] (SHORT).  The loop need not
    terminate (an interval of zero; in the program also a positive
    interval too small to change the float [current_z]), so it runs on
    fuel: [None] is a loop still running when the fuel is spent.  The
    step is exact here, so the model and the program can differ in the
    number of levels where the float sum drifts off an exact level. *)
Fixpoint pyramid_loop (fuel : nat) (next : Qc -> Qc)
    (max_z initial_zscore current_z : Qc) : option (list RebalanceLevel.t) :=
  if ltb (py_abs current_z) max_z then
    match fuel with
    | O => None
    | S fuel' =>
        rest ← pyramid_loop fuel' next max_z initial_zscore (next current_z);
        Some (RebalanceLevel.mk current_z (eqb current_z initial_zscore)
                                None 0 0 :: rest)
    end
  else Some [].

Definition calculate_pyramiding_levels (fuel : nat) (self : HybridRebalancer)
    (initial_zscore : Qc) (side : string) : option (list RebalanceLevel.t) :=
  if String.eqb side "LONG" then
    body ← pyramid_loop fuel (fun z => z - scale_interval self)%Qc
              (max_zscore self) initial_zscore initial_zscore;
    Some (body ++ [RebalanceLevel.mk (- max_zscore self)%Qc false None 0 0])
  else
    body ← pyramid_loop fuel (fun z => z + scale_interval self)%Qc
              (max_zscore self) initial_zscore initial_zscore;
    Some (body ++ [RebalanceLevel.mk (max_zscore self) false None 0 0]).

(** [levels[0].executed = True] and the three assignments after it.
    The ladder always has its final level, so index 0 exists. *)
Definition mark_first (levels : list RebalanceLevel.t) (now g s : Qc)
  : list RebalanceLevel.t :=
  match levels with
  | l0 :: rest =>
      RebalanceLevel.mk (RebalanceLevel.zscore l0) true (Some now) g s :: rest
  | [] => []
  end.

Definition register_position (fuel : nat) (self : HybridRebalancer)
    (spread_id side : string) (entry_zscore entry_hedge_ratio : Qc)
    (gold_lots silver_lots total_position_size : Qc)
    (primary_symbol secondary_symbol : string) (now : Qc)
  : option (Position.t * HybridRebalancer) :=
  levels ← calculate_pyramiding_levels fuel self entry_zscore side;
  let levels := mark_first levels now gold_lots silver_lots in
  let position_data :=
    {| Position.spread_id := spread_id;
       Position.side := side;
       Position.entry_zscore := entry_zscore;
       Position.entry_hedge_ratio := entry_hedge_ratio;
       Position.current_hedge_ratio := entry_hedge_ratio;
       Position.gold_lots := gold_lots;
       Position.silver_lots := silver_lots;
       Position.total_position_size := total_position_size;
       Position.size_per_level :=
         (total_position_size / of_int (Z.of_nat (length levels)))%Qc;
       Position.levels := levels;
       Position.total_executed := 1;
       Position.entry_time := now;
       Position.last_adjustment_time := None;
       Position.primary_symbol := primary_symbol;
       Position.secondary_symbol := secondary_symbol |} in
  Some (position_data,
        with_tracking
          (with_positions self (<[spread_id := position_data]> (active_positions self)))
          (<[spread_id := now]> (last_adjustment self))
          (adjustment_history self)).

(** [check_hedge_drift].  The divisions cannot raise: the target is
    tested against zero first, and a nonzero target has a nonzero
    hedge ratio as factor. *)
Definition check_hedge_drift (self : HybridRebalancer) (spread_id : string)
    (current_hedge_ratio : Qc) (now : Qc) : option HedgeAdjustment.t :=
  if negb (enable_hedge_adjustment self) then None
  else
    match active_positions self !! spread_id with
    | None => None
    | Some position =>
        let last_adj := default 0%Qc (last_adjustment self !! spread_id) in
        let time_since_last := (now - last_adj)%Qc in
        if ltb time_since_last (of_int (min_adjustment_interval self)) then None
        else
          let primary_lots := Position.gold_lots position in
          let secondary_lots := Position.silver_lots position in
          let target_secondary_lots := (primary_lots * current_hedge_ratio)%Qc in
          if eqb target_secondary_lots 0 then None
          else
            let drift := (target_secondary_lots - secondary_lots)%Qc in
            let drift_pct := (py_abs drift / target_secondary_lots)%Qc in
            let abs_drift := py_abs drift in
            let percentage_exceeded := leb (hedge_drift_threshold self) drift_pct in
            let absolute_exceeded := leb (min_absolute_drift self) abs_drift in
            if negb percentage_exceeded && negb absolute_exceeded then None
            else
              let old_hedge := Position.current_hedge_ratio position in
              let '(adjust_symbol, adjust_action, adjust_quantity, reason) :=
                if ltb 0 drift
                then (Position.secondary_symbol position, "BUY", abs_drift,
                      SecondaryShort abs_drift drift_pct)
                else (Position.primary_symbol position, "BUY",
                      (abs_drift / current_hedge_ratio)%Qc,
                      SecondaryLongBuyingPrimary abs_drift drift_pct) in
              Some (HedgeAdjustment.mk spread_id adjust_symbol adjust_action
                      adjust_quantity reason old_hedge current_hedge_ratio
                      drift_pct)
    end.

(** The [for level in position['levels']] loop of
    [mark_pyramiding_executed]: the first level within 0.01 of
    [zscore] records the fill, then [break]. *)
Fixpoint mark_level (levels : list RebalanceLevel.t) (zscore g s now : Qc)
  : list RebalanceLevel.t :=
  match levels with
  | [] => []
  | level :: rest =>
      if ltb (py_abs (RebalanceLevel.zscore level - zscore)) (fl 0.01)
      then RebalanceLevel.mk (RebalanceLevel.zscore level) true (Some now) g s
             :: rest
      else level :: mark_level rest zscore g s now
  end.

Definition mark_pyramiding_executed (self : HybridRebalancer)
    (spread_id : string) (zscore gold_lots silver_lots now : Qc)
  : HybridRebalancer :=
  match active_positions self !! spread_id with
  | None => self
  | Some position =>
      let position' :=
        {| Position.spread_id := Position.spread_id position;
           Position.side := Position.side position;
           Position.entry_zscore := Position.entry_zscore position;
           Position.entry_hedge_ratio := Position.entry_hedge_ratio position;
           Position.current_hedge_ratio := Position.current_hedge_ratio position;
           Position.gold_lots := (Position.gold_lots position + gold_lots)%Qc;
           Position.silver_lots := (Position.silver_lots position + silver_lots)%Qc;
           Position.total_position_size := Position.total_position_size position;
           Position.size_per_level := Position.size_per_level position;
           Position.levels :=
             mark_level (Position.levels position) zscore gold_lots silver_lots now;
           Position.total_executed := Position.total_executed position + 1;
           Position.entry_time := Position.entry_time position;
           Position.last_adjustment_time := Position.last_adjustment_time position;
           Position.primary_symbol := Position.primary_symbol position;
           Position.secondary_symbol := Position.secondary_symbol position |} in
      with_positions self (<[spread_id := position']> (active_positions self))
  end.

(** [mark_hedge_adjusted]: lines 430-433 add to (BUY) or subtract from
    (any other action) [position['silver_lots']]; the symbol of the
    adjustment is not read.  The sum is exact here; the float sum of
    the program can differ from it in the last place. *)
Definition mark_hedge_adjusted (self : HybridRebalancer) (spread_id : string)
    (adjustment : HedgeAdjustment.t) (executed_quantity now : Qc)
  : HybridRebalancer :=
  match active_positions self !! spread_id with
  | None => self
  | Some position =>
      let silver :=
        if String.eqb (HedgeAdjustment.action adjustment) "BUY"
        then (Position.silver_lots position + executed_quantity)%Qc
        else (Position.silver_lots position - executed_quantity)%Qc in
      let position' :=
        {| Position.spread_id := Position.spread_id position;
           Position.side := Position.side position;
           Position.entry_zscore := Position.entry_zscore position;
           Position.entry_hedge_ratio := Position.entry_hedge_ratio position;
           Position.current_hedge_ratio := HedgeAdjustment.new_hedge adjustment;
           Position.gold_lots := Position.gold_lots position;
           Position.silver_lots := silver;
           Position.total_position_size := Position.total_position_size position;
           Position.size_per_level := Position.size_per_level position;
           Position.levels := Position.levels position;
           Position.total_executed := Position.total_executed position;
           Position.entry_time := Position.entry_time position;
           Position.last_adjustment_time := Some now;
           Position.primary_symbol := Position.primary_symbol position;
           Position.secondary_symbol := Position.secondary_symbol position |} in
      with_tracking
        (with_positions self (<[spread_id := position']> (active_positions self)))
        (<[spread_id := now]> (last_adjustment self))
        (adjustment_history self ++ [adjustment])
  end.

Definition remove_position (self : HybridRebalancer) (spread_id : string)
  : HybridRebalancer :=
  with_tracking
    (with_positions self (delete spread_id (active_positions self)))
    (delete spread_id (last_adjustment self))
    (adjustment_history self).

(** What can happen to the rebalancer while the position [sid],
    registered at time [t0], stays registered: any later call of the
    three marking and removal methods, and registrations of other
    positions.  The clock does not run backwards from [t0]. *)
Inductive later_state (sid : string) (t0 : Qc)
  : HybridRebalancer -> HybridRebalancer -> Prop :=
| later_refl self : later_state sid t0 self self
| later_pyramid self self' sid' z g s now :
    later_state sid t0 self self' ->
    later_state sid t0 self (mark_pyramiding_executed self' sid' z g s now)
| later_hedge self self' sid' adj q now :
    later_state sid t0 self self' ->
    (t0 ≤ now)%Qc ->
    later_state sid t0 self (mark_hedge_adjusted self' sid' adj q now)
| later_remove self self' sid' :
    later_state sid t0 self self' ->
    sid' ≠ sid ->
    later_state sid t0 self (remove_position self' sid')
| later_register self self' fuel sid' side z h g s total p1 p2 now pos self'' :
    later_state sid t0 self self' ->
    sid' ≠ sid ->
    register_position fuel self' sid' side z h g s total p1 p2 now
      = Some (pos, self'') ->
    later_state sid t0 self self''.

(** The dictionary [check_pyramiding] returns.  Its ['type'] entry is
    the constant ['PYRAMIDING']; its ['reason'] text prints the z-score
    of the level. *)
Module PyramidAction.
Record t : Type := mk {
  spread_id : string;
  side : string;
  level : RebalanceLevel.t;
  position_size : Qc;
  current_zscore : Qc;
  reason_zscore : Qc
}.
End PyramidAction.

(** The test of lines 222-225: [current_zscore <= level.zscore] for
    LONG, [current_zscore >= level.zscore] for any other side. *)
Definition should_trigger (side : string) (current_zscore : Qc)
    (level : RebalanceLevel.t) : bool :=
  if String.eqb side "LONG"
  then leb current_zscore (RebalanceLevel.zscore level)
  else leb (RebalanceLevel.zscore level) current_zscore.

(** The [for level in levels] loop of [check_pyramiding]: executed
    levels are skipped, the first other level that triggers is
    returned. *)
Fixpoint first_trigger (side : string) (current_zscore : Qc)
    (levels : list RebalanceLevel.t) : option RebalanceLevel.t :=
  match levels with
  | [] => None
  | level :: rest =>
      if RebalanceLevel.executed level
      then first_trigger side current_zscore rest
      else if should_trigger side current_zscore level then Some level
      else first_trigger side current_zscore rest
  end.

Definition check_pyramiding (self : HybridRebalancer) (spread_id : string)
    (current_zscore : Qc) : option PyramidAction.t :=
  match active_positions self !! spread_id with
  | None => None
  | Some position =>
      level ← first_trigger (Position.side position) current_zscore
                (Position.levels position);
      Some (PyramidAction.mk spread_id (Position.side position) level
              (Position.size_per_level position) current_zscore
              (RebalanceLevel.zscore level))
  end.

(** [check_all_rebalancing].  The source walks the keys of the
    dictionary in insertion order; the map of the model yields them in
    its own order, so only the membership of the two lists is
    meaningful here, not their order. *)
Definition check_all_rebalancing (self : HybridRebalancer)
    (current_zscore current_hedge_ratio now : Qc)
  : list PyramidAction.t * list HedgeAdjustment.t :=
  let keys := (map_to_list (active_positions self)).*1 in
  (omap (fun sid => check_pyramiding self sid current_zscore) keys,
   omap (fun sid => check_hedge_drift self sid current_hedge_ratio now) keys).

(** *** Notions used in the statements about the rebalancer *)

Global Instance level_eq_dec : EqDecision RebalanceLevel.t.
Proof. solve_decision. Defined.
Global Instance reason_eq_dec : EqDecision Reason.
Proof. solve_decision. Defined.
Global Instance adjustment_eq_dec : EqDecision HedgeAdjustment.t.
Proof. solve_decision. Defined.
Global Instance position_eq_dec : EqDecision Position.t.
Proof. solve_decision. Defined.
Global Instance rebalancer_eq_dec : EqDecision HybridRebalancer.
Proof. solve_decision. Defined.

Definition zscores (l : list RebalanceLevel.t) : list Qc :=
  RebalanceLevel.zscore <$> l.

Definition flags (l : list RebalanceLevel.t) : list bool :=
  RebalanceLevel.executed <$> l.

Fixpoint strictly_decreasing (l : list Qc) : bool :=
  match l with
  | a :: (b :: _) as r => ltb b a && strictly_decreasing r
  | _ => true
  end.

Fixpoint strictly_increasing (l : list Qc) : bool :=
  match l with
  | a :: (b :: _) as r => ltb a b && strictly_increasing r
  | _ => true
  end.

(** The levels the LONG loop creates from [z] on: above minus the
    maximum, not above [z], executed exactly at the entry z-score.
    [short_level_ok] mirrors it for the SHORT loop. *)
Definition long_level_ok (max_z init z : Qc) (lv : RebalanceLevel.t) : Prop :=
  (- max_z < RebalanceLevel.zscore lv)%Qc
  ∧ (RebalanceLevel.zscore lv ≤ z)%Qc
  ∧ RebalanceLevel.executed lv = eqb (RebalanceLevel.zscore lv) init.

Definition short_level_ok (max_z init z : Qc) (lv : RebalanceLevel.t) : Prop :=
  (RebalanceLevel.zscore lv < max_z)%Qc
  ∧ (z ≤ RebalanceLevel.zscore lv)%Qc
  ∧ RebalanceLevel.executed lv = eqb (RebalanceLevel.zscore lv) init.

(** A level as the loop of [calculate_pyramiding_levels] creates it. *)
Definition level (z : Q) (e : bool) : RebalanceLevel.t :=
  RebalanceLevel.mk (fl z) e None 0 0.

(** The rebalancer of the ladder example: interval 0.5, maximum 3.5. *)
Definition example_config : HybridRebalancer :=
  init (fl 0.5) (fl 3.5) (fl 0.33) (fl 0.05) (fl 0.01) 3600 true.

(** Lines 286-295 of [check_hedge_drift]. *)
Definition target_of (hr : Qc) (position : Position.t) : Qc :=
  (Position.gold_lots position * hr)%Qc.

Definition drift_of (hr : Qc) (position : Position.t) : Qc :=
  (target_of hr position - Position.silver_lots position)%Qc.

Definition drift_pct_of (hr : Qc) (position : Position.t) : Qc :=
  (py_abs (drift_of hr position) / target_of hr position)%Qc.

(** The position is registered, adjustment is enabled, and the
    cooldown of the position is over. *)
Definition ready (self : HybridRebalancer) (sid : string) (now : Qc)
    (position : Position.t) : Prop :=
  enable_hedge_adjustment self = true
  ∧ active_positions self !! sid = Some position
  ∧ (of_int (min_adjustment_interval self)
       ≤ now - default 0%Qc (last_adjustment self !! sid))%Qc.

(** The dual threshold of lines 309-315. *)
Definition triggered (self : HybridRebalancer) (hr : Qc)
    (position : Position.t) : Prop :=
  (hedge_drift_threshold self ≤ drift_pct_of hr position)%Qc
  ∨ (min_absolute_drift self ≤ py_abs (drift_of hr position))%Qc.

(** The adjustment built by lines 321-361; the quotient of the second
    branch is exact here. *)
Definition adjustment_of (sid : string) (hr : Qc) (position : Position.t)
  : HedgeAdjustment.t :=
  if ltb 0 (drift_of hr position)
  then HedgeAdjustment.mk sid (Position.secondary_symbol position) "BUY"
         (py_abs (drift_of hr position))
         (SecondaryShort (py_abs (drift_of hr position)) (drift_pct_of hr position))
         (Position.current_hedge_ratio position) hr (drift_pct_of hr position)
  else HedgeAdjustment.mk sid (Position.primary_symbol position) "BUY"
         (py_abs (drift_of hr position) / hr)%Qc
         (SecondaryLongBuyingPrimary (py_abs (drift_of hr position))
            (drift_pct_of hr position))
         (Position.current_hedge_ratio position) hr (drift_pct_of hr position).

(** The cooldown clock of [sid] was set at [t0] or later, and the
    configured interval is [interval]. *)
Definition cooling (sid : string) (t0 : Qc) (interval : Z)
    (self : HybridRebalancer) : Prop :=
  min_adjustment_interval self = interval
  ∧ ∃ t, last_adjustment self !! sid = Some t ∧ (t0 ≤ t)%Qc.

(** A position of the default rebalancer, registered at time 0 with the
    given lots, as [register_position] builds it. *)
Definition example_position (g s : Qc) : Position.t :=
  {| Position.spread_id := "S1";
     Position.side := "LONG";
     Position.entry_zscore := fl (-2.0);
     Position.entry_hedge_ratio := fl 0.7179;
     Position.current_hedge_ratio := fl 0.7179;
     Position.gold_lots := g;
     Position.silver_lots := s;
     Position.total_position_size := fl 0.3;
     Position.size_per_level := fl 0.1;
     Position.levels :=
       [RebalanceLevel.mk (fl (-2.0)) true (Some 0%Qc) g s;
        level (-2.5) false; level (-3.0) false];
     Position.total_executed := 1;
     Position.entry_time := 0%Qc;
     Position.last_adjustment_time := None;
     Position.primary_symbol := "XAUUSD";
     Position.secondary_symbol := "XAGUSD" |}.

Definition example_state (g s : Qc) : HybridRebalancer :=
  with_tracking
    (with_positions default_rebalancer {[ "S1" := example_position g s ]})
    {[ "S1" := 0%Qc ]} [].

(** The adjustment [check_hedge_drift] returns for the position with
    0.01 primary and 0.01 secondary lots at hedge ratio 0.7179: buy
    primary. *)
Definition buy_primary_adjustment : HedgeAdjustment.t :=
  HedgeAdjustment.mk "S1" "XAUUSD" "BUY" (fl 0.002821 / fl 0.7179)%Qc
    (SecondaryLongBuyingPrimary (fl 0.002821) (fl 0.002821 / fl 0.007179)%Qc)
    (fl 0.7179) (fl 0.7179) (fl 0.002821 / fl 0.007179)%Qc.

(** A ladder sorted for its side: strictly decreasing for LONG,
    strictly increasing otherwise. *)
Definition ladder_sorted (side : string) (levels : list RebalanceLevel.t) : Prop :=
  if String.eqb side "LONG"
  then strictly_decreasing (zscores levels) = true
  else strictly_increasing (zscores levels) = true.

(** A level within 0.01 of [z], the test of [mark_pyramiding_executed]. *)
Definition near (z : Qc) (lv : RebalanceLevel.t) : bool :=
  ltb (py_abs (RebalanceLevel.zscore lv - z)) (fl 0.01).

(** A level with its fill recorded. *)
Definition filled (lv : RebalanceLevel.t) (g s now : Qc) : RebalanceLevel.t :=
  RebalanceLevel.mk (RebalanceLevel.zscore lv) true (Some now) g s.

(** A rebalancer whose maximum, 3.005, lies within 0.01 of the ladder
    level -3.0: a LONG position entered at -2.0, with the levels -2.5
    and -3.0 executed since.  Its ladder is -2.0, -2.5, -3.0 (all
    executed) and -3.005. *)
Definition tight_config : HybridRebalancer :=
  init (fl 0.5) (fl 3.005) (fl 0.33) (fl 0.05) (fl 0.01) 3600 true.

Definition tight_state : HybridRebalancer :=
  match register_position 3 tight_config "S1" "LONG" (fl (-2.0)) (fl 0.7179)
          (fl 0.05) (fl 0.03) (fl 0.4) "XAUUSD" "XAGUSD" 0%Qc with
  | Some (_, registered) =>
      mark_pyramiding_executed
        (mark_pyramiding_executed registered "S1" (fl (-2.5)) (fl 0.05) (fl 0.03)
           (fl 100))
        "S1" (fl (-3.0)) (fl 0.05) (fl 0.03) (fl 200)
  | None => tight_config
  end.

(** The default rebalancer with the example position and a second
    position ["S2"], registered at time 0 as well. *)
Definition two_positions : HybridRebalancer :=
  match register_position 2 (example_state (fl 0.05) (fl 0.02)) "S2" "SHORT"
          (fl 2.0) (fl 0.7179) (fl 0.05) (fl 0.02) (fl 0.3)
          "XAUUSD" "XAGUSD" 0%Qc with
  | Some (_, registered) => registered
  | None => example_state (fl 0.05) (fl 0.02)
  end.

End Hybrid.

(** ** [core/setup_tracker.py] and [core/setup_recovery.py] *)

Module Recovery.

(** [@dataclass SetupPosition] *)
Record SetupPosition : Type := {
  spread_id : string;
  short_id : string;
  mt5_primary_ticket : Z;
  mt5_secondary_ticket : Z;
  pos_entry_zscore : Qc;
  primary_lots : Qc;
  secondary_lots : Qc;
  level : string;
  timestamp : string
}.

(** [@dataclass Setup] *)
Record Setup : Type := {
  setup_id : string;
  entry_time : string;
  entry_zscore : Qc;
  exit_zscore : option Qc;
  side : string;
  pair : string;
  entry_hedge_ratio : Qc;
  positions : list SetupPosition;
  status : string;
  last_updated : string
}.

(** One entry of the master index [setups.json]. *)
Record IndexEntry : Type := {
  idx_entry_time : string;
  idx_entry_zscore : Qc;
  idx_side : string;
  idx_pair : string;
  idx_total_positions : nat;
  idx_status : string
}.

Definition index_entry (s : Setup) : IndexEntry :=
  {| idx_entry_time := entry_time s; idx_entry_zscore := entry_zscore s;
     idx_side := side s; idx_pair := pair s;
     idx_total_positions := length (positions s); idx_status := status s |}.

(** [class SetupTracker]: the in-memory map and the two kinds of file
    under [positions_dir] (one detail file per setup, one master
    index).  Writes are taken to succeed. *)
Record SetupTracker : Type := {
  active_setups : gmap string Setup;
  setup_files : gmap string Setup;
  setups_index : gmap string IndexEntry
}.

(** [_save_setup] followed by its call of [_save_setups]. *)
Definition _save_setup (self : SetupTracker) (setup : Setup) : SetupTracker :=
  {| active_setups := active_setups self;
     setup_files := <[setup_id setup := setup]> (setup_files self);
     setups_index := index_entry <$> active_setups self |}.

Definition _save_setups (self : SetupTracker) : SetupTracker :=
  {| active_setups := active_setups self;
     setup_files := setup_files self;
     setups_index := index_entry <$> active_setups self |}.

(** [close_setup]: the setup object is changed in place (so the map
    holds the changed object while it is saved), saved, and then
    removed from the map. *)
Definition close_setup (self : SetupTracker) (sid : string) (exit_z : Qc)
    (now : string) : SetupTracker :=
  match active_setups self !! sid with
  | None => self
  | Some setup =>
      let setup' :=
        {| setup_id := setup_id setup; entry_time := entry_time setup;
           entry_zscore := entry_zscore setup; exit_zscore := Some exit_z;
           side := side setup; pair := pair setup;
           entry_hedge_ratio := entry_hedge_ratio setup;
           positions := positions setup; status := "CLOSED";
           last_updated := now |} in
      let changed :=
        {| active_setups := <[sid := setup']> (active_setups self);
           setup_files := setup_files self;
           setups_index := setups_index self |} in
      let saved := _save_setup changed setup' in
      _save_setups
        {| active_setups := delete sid (active_setups saved);
           setup_files := setup_files saved;
           setups_index := setups_index saved |}
  end.

(** [get_all_setup_tickets] *)
Definition get_all_setup_tickets (self : SetupTracker) (sid : string) : list Z :=
  match active_setups self !! sid with
  | None => []
  | Some setup =>
      flat_map (fun pos => [mt5_primary_ticket pos; mt5_secondary_ticket pos])
               (positions setup)
  end.

(** [verify_setup_on_mt5]; [mt5_tickets] is the set of tickets of
    [mt5.positions_get()]. *)
Definition verify_setup_on_mt5 (self : SetupTracker) (sid : string)
    (mt5_tickets : gset Z) : bool * list Z :=
  match active_setups self !! sid with
  | None => (false, [])
  | Some setup =>
      let missing :=
        flat_map (fun pos =>
                    (if bool_decide (mt5_primary_ticket pos ∈ mt5_tickets)
                     then [] else [mt5_primary_ticket pos])
                    ++ (if bool_decide (mt5_secondary_ticket pos ∈ mt5_tickets)
                        then [] else [mt5_secondary_ticket pos]))
                 (positions setup) in
      (bool_decide (length missing = 0%nat), missing)
  end.

(** The terminal as the recovery code uses it. *)
Inductive position_type : Type := POSITION_BUY | POSITION_SELL.

Record MT5Position : Type := {
  ticket : Z;
  symbol : string;
  volume : Qc;
  type : position_type;
  magic : Z
}.

Record CloseRequest : Type := {
  close_symbol : string;
  close_volume : Qc;
  close_type : Executor.mt5_order_type;
  close_position : Z;
  close_magic : Z;
  close_comment : string
}.

(** [positions_get b t] is [mt5.positions_get(ticket=t)]: the empty
    list stands for both [None] and the empty tuple, which the code
    does not tell apart.  [order_send] answers and moves the terminal
    to its next state; [None] is a missing answer, otherwise the
    return code. *)
Class Terminal (B : Type) : Type := {
  positions_get : B -> Z -> list MT5Position;
  order_send : B -> CloseRequest -> option Z * B
}.

Section close_all.
Context {B : Type} `{Terminal B}.

Definition close_request (sid : string) (t : Z) (position : MT5Position)
  : CloseRequest :=
  {| close_symbol := symbol position;
     close_volume := volume position;
     close_type := match type position with
                   | POSITION_BUY => Executor.ORDER_TYPE_SELL
                   | POSITION_SELL => Executor.ORDER_TYPE_BUY
                   end;
     close_position := t;
     close_magic := magic position;
     close_comment := "CLOSE_SETUP_" +:+ sid |}.

(** The [for ticket in tickets] loop of
    [close_all_positions_in_setup], with its two accumulators. *)
Fixpoint close_loop (sid : string) (tickets : list Z) (b : B)
    (success_count : nat) (failed_tickets : list Z) : nat * list Z * B :=
  match tickets with
  | [] => (success_count, failed_tickets, b)
  | t :: rest =>
      match positions_get b t with
      | [] => close_loop sid rest b success_count failed_tickets
      | position :: _ =>
          match order_send b (close_request sid t position) with
          | (None, b') =>
              close_loop sid rest b' success_count (failed_tickets ++ [t])
          | (Some rc, b') =>
              if bool_decide (rc ≠ Executor.TRADE_RETCODE_DONE)
              then close_loop sid rest b' success_count (failed_tickets ++ [t])
              else close_loop sid rest b' (S success_count) failed_tickets
          end
      end
  end.

Record CloseAllOutcome : Type := {
  result : bool;
  failed : list Z;
  tracker_after : SetupTracker;
  terminal_after : B
}.

Definition close_all_positions_in_setup (self : SetupTracker) (b : B)
    (sid : string) (now : string) : CloseAllOutcome :=
  let tickets := get_all_setup_tickets self sid in
  match tickets with
  | [] => {| result := false; failed := [];
             tracker_after := self; terminal_after := b |}
  | _ =>
      let '(success_count, failed_tickets, b') :=
        close_loop sid tickets b 0 [] in
      if bool_decide (success_count = length tickets)
      then {| result := true; failed := failed_tickets;
              tracker_after := close_setup self sid (fl 0.0) now;
              terminal_after := b' |}
      else {| result := false; failed := failed_tickets;
              tracker_after := self; terminal_after := b' |}
  end.

End close_all.

(** A terminal for worked examples: the open positions by ticket, and
    the tickets whose closing order the broker rejects.  A closing
    order that is accepted removes the position. *)
Record SimTerminal : Type := {
  open_positions : gmap Z MT5Position;
  rejecting : gset Z
}.

Definition TRADE_RETCODE_REJECT : Z := 10006.

Global Instance sim_terminal : Terminal SimTerminal := {|
  positions_get b t :=
    option_list (open_positions b !! t);
  order_send b rq :=
    if bool_decide (close_position rq ∈ rejecting b)
    then (Some TRADE_RETCODE_REJECT, b)
    else (Some Executor.TRADE_RETCODE_DONE,
          {| open_positions := delete (close_position rq) (open_positions b);
             rejecting := rejecting b |})
|}.

(** [_load_setups]: every setup listed in the master index whose detail
    file exists is read from that file.  A detail file gives back the
    setup that was written to it: [to_dict] writes every field, and
    [from_dict] reads every field back. *)
Definition _load_setups (files : gmap string Setup)
    (index : gmap string IndexEntry) : gmap string Setup :=
  map_imap (fun sid _ => files !! sid) index.

(** [SetupTracker.__init__] on a directory holding [files] and
    [index]. *)
Definition init (files : gmap string Setup) (index : gmap string IndexEntry)
  : SetupTracker :=
  {| active_setups := _load_setups files index;
     setup_files := files;
     setups_index := index |}.

(** [create_setup]; [stamp] is the [%Y%m%d_%H%M%S] text of the clock,
    [t_entry] and [t_updated] its two ISO readings. *)
Definition create_setup (self : SetupTracker) (z : Qc) (sd pr : string)
    (ratio : Qc) (stamp t_entry t_updated : string) : string * SetupTracker :=
  let sid := "setup_" +:+ stamp in
  let setup :=
    {| setup_id := sid; entry_time := t_entry; entry_zscore := z;
       exit_zscore := None; side := sd; pair := pr;
       entry_hedge_ratio := ratio; positions := []; status := "ACTIVE";
       last_updated := t_updated |} in
  (sid,
   _save_setup
     {| active_setups := <[sid := setup]> (active_setups self);
        setup_files := setup_files self;
        setups_index := setups_index self |}
     setup).

(** [add_position_to_setup]: the setup object held by the map is
    changed in place and saved. *)
Definition add_position_to_setup (self : SetupTracker) (sid : string)
    (spread short : string) (primary_ticket secondary_ticket : Z)
    (z primary secondary : Qc) (lvl : string) (t_position t_updated : string)
  : SetupTracker :=
  match active_setups self !! sid with
  | None => self
  | Some setup =>
      let position :=
        {| spread_id := spread; short_id := short;
           mt5_primary_ticket := primary_ticket;
           mt5_secondary_ticket := secondary_ticket;
           pos_entry_zscore := z; primary_lots := primary;
           secondary_lots := secondary; level := lvl;
           timestamp := t_position |} in
      let setup' :=
        {| setup_id := setup_id setup; entry_time := entry_time setup;
           entry_zscore := entry_zscore setup;
           exit_zscore := exit_zscore setup;
           side := side setup; pair := pair setup;
           entry_hedge_ratio := entry_hedge_ratio setup;
           positions := positions setup ++ [position];
           status := status setup; last_updated := t_updated |} in
      _save_setup
        {| active_setups := <[sid := setup']> (active_setups self);
           setup_files := setup_files self;
           setups_index := setups_index self |}
        setup'
  end.

(** [get_setup_positions] *)
Definition get_setup_positions (self : SetupTracker) (sid : string)
  : list SetupPosition :=
  match active_setups self !! sid with
  | None => []
  | Some setup => positions setup
  end.

(** [get_active_setups].  A setup object handed out by the tracker is
    the pair of the key under which the map holds it, which stands for
    the identity of the object, and its fields.  The map is a [gmap]:
    the order of the list is the order of its keys, not the order of
    insertion of the dictionary. *)
Definition get_active_setups (self : SetupTracker) : list (string * Setup) :=
  filter (fun kv => status kv.2 = "ACTIVE") (map_to_list (active_setups self)).

(** What ends [prompt_user_close_all] without an answer: choice 3
    calls [sys.exit(0)]; [input()] at the end of the input raises
    [EOFError]. *)
Inductive interrupt : Type := SystemExit (code : Z) | EOFError.

(** [str.isspace] and [str.strip()] on ASCII text. *)
Definition is_space (c : Ascii.ascii) : bool :=
  let n := Ascii.nat_of_ascii c in
  ((Nat.leb 9 n && Nat.leb n 13) || (Nat.leb 28 n && Nat.leb n 32))%bool.

Fixpoint lstrip (s : string) : string :=
  match s with
  | EmptyString => EmptyString
  | String c r => if is_space c then lstrip r else s
  end.

Definition strip (s : string) : string :=
  String.rev (lstrip (String.rev (lstrip s))).

(** [prompt_user_close_all]: [inputs] are the lines the operator
    types; the prompt is repeated until a line is 1, 2 or 3.  What is
    printed is not modelled. *)
Fixpoint prompt_user_close_all (inputs : list string)
  : (bool + interrupt) * list string :=
  match inputs with
  | [] => (inr EOFError, [])
  | line :: rest =>
      let choice := strip line in
      if String.eqb choice "1" then (inl true, rest)
      else if String.eqb choice "2" then (inl false, rest)
      else if String.eqb choice "3" then (inr (SystemExit 0), rest)
      else prompt_user_close_all rest
  end.

(** The fields of a setup object after the in-place change of
    [close_setup]. *)
Definition closed (setup : Setup) (exit_z : Qc) (now : string) : Setup :=
  {| setup_id := setup_id setup; entry_time := entry_time setup;
     entry_zscore := entry_zscore setup; exit_zscore := Some exit_z;
     side := side setup; pair := pair setup;
     entry_hedge_ratio := entry_hedge_ratio setup;
     positions := positions setup; status := "CLOSED";
     last_updated := now |}.

Section recovery_workflow.
Context {B : Type} `{Terminal B}.
(** [mt5.positions_get()] without a ticket: all open positions. *)
Variable positions_get_all : B -> list MT5Position.

Definition mt5_tickets (b : B) : gset Z :=
  list_to_set (ticket <$> positions_get_all b).

(** The [for setup in active_setups] loop of [check_all_setups]. *)
Fixpoint check_loop (self : SetupTracker) (b : B)
    (setups : list (string * Setup)) (valid invalid : list (string * Setup))
  : list (string * Setup) * list (string * Setup) :=
  match setups with
  | [] => (valid, invalid)
  | setup :: rest =>
      let '(all_found, _) :=
        verify_setup_on_mt5 self (setup_id setup.2) (mt5_tickets b) in
      if all_found
      then check_loop self b rest (valid ++ [setup]) invalid
      else check_loop self b rest valid (invalid ++ [setup])
  end.

(** [check_all_setups] *)
Definition check_all_setups (self : SetupTracker) (b : B)
  : list (string * Setup) * list (string * Setup) :=
  match get_active_setups self with
  | [] => ([], [])
  | active => check_loop self b active [] []
  end.

Record RecoveryOutcome : Type := {
  returned : list (string * Setup) + interrupt;
  recovered_tracker : SetupTracker;
  recovered_terminal : B;
  inputs_left : list string
}.

(** The [for setup in invalid_setups] loop of [recover_or_close_all].
    [clock i] is the time at which the [i]-th invalid setup is handled.
    When a setup is closed, [close_setup] changes the object that the
    map holds under that id; a kept setup that is this same object
    shows the change in the returned list. *)
Fixpoint recover_loop (self : SetupTracker) (b : B)
    (invalid_setups valid_setups : list (string * Setup))
    (inputs : list string) (clock : nat -> string) (i : nat)
  : RecoveryOutcome :=
  match invalid_setups with
  | [] => {| returned := inl valid_setups; recovered_tracker := self;
             recovered_terminal := b; inputs_left := inputs |}
  | setup :: rest =>
      match prompt_user_close_all inputs with
      | (inr stop, inputs') =>
          {| returned := inr stop; recovered_tracker := self;
             recovered_terminal := b; inputs_left := inputs' |}
      | (inl true, inputs') =>
          let sid := setup_id setup.2 in
          let out := close_all_positions_in_setup self b sid (clock i) in
          let valid_setups :=
            if result out
            then (fun kv => if decide (kv.1 = sid)
                            then (kv.1, closed kv.2 (fl 0.0) (clock i))
                            else kv) <$> valid_setups
            else valid_setups in
          recover_loop (tracker_after out) (terminal_after out) rest
            valid_setups inputs' clock (S i)
      | (inl false, inputs') =>
          recover_loop self b rest (valid_setups ++ [setup]) inputs' clock (S i)
      end
  end.

(** [recover_or_close_all] *)
Definition recover_or_close_all (self : SetupTracker) (b : B)
    (inputs : list string) (clock : nat -> string) : RecoveryOutcome :=
  let '(valid_setups, invalid_setups) := check_all_setups self b in
  match invalid_setups with
  | [] => {| returned := inl valid_setups; recovered_tracker := self;
             recovered_terminal := b; inputs_left := inputs |}
  | _ => recover_loop self b invalid_setups valid_setups inputs clock 0
  end.

End recovery_workflow.

(** All open positions of the example terminal. *)
Definition sim_positions (b : SimTerminal) : list MT5Position :=
  (map_to_list (open_positions b)).*2.

(** *** Notions used in the statements about recovery *)

Global Instance setup_position_eq_dec : EqDecision SetupPosition.
Proof. solve_decision. Defined.
Global Instance setup_eq_dec : EqDecision Setup.
Proof. solve_decision. Defined.
Global Instance index_entry_eq_dec : EqDecision IndexEntry.
Proof. solve_decision. Defined.
Global Instance tracker_eq_dec : EqDecision SetupTracker.
Proof. solve_decision. Defined.
Global Instance position_type_eq_dec : EqDecision position_type.
Proof. solve_decision. Defined.
Global Instance mt5_position_eq_dec : EqDecision MT5Position.
Proof. solve_decision. Defined.
Global Instance sim_terminal_eq_dec : EqDecision SimTerminal.
Proof. solve_decision. Defined.

(** A setup with one leg (tickets 101 and 102), as created and saved by
    the tracker. *)
Definition example_setup : Setup :=
  {| setup_id := "setup_20250101_093000";
     entry_time := "2025-01-01T09:30:00";
     entry_zscore := fl (-2.0);
     exit_zscore := None;
     side := "LONG";
     pair := "XAU/XAG";
     entry_hedge_ratio := fl 0.7179;
     positions :=
       [ {| spread_id := "101-102"; short_id := "093000";
            mt5_primary_ticket := 101; mt5_secondary_ticket := 102;
            pos_entry_zscore := fl (-2.0);
            primary_lots := fl 0.01; secondary_lots := fl 0.01;
            level := "initial"; timestamp := "2025-01-01T09:30:01" |} ];
     status := "ACTIVE";
     last_updated := "2025-01-01T09:30:01" |}.

Definition example_tracker : SetupTracker :=
  {| active_setups := {[ "setup_20250101_093000" := example_setup ]};
     setup_files := {[ "setup_20250101_093000" := example_setup ]};
     setups_index := {[ "setup_20250101_093000" := index_entry example_setup ]} |}.

Definition gold_leg : MT5Position :=
  {| ticket := 101; symbol := "XAUUSD"; volume := fl 0.01;
     type := POSITION_BUY; magic := 234000 |}.

Definition silver_leg : MT5Position :=
  {| ticket := 102; symbol := "XAGUSD"; volume := fl 0.01;
     type := POSITION_SELL; magic := 234000 |}.

(** The secondary leg (102) was closed by hand; the primary leg is open
    and the broker accepts its closing order. *)
Definition one_leg_left : SimTerminal :=
  {| open_positions := {[ 101 := gold_leg ]}; rejecting := ∅ |}.

Definition both_legs_open : SimTerminal :=
  {| open_positions := {[ 101 := gold_leg; 102 := silver_leg ]};
     rejecting := ∅ |}.

(** Every setup is held under its own id. *)
Definition well_named (m : gmap string Setup) : Prop :=
  map_Forall (fun sid s => setup_id s = sid) m.

(** Every open position is held under its own ticket. *)
Definition well_keyed (b : SimTerminal) : Prop :=
  map_Forall (fun t p => ticket p = t) (open_positions b).

Global Instance well_keyed_dec (b : SimTerminal) : Decision (well_keyed b).
Proof. unfold well_keyed. apply _. Defined.

(** One operation of the tracker. *)
Inductive tracker_step : SetupTracker -> SetupTracker -> Prop :=
| step_create self z sd pr ratio stamp t_entry t_updated :
    tracker_step self
      (create_setup self z sd pr ratio stamp t_entry t_updated).2
| step_add self sid spread short t1 t2 z primary secondary lvl
    t_position t_updated :
    tracker_step self
      (add_position_to_setup self sid spread short t1 t2 z primary secondary
         lvl t_position t_updated)
| step_close self sid exit_z now :
    tracker_step self (close_setup self sid exit_z now).

(** Memory and disk agree: every setup in memory is held under its own
    id, and the setups in memory are those the index lists and a detail
    file holds. *)
Definition on_disk (t : SetupTracker) : Prop :=
  well_named (active_setups t)
  ∧ ∀ k, active_setups t !! k
         = setups_index t !! k ≫= fun _ => setup_files t !! k.

(** [verify_setup_on_mt5] answers that all tickets were found. *)
Definition found_on {B : Type} (positions_get_all : B -> list MT5Position)
    (self : SetupTracker) (b : B) (setup : string * Setup) : Prop :=
  (verify_setup_on_mt5 self (setup_id setup.2)
     (mt5_tickets positions_get_all b)).1 = true.

Global Instance found_on_dec {B : Type}
    (positions_get_all : B -> list MT5Position) (self : SetupTracker) (b : B)
    (setup : string * Setup) :
  Decision (found_on positions_get_all self b setup).
Proof. unfold found_on. apply _. Defined.

(** The setup is not tracked under its id, or one of its tickets is
    not open on the example terminal. *)
Definition stays_invalid (self : SetupTracker) (b : SimTerminal)
    (setup : string * Setup) : Prop :=
  active_setups self !! setup_id setup.2 = None
  ∨ ∃ t, t ∈ get_all_setup_tickets self (setup_id setup.2)
         ∧ open_positions b !! t = None.

(** The operations that lead to [example_tracker] from an empty
    directory. *)
Definition example_history : SetupTracker :=
  add_position_to_setup
    (create_setup (init ∅ ∅) (fl (-2.0)) "LONG" "XAU/XAG" (fl 0.7179)
       "20250101_093000" "2025-01-01T09:30:00" "2025-01-01T09:30:00").2
    "setup_20250101_093000" "101-102" "093000" 101 102 (fl (-2.0))
    (fl 0.01) (fl 0.01) "initial" "2025-01-01T09:30:01" "2025-01-01T09:30:01".

End Recovery.

(** * Properties *)

(** Linear order goals on [Qc], through [lra] on the underlying [Q]. *)
Ltac qc_order :=
  try (exfalso; unfold Qcle, Qclt in *; lra);
  try (apply Qc_is_canon; unfold Qcle, Qclt in *; lra);
  unfold Qcle, Qclt in *; lra.

(** The same with sums, differences and opposites unfolded. *)
Ltac qc_arith :=
  unfold Qcle, Qclt, Qcminus, Qcplus, Qcopp, Q2Qc in *; simpl in *;
  rewrite ?Qred_correct in *; lra.

(** A conjunction of closed, decidable facts, one evaluation each. *)
Ltac compute_each := cbv zeta; repeat (split; [compute_done|]); compute_done.

(** ** Rounding *)

Lemma round_half_even_proper (x y : Q) :
  (x == y)%Q -> round_half_even x = round_half_even y.
Proof.
  intros E. unfold round_half_even.
  assert (Qfloor x = Qfloor y) as -> by (by rewrite E).
  assert ((x - inject_Z (Qfloor y) ?= 1 # 2)
          = (y - inject_Z (Qfloor y) ?= 1 # 2))%Q as ->; [|done].
  by rewrite E.
Qed.

Lemma round_half_even_inject (n : Z) : round_half_even (inject_Z n) = n.
Proof.
  unfold round_half_even. rewrite Qfloor_Z.
  assert ((inject_Z n - inject_Z n ?= 1 # 2)%Q = Lt) as ->; [|done].
  rewrite <- Qlt_alt. generalize (inject_Z n). intros q. lra.
Qed.

Lemma round_half_even_bounds (x : Q) :
  Qfloor x <= round_half_even x <= Qfloor x + 1.
Proof.
  unfold round_half_even.
  destruct (Qcompare _ _); [destruct (Z.even _)|..]; lia.
Qed.

Lemma round_half_even_mono (x y : Q) :
  (x <= y)%Q -> round_half_even x <= round_half_even y.
Proof.
  intros Hxy.
  pose proof (Qfloor_resp_le _ _ Hxy) as Hf.
  destruct (Z.eq_dec (Qfloor x) (Qfloor y)) as [E|NE].
  - unfold round_half_even. rewrite E.
    set (f := inject_Z (Qfloor y)). clearbody f.
    destruct (Qcompare (x - f) (1#2)) eqn:Cx;
      destruct (Qcompare (y - f) (1#2)) eqn:Cy;
      try (destruct (Z.even (Qfloor y))); try lia;
      rewrite <- ?Qeq_alt, <- ?Qlt_alt, <- ?Qgt_alt in Cx;
      rewrite <- ?Qeq_alt, <- ?Qlt_alt, <- ?Qgt_alt in Cy;
      exfalso; lra.
  - pose proof (round_half_even_bounds x).
    pose proof (round_half_even_bounds y). lia.
Qed.

Lemma of_int_le (a b : Z) : a <= b -> (of_int a ≤ of_int b)%Qc.
Proof.
  intros Hab. unfold of_int, Qcle. simpl. rewrite !Qred_correct.
  by rewrite <- Zle_Qle.
Qed.

Lemma py_round_of_int (n : Z) : py_round (of_int n) = n.
Proof.
  unfold py_round, of_int. simpl.
  rewrite (round_half_even_proper _ (inject_Z n)) by apply Qred_correct.
  apply round_half_even_inject.
Qed.

Lemma py_round_mono (x y : Qc) : (x ≤ y)%Qc -> py_round x <= py_round y.
Proof. intros Hxy. by apply round_half_even_mono. Qed.

Lemma Qcdiv_mult_cancel (x s : Qc) : s ≠ 0%Qc -> (x * s / s = x)%Qc.
Proof. intros Hs. by field. Qed.

Lemma Qcdiv_le_mono (x y s : Qc) :
  (0 < s)%Qc -> (x ≤ y)%Qc -> (x / s ≤ y / s)%Qc.
Proof.
  intros Hs Hxy. unfold Qcdiv. apply Qcmult_le_compat_r; [done|].
  by apply Qclt_le_weak, Qcinv_pos.
Qed.

Lemma Qclt_ne_0 (s : Qc) : (0 < s)%Qc -> s ≠ 0%Qc.
Proof. intros Hs ->. by apply (Qclt_not_eq 0 0). Qed.

Lemma py_div_Return (x s : Qc) : s ≠ 0%Qc -> py_div x s = Return (x / s)%Qc.
Proof. intros Hs. unfold py_div. by rewrite bool_decide_eq_false_2. Qed.

(** ** Volume quantization *)

Section executor_facts.
Import Executor.

Lemma round_to_step_Return (vol step : Qc) :
  step ≠ 0%Qc -> round_to_step vol step = Return (stepped vol step).
Proof. intros Hs. unfold round_to_step. by rewrite py_div_Return. Qed.

Lemma stepped_mono (x y s : Qc) :
  (0 < s)%Qc -> (x ≤ y)%Qc -> (stepped x s ≤ stepped y s)%Qc.
Proof.
  intros Hs Hxy. unfold stepped.
  apply Qcmult_le_compat_r; [|by apply Qclt_le_weak].
  by apply of_int_le, py_round_mono, Qcdiv_le_mono.
Qed.

Lemma stepped_multiple (k : Z) (s : Qc) :
  s ≠ 0%Qc -> stepped (of_int k * s) s = (of_int k * s)%Qc.
Proof.
  intros Hs. unfold stepped. by rewrite Qcdiv_mult_cancel, py_round_of_int.
Qed.

Lemma clamp_market_spread (lo hi v : Qc) :
  (lo ≤ hi)%Qc -> clamp_market lo hi v = clamp_spread lo hi v.
Proof.
  intros Hlh. unfold clamp_market, clamp_spread, py_max, py_min, ltb.
  repeat case_bool_decide; try done; qc_order.
Qed.

Lemma clamp_market_range (lo hi v : Qc) :
  (lo ≤ hi)%Qc -> (lo ≤ clamp_market lo hi v ∧ clamp_market lo hi v ≤ hi)%Qc.
Proof.
  intros Hlh. unfold clamp_market, ltb.
  repeat case_bool_decide; split; qc_order.
Qed.

Lemma clamp_market_fixed (lo hi v : Qc) :
  (lo ≤ v)%Qc -> (v ≤ hi)%Qc -> clamp_market lo hi v = v.
Proof.
  intros Hl Hh. unfold clamp_market, ltb.
  repeat case_bool_decide; try done; qc_order.
Qed.

Lemma clamp_market_mono (lo hi v w : Qc) :
  (lo ≤ hi)%Qc -> (v ≤ w)%Qc ->
  (clamp_market lo hi v ≤ clamp_market lo hi w)%Qc.
Proof.
  intros Hlh Hvw. unfold clamp_market, ltb.
  repeat case_bool_decide; qc_order.
Qed.

Lemma clamp_market_multiple (a b : Z) (s v : Qc) :
  (∃ k, v = (of_int k * s)%Qc) ->
  ∃ k, clamp_market (of_int a * s) (of_int b * s) v = (of_int k * s)%Qc.
Proof.
  intros [k ->]. unfold clamp_market.
  destruct (ltb _ _); [by exists a|].
  destruct (ltb _ _); [by exists b|by exists k].
Qed.

Lemma adjust_volume_market_Return (info : SymbolInfo) (x : Qc) :
  volume_step info ≠ 0%Qc ->
  adjust_volume_market info x
  = Return (clamp_market (volume_min info) (volume_max info)
              (stepped x (volume_step info))).
Proof.
  intros Hs. unfold adjust_volume_market. by rewrite round_to_step_Return.
Qed.

Lemma adjust_volume_spread_Return (info : SymbolInfo) (x : Qc) :
  volume_step info ≠ 0%Qc ->
  adjust_volume_spread info x
  = Return (clamp_spread (volume_min info) (volume_max info)
              (stepped x (volume_step info))).
Proof.
  intros Hs. unfold adjust_volume_spread. by rewrite round_to_step_Return.
Qed.

(** The two quantizers of the executor return the same value. *)
Lemma quantizers_agree (info : SymbolInfo) (x : Qc) :
  (0 < volume_step info)%Qc ->
  (volume_min info ≤ volume_max info)%Qc ->
  adjust_volume_market info x = Return (quantized info x)
  ∧ adjust_volume_spread info x = Return (quantized info x).
Proof.
  intros Hs Hmm. pose proof (Qclt_ne_0 _ Hs).
  rewrite adjust_volume_market_Return, adjust_volume_spread_Return by done.
  unfold quantized. by rewrite clamp_market_spread.
Qed.

Lemma quantized_mono (info : SymbolInfo) (x x' : Qc) :
  (0 < volume_step info)%Qc ->
  (volume_min info ≤ volume_max info)%Qc ->
  (x ≤ x')%Qc -> (quantized info x ≤ quantized info x')%Qc.
Proof.
  intros Hs Hmm Hx. by apply clamp_market_mono, stepped_mono.
Qed.

Lemma quantized_idempotent (info : SymbolInfo) (a b : Z) (x : Qc) :
  (0 < volume_step info)%Qc ->
  (volume_min info ≤ volume_max info)%Qc ->
  volume_min info = (of_int a * volume_step info)%Qc ->
  volume_max info = (of_int b * volume_step info)%Qc ->
  quantized info (quantized info x) = quantized info x.
Proof.
  intros Hs Hmm Ha Hb. pose proof (Qclt_ne_0 _ Hs) as Hne.
  destruct (clamp_market_multiple a b (volume_step info)
              (stepped x (volume_step info))) as [k Hk]; [by eexists|].
  rewrite <- Ha, <- Hb in Hk. fold (quantized info x) in Hk.
  destruct (clamp_market_range (volume_min info) (volume_max info)
              (stepped x (volume_step info)) Hmm) as [Hlo Hhi].
  fold (quantized info x) in Hlo, Hhi.
  unfold quantized at 1. rewrite Hk at 1. rewrite stepped_multiple by done.
  rewrite <- Hk. by apply clamp_market_fixed.
Qed.

(** C8, as stated, fails: with step 0.5, minimum 0.875 and maximum 10
    (a positive step, minimum below maximum) the raw volume 0.5 is
    quantized to 0.875, and 0.875 is quantized to 1.0.  Both quantizers
    of the executor behave so. *)
Lemma quantize_not_idempotent :
  (0 < volume_step odd_min_info)%Qc
  ∧ (volume_min odd_min_info ≤ volume_max odd_min_info)%Qc
  ∧ adjust_volume_market odd_min_info (fl 0.5) = Return (fl 0.875)
  ∧ adjust_volume_market odd_min_info (fl 0.875) = Return (fl 1.0)
  ∧ adjust_volume_spread odd_min_info (fl 0.5) = Return (fl 0.875)
  ∧ adjust_volume_spread odd_min_info (fl 0.875) = Return (fl 1.0)
  ∧ fl 0.875 ≠ fl 1.0.
Proof. compute_each. Qed.

(** C8, amended.  For a positive step and [volume_min <= volume_max],
    volume quantization (round to the nearest multiple of the step, then
    clamp) is monotonic: a larger raw volume never yields a smaller
    result.  It is idempotent when, in addition, the minimum and the
    maximum volume are integer multiples of the step.  Both hold for the
    quantizer of [place_market_order] and for the one of
    [place_spread_orders], which return the same value. *)
Theorem quantize_monotone_idempotent (info : SymbolInfo) :
  (0 < volume_step info)%Qc ->
  (volume_min info ≤ volume_max info)%Qc ->
  (∀ x x' : Qc, (x ≤ x')%Qc ->
     ∃ y y' : Qc,
       adjust_volume_market info x = Return y
       ∧ adjust_volume_spread info x = Return y
       ∧ adjust_volume_market info x' = Return y'
       ∧ adjust_volume_spread info x' = Return y'
       ∧ (y ≤ y')%Qc)
  ∧ (∀ (a b : Z) (x : Qc),
       volume_min info = (of_int a * volume_step info)%Qc ->
       volume_max info = (of_int b * volume_step info)%Qc ->
       ∃ y : Qc,
         adjust_volume_market info x = Return y
         ∧ adjust_volume_spread info x = Return y
         ∧ adjust_volume_market info y = Return y
         ∧ adjust_volume_spread info y = Return y).
Proof.
  intros Hs Hmm. split.
  - intros x x' Hx. exists (quantized info x), (quantized info x').
    destruct (quantizers_agree info x Hs Hmm) as [-> ->].
    destruct (quantizers_agree info x' Hs Hmm) as [-> ->].
    repeat split. by apply quantized_mono.
  - intros a b x Ha Hb. exists (quantized info x).
    destruct (quantizers_agree info x Hs Hmm) as [-> ->].
    destruct (quantizers_agree info (quantized info x) Hs Hmm) as [-> ->].
    by rewrite (quantized_idempotent info a b).
Qed.

Lemma quantize_monotone_idempotent_witness :
  (0 < volume_step example_info)%Qc
  ∧ (volume_min example_info ≤ volume_max example_info)%Qc
  ∧ (∃ y y' : Qc,
       adjust_volume_market example_info (fl 0.014) = Return y
       ∧ adjust_volume_spread example_info (fl 0.014) = Return y
       ∧ adjust_volume_market example_info (fl 0.016) = Return y'
       ∧ adjust_volume_spread example_info (fl 0.016) = Return y'
       ∧ (y ≤ y')%Qc)
  ∧ (∃ y : Qc,
       adjust_volume_market example_info (fl 0.016) = Return y
       ∧ adjust_volume_spread example_info (fl 0.016) = Return y
       ∧ adjust_volume_market example_info y = Return y
       ∧ adjust_volume_spread example_info y = Return y).
Proof.
  assert (0 < volume_step example_info)%Qc as Hs by reflexivity.
  assert (volume_min example_info ≤ volume_max example_info)%Qc as Hmm
    by compute_done.
  destruct (quantize_monotone_idempotent example_info Hs Hmm) as [Hmono Hidem].
  split; [exact Hs|]. split; [exact Hmm|]. split.
  - apply (Hmono (fl 0.014) (fl 0.016)). compute_done.
  - apply (Hidem 1 10000 (fl 0.016)); compute_done.
Defined.

(** ** Volumes and orders of a spread *)


(** Rounding to the step moves a volume by at most half a step. *)
Lemma round_half_even_close (x : Q) :
  (Qabs (inject_Z (round_half_even x) - x) <= 1 # 2)%Q.
Proof.
  unfold round_half_even.
  pose proof (Qfloor_le x) as Hlo. pose proof (Qlt_floor x) as Hhi.
  rewrite inject_Z_plus in Hhi.
  apply Qabs_Qle_condition.
  destruct (Qcompare (x - inject_Z (Qfloor x)) (1 # 2)) eqn:C;
    rewrite <- ?Qeq_alt, <- ?Qlt_alt, <- ?Qgt_alt in C;
    try destruct (Z.even (Qfloor x));
    rewrite ?inject_Z_plus;
    set (f := inject_Z (Qfloor x)) in *; clearbody f;
    change (inject_Z 1) with 1%Q in *; split; lra.
Qed.

Lemma stepped_close (x s : Qc) :
  (0 < s)%Qc -> (py_abs (stepped x s - x) ≤ s / fl 2)%Qc.
Proof.
  intros Hs. unfold stepped.
  assert (of_int (py_round (x / s)) * s - x
          = (of_int (py_round (x / s)) - x / s) * s)%Qc as ->
    by (field; by apply Qclt_ne_0).
  unfold py_abs. rewrite Qcabs_Qcmult, (Qcabs_pos s) by by apply Qclt_le_weak.
  assert (s / fl 2 = fl 0.5 * s)%Qc as ->.
  { assert (fl 0.5 = 1 / fl 2)%Qc as -> by (by apply Qc_is_canon).
    field. done. }
  apply Qcmult_le_compat_r; [|by apply Qclt_le_weak].
  unfold Qcle, Qcabs, Qcminus, Qcplus, Qcopp, of_int, py_round, fl, Q2Qc.
  cbn [this]. rewrite !Qred_correct.
  eapply Qle_trans; [apply (round_half_even_close (this (x / s)%Qc))|].
  unfold Qle. simpl. lia.
Qed.



(** [_place_order_no_adjustment] sends at most one request, for the
    symbol and volume it was given. *)
Lemma place_order_log (self : MT5TradeExecutor) (mt5 : Terminal)
    (symbol order_type : string) (vol : Qc) (sl tp : option Qc)
    (deviation : Z) (cmt : string) (log : list OrderRequest) :
  let out := _place_order_no_adjustment self mt5 symbol order_type vol sl tp
               deviation cmt log in
  out.2 = log
  ∨ ∃ rq, out.2 = log ++ [rq] ∧ req_symbol rq = symbol ∧ req_volume rq = vol.
Proof.
  unfold _place_order_no_adjustment.
  destruct (symbol_info mt5 symbol) as [info|]; [|by left].
  destruct (negb (visible info) && negb (symbol_select mt5 symbol)); [by left|].
  destruct (symbol_info_tick mt5 symbol) as [tick|]; [|by left].
  destruct (order_side order_type tick) as [px ty].
  unfold exec_bind, send. simpl.
  destruct (order_send mt5 log _) as [r|]; [|right; by eexists].
  destruct (bool_decide _); right; by eexists.
Qed.

(** A successful result comes from one request, answered with
    [TRADE_RETCODE_DONE]. *)
Lemma place_order_success (self : MT5TradeExecutor) (mt5 : Terminal)
    (symbol order_type : string) (vol : Qc) (sl tp : option Qc)
    (deviation : Z) (cmt : string) (log log' : list OrderRequest)
    (r : TradeResult) :
  _place_order_no_adjustment self mt5 symbol order_type vol sl tp deviation cmt log
  = (Return r, log') ->
  success r = true ->
  ∃ rq ans,
    log' = log ++ [rq]
    ∧ req_symbol rq = symbol ∧ req_volume rq = vol
    ∧ req_type rq = (if String.eqb (upper order_type) "BUY"
                     then ORDER_TYPE_BUY else ORDER_TYPE_SELL)
    ∧ req_comment rq = cmt
    ∧ order_send mt5 log rq = Some ans
    ∧ retcode ans = TRADE_RETCODE_DONE
    ∧ order_ticket r = Some (order ans)
    ∧ volume r = res_volume ans ∧ price r = res_price ans.
Proof.
  unfold _place_order_no_adjustment.
  destruct (symbol_info mt5 symbol) as [info|]; [|by intros [= <- <-]].
  destruct (negb (visible info) && negb (symbol_select mt5 symbol));
    [by intros [= <- <-]|].
  destruct (symbol_info_tick mt5 symbol) as [tick|]; [|done].
  unfold order_side. destruct (String.eqb (upper order_type) "BUY");
    unfold exec_bind, send, exec_ret; simpl;
    (destruct (order_send mt5 log _) as [ans|] eqn:Hsend;
     [|by intros [= <- <-]]);
    (case_bool_decide as Hrc; [by intros [= <- <-]|]);
    intros [= <- <-] _; eexists _, ans; repeat split; try done;
    by apply dec_stable.
Qed.

(** [place_spread_orders] once the side is valid and the volumes are
    planned. *)
Lemma place_spread_orders_unfold (self : MT5TradeExecutor) (mt5 : Terminal)
    (gold_volume silver_volume : Qc) (side : string) (entry_zscore : Qc)
    (sl_gold tp_gold sl_silver tp_silver : option Qc) (short_id : string)
    (log : list OrderRequest) (plan : VolumePlan) :
  upper side = "LONG" ∨ upper side = "SHORT" ->
  plan_volumes self mt5 gold_volume silver_volume = Return plan ->
  place_spread_orders self mt5 gold_volume silver_volume side entry_zscore
    sl_gold tp_gold sl_silver tp_silver short_id log
  = match _place_order_no_adjustment self mt5 (primary_symbol self)
            (gold_type_of side) (gold_adjusted plan) sl_gold tp_gold 20
            ("ID:" +:+ short_id) log with
    | (Raise e, log1) => (Raise e, log1)
    | (Return gold_result, log1) =>
        if negb (success gold_result)
        then (Raise (UnboundLocalError "spread_id"), log1)
        else
          match _place_order_no_adjustment self mt5 (secondary_symbol self)
                  (silver_type_of side) (silver_adjusted plan) sl_silver
                  tp_silver 20 ("ID:" +:+ short_id) log1 with
          | (Raise e, log2) => (Raise e, log2)
          | (Return silver_result, log2) =>
              if negb (success silver_result)
              then (Return (Triple3 (gold_result, silver_result) None None), log2)
              else (Return (Triple3 (gold_result, silver_result)
                              (Some (ticket_text (order_ticket gold_result)
                                       +:+ "-"
                                       +:+ ticket_text (order_ticket silver_result)))
                              (Some entry_zscore)), log2)
          end
    end.
Proof.
  intros Hside Hplan.
  unfold place_spread_orders, exec_bind, exec_lift, exec_ret, exec_raise,
    gold_type_of, silver_type_of.
  destruct Hside as [Hs|Hs]; rewrite Hs; simpl; rewrite Hplan;
    destruct (_place_order_no_adjustment self mt5 (primary_symbol self) _ _ _ _ _ _ log)
      as [[g|e] log1]; try done;
    destruct (success g) eqn:Hg; simpl; try done;
    destruct (_place_order_no_adjustment self mt5 (secondary_symbol self) _ _ _ _ _ _ log1)
      as [[sv|e] log2]; try done;
    by destruct (success sv).
Qed.





(** The secondary volume follows the quantized primary: raw volumes
    0.016 and 0.024 (ratio 1.5) give 0.02 and 0.03, where rounding the
    raw secondary on its own would give 0.02. *)
Lemma secondary_follows_quantized_primary_example :
  plan_volumes example_executor (example_terminal reject_all)
    (fl 0.016) (fl 0.024)
  = Return {| hedge_ratio := fl 1.5; gold_adjusted := fl 0.02;
              silver_adjusted := fl 0.03; final_ratio := fl 1.5;
              ratio_error := 0%Qc |}
  ∧ adjust_volume_spread example_info (fl 0.024) = Return (fl 0.02).
Proof. compute_each. Qed.

(** C5.  When the primary order of [place_spread_orders] fails, no
    secondary order is sent (at most the primary request reached the
    terminal), but the function does not hand back a result: building
    the returned tuple reads the local name [spread_id], which is bound
    only after both orders succeeded, so the call raises
    [UnboundLocalError]. *)
Theorem primary_failure_reads_unbound_spread_id (self : MT5TradeExecutor)
    (mt5 : Terminal) (gold_volume silver_volume : Qc) (side : string)
    (entry_zscore : Qc) (sl_gold tp_gold sl_silver tp_silver : option Qc)
    (short_id : string) (log log' : list OrderRequest)
    (plan : VolumePlan) (gold_result : TradeResult) :
  upper side = "LONG" ∨ upper side = "SHORT" ->
  plan_volumes self mt5 gold_volume silver_volume = Return plan ->
  _place_order_no_adjustment self mt5 (primary_symbol self) (gold_type_of side)
    (gold_adjusted plan) sl_gold tp_gold 20 ("ID:" +:+ short_id) log
  = (Return gold_result, log') ->
  success gold_result = false ->
  place_spread_orders self mt5 gold_volume silver_volume side entry_zscore
    sl_gold tp_gold sl_silver tp_silver short_id log
  = (Raise (UnboundLocalError "spread_id"), log')
  ∧ (log' = log
     ∨ ∃ rq, log' = log ++ [rq] ∧ req_symbol rq = primary_symbol self
             ∧ req_volume rq = gold_adjusted plan).
Proof.
  intros Hside Hplan Hgold Hfail. split.
  - unfold place_spread_orders, exec_bind, exec_lift.
    unfold gold_type_of in Hgold.
    destruct Hside as [Hs|Hs]; rewrite Hs in *; simpl in *;
      rewrite Hplan, Hgold, Hfail; done.
  - pose proof (place_order_log self mt5 (primary_symbol self)
                  (gold_type_of side) (gold_adjusted plan) sl_gold tp_gold 20
                  ("ID:" +:+ short_id) log) as Hlog.
    simpl in Hlog. by rewrite Hgold in Hlog.
Qed.

Lemma primary_failure_reads_unbound_spread_id_witness :
  place_spread_orders example_executor (example_terminal reject_all)
    (fl 0.01) (fl 0.1) "LONG" (fl (-2.0)) None None None None "093000" []
  = (Raise (UnboundLocalError "spread_id"),
     [ {| req_symbol := "XAUUSD"; req_volume := fl 0.01;
          req_type := ORDER_TYPE_BUY; req_price := fl 2650.5;
          req_deviation := 20; req_magic := 234000;
          req_comment := "ID:093000"; req_sl := None; req_tp := None |} ]).
Proof.
  refine (proj1 (primary_failure_reads_unbound_spread_id example_executor
            (example_terminal reject_all) (fl 0.01) (fl 0.1) "LONG" (fl (-2.0))
            None None None None "093000" [] _
            {| hedge_ratio := fl 10.0; gold_adjusted := fl 0.01;
               silver_adjusted := fl 0.10; final_ratio := fl 10.0;
               ratio_error := 0%Qc |}
            (failed (Some 0) 0 0 "10006: Request rejected") _ _ _ _)).
  - left. reflexivity.
  - compute_done.
  - compute_done.
  - reflexivity.
Defined.

End executor_facts.

(** ** Pyramid ladder *)

Section hybrid_facts.
Import Hybrid.

(** More fuel does not change the result of the loop. *)
Lemma pyramid_loop_fuel (fuel fuel' : nat) next max_z init z l :
  (fuel ≤ fuel')%nat ->
  pyramid_loop fuel next max_z init z = Some l ->
  pyramid_loop fuel' next max_z init z = Some l.
Proof.
  revert fuel' z l. induction fuel as [|fuel IH]; intros fuel' z l Hle.
  - destruct fuel'; simpl; destruct (ltb _ _); done.
  - destruct fuel' as [|fuel']; [lia|]. simpl.
    destruct (ltb _ _); [|done].
    destruct (pyramid_loop fuel _ _ _ _) as [rest|] eqn:E; [|done].
    rewrite (IH fuel' _ rest); [done|lia|done].
Qed.

Lemma calculate_pyramiding_levels_fuel (fuel fuel' : nat) self z side l :
  (fuel ≤ fuel')%nat ->
  calculate_pyramiding_levels fuel self z side = Some l ->
  calculate_pyramiding_levels fuel' self z side = Some l.
Proof.
  intros Hle. unfold calculate_pyramiding_levels.
  destruct (String.eqb side "LONG");
    destruct (pyramid_loop fuel _ _ _ _) as [body|] eqn:E; try done;
    by rewrite (pyramid_loop_fuel _ _ _ _ _ _ _ Hle E).
Qed.

(** The ladder reads only the interval and the maximum of the
    configuration. *)
Lemma calculate_pyramiding_levels_config (fuel : nat) self self' z side :
  scale_interval self = scale_interval self' ->
  max_zscore self = max_zscore self' ->
  calculate_pyramiding_levels fuel self z side
  = calculate_pyramiding_levels fuel self' z side.
Proof. intros Hs Hm. unfold calculate_pyramiding_levels. by rewrite Hs, Hm. Qed.

(** C7.  With interval 0.5 and maximum 3.5, the ladder of a LONG setup
    entered at -2.0 is exactly -2.0 (executed), -2.5, -3.0, -3.5, and the
    ladder of a SHORT setup entered at 2.0 is exactly 2.0 (executed),
    2.5, 3.0, 3.5: strictly decreasing (increasing), without duplicates,
    only the entry level executed, the last level at minus (plus) the
    maximum.  [register_position] stores the LONG ladder with the fill
    recorded on its first level.  Three rounds of the loop suffice. *)
Theorem pyramid_ladder_example (fuel : nat) (self : HybridRebalancer) :
  (3 ≤ fuel)%nat ->
  scale_interval self = fl 0.5 ->
  max_zscore self = fl 3.5 ->
  let long := [level (-2.0) true; level (-2.5) false;
               level (-3.0) false; level (-3.5) false] in
  let short := [level 2.0 true; level 2.5 false;
                level 3.0 false; level 3.5 false] in
  calculate_pyramiding_levels fuel self (fl (-2.0)) "LONG" = Some long
  ∧ calculate_pyramiding_levels fuel self (fl 2.0) "SHORT" = Some short
  ∧ strictly_decreasing (zscores long) = true
  ∧ strictly_increasing (zscores short) = true
  ∧ NoDup (zscores long) ∧ NoDup (zscores short)
  ∧ flags long = [true; false; false; false]
  ∧ flags short = [true; false; false; false]
  ∧ list.last (zscores long) = Some (- max_zscore self)%Qc
  ∧ list.last (zscores short) = Some (max_zscore self)
  ∧ (∀ sid h g s total p1 p2 now,
       ∃ pos self',
         register_position fuel self sid "LONG" (fl (-2.0)) h g s total p1 p2 now
           = Some (pos, self')
         ∧ Position.levels pos
           = [RebalanceLevel.mk (fl (-2.0)) true (Some now) g s;
              level (-2.5) false; level (-3.0) false; level (-3.5) false]).
Proof.
  intros Hfuel Hs Hm long short.
  assert (calculate_pyramiding_levels fuel self (fl (-2.0)) "LONG" = Some long)
    as HL.
  { apply (calculate_pyramiding_levels_fuel 3); [done|].
    rewrite (calculate_pyramiding_levels_config _ _ example_config) by done.
    compute_done. }
  assert (calculate_pyramiding_levels fuel self (fl 2.0) "SHORT" = Some short)
    as HS.
  { apply (calculate_pyramiding_levels_fuel 3); [done|].
    rewrite (calculate_pyramiding_levels_config _ _ example_config) by done.
    compute_done. }
  rewrite Hm.
  repeat split; try done; try compute_done.
  intros. unfold register_position. rewrite HL. simpl. eauto.
Qed.

Lemma pyramid_ladder_example_witness :
  (3 ≤ 5)%nat
  ∧ scale_interval example_config = fl 0.5
  ∧ max_zscore example_config = fl 3.5
  ∧ calculate_pyramiding_levels 5 example_config (fl (-2.0)) "LONG"
    = Some [level (-2.0) true; level (-2.5) false;
            level (-3.0) false; level (-3.5) false].
Proof.
  split; [lia|]. split; [reflexivity|]. split; [reflexivity|].
  apply (pyramid_ladder_example 5 example_config); [lia|reflexivity|reflexivity].
Defined.

(** ** The ladder in general *)

Lemma py_abs_lt (z m : Qc) : (py_abs z < m)%Qc ↔ (- m < z)%Qc ∧ (z < m)%Qc.
Proof.
  unfold py_abs, Qclt. simpl. rewrite Qabs_Qlt_condition.
  rewrite Qred_correct. done.
Qed.

Lemma Qcminus_lt (z i : Qc) : (0 < i)%Qc -> (z - i < z)%Qc.
Proof. intros Hi. qc_arith. Qed.

(** The shape of what the LONG loop appends, by induction on the fuel. *)
Lemma long_loop_shape (fuel : nat) (i max_z init z : Qc) (l : list RebalanceLevel.t) :
  (0 < i)%Qc ->
  pyramid_loop fuel (fun z => z - i)%Qc max_z init z = Some l ->
  Forall (long_level_ok max_z init z) l
  ∧ strictly_decreasing (zscores l) = true.
Proof.
  intros Hi. revert z l. induction fuel as [|fuel IH]; intros z l; simpl.
  - unfold ltb. case_bool_decide; [done|]. intros [= <-]. by split.
  - unfold ltb at 1. case_bool_decide as Habs; [|intros [= <-]; by split].
    destruct (pyramid_loop fuel _ _ _ _) as [rest|] eqn:E; [|done].
    simpl. intros [= <-]. destruct (IH _ _ E) as [Hall Hdec].
    apply py_abs_lt in Habs as [Hlo Hhi].
    split.
    + constructor; [by repeat split|].
      eapply Forall_impl; [|exact Hall]. intros lv (H1 & H2 & H3).
      repeat split; [done| |done].
      apply Qclt_le_weak. eapply Qcle_lt_trans; [exact H2|]. by apply Qcminus_lt.
    + unfold zscores. simpl. destruct rest as [|r rest']; [done|].
      simpl. rewrite andb_true_iff. split; [|exact Hdec].
      apply Forall_inv in Hall as (_ & H2 & _).
      apply bool_decide_eq_true_2.
      eapply Qcle_lt_trans; [exact H2|]. by apply Qcminus_lt.
Qed.

Lemma of_int_succ (n : nat) :
  of_int (Z.of_nat (S n)) = (of_int (Z.of_nat n) + 1)%Qc.
Proof.
  apply Qc_is_canon. unfold of_int. simpl. rewrite !Qred_correct.
  rewrite Nat2Z.inj_succ. unfold Z.succ. rewrite inject_Z_plus. reflexivity.
Qed.

(** The LONG loop ends within [n] rounds when [n] intervals cover the
    distance from minus the maximum to the start. *)
Lemma long_loop_terminates (n : nat) (i max_z init z : Qc) :
  (0 < i)%Qc ->
  (z + max_z ≤ of_int (Z.of_nat n) * i)%Qc ->
  is_Some (pyramid_loop n (fun z => z - i)%Qc max_z init z).
Proof.
  intros Hi. revert z. induction n as [|n IH]; intros z Hz.
  - simpl. unfold ltb. case_bool_decide as Habs; [|by eexists].
    exfalso. apply py_abs_lt in Habs as [Hlo _].
    change (of_int (Z.of_nat 0)) with 0%Qc in Hz.
    rewrite Qcmult_0_l in Hz. qc_arith.
  - simpl. unfold ltb. case_bool_decide as Habs; [|by eexists].
    destruct (IH (z - i)%Qc) as [rest ->]; [|by eexists].
    rewrite of_int_succ in Hz.
    assert ((of_int (Z.of_nat n) + 1) * i
            = of_int (Z.of_nat n) * i + i)%Qc as E by ring.
    rewrite E in Hz. clear E IH Habs.
    remember (of_int (Z.of_nat n) * i)%Qc as k eqn:Hk. clear Hk.
    qc_arith.
Qed.

Lemma long_loop_fuel_exists (i max_z init z : Qc) :
  (0 < i)%Qc ->
  ∃ n, is_Some (pyramid_loop n (fun z => z - i)%Qc max_z init z).
Proof.
  intros Hi.
  exists (Z.to_nat (Qceiling (this ((z + max_z) / i)%Qc))).
  apply long_loop_terminates; [done|].
  set (q := ((z + max_z) / i)%Qc).
  assert (z + max_z = q * i)%Qc as -> by (unfold q; field; by apply Qclt_ne_0).
  apply Qcmult_le_compat_r; [|by apply Qclt_le_weak].
  unfold Qcle, of_int, Q2Qc. cbn [this]. rewrite Qred_correct.
  eapply Qle_trans; [apply Qle_ceiling|].
  rewrite <- Zle_Qle. lia.
Qed.

Lemma strictly_decreasing_snoc (l : list Qc) (y : Qc) :
  strictly_decreasing l = true ->
  Forall (fun x => (y < x)%Qc) l ->
  strictly_decreasing (l ++ [y]) = true.
Proof.
  induction l as [|a l IH]; [done|]. intros Hd Hall.
  apply Forall_cons_1 in Hall as [Ha Hall].
  destruct l as [|b l].
  - simpl. rewrite andb_true_r. by apply bool_decide_eq_true_2.
  - simpl in Hd. apply andb_true_iff in Hd as [Hab Hd].
    specialize (IH Hd Hall). simpl in *. by rewrite Hab.
Qed.

Lemma zscores_snoc (l : list RebalanceLevel.t) (lv : RebalanceLevel.t) :
  zscores (l ++ [lv]) = zscores l ++ [RebalanceLevel.zscore lv].
Proof. unfold zscores. by rewrite fmap_app. Qed.

Lemma long_ladder_general (self : HybridRebalancer) (entry : Qc) :
  (0 < scale_interval self)%Qc ->
  (py_abs entry < max_zscore self)%Qc ->
  ∃ fuel rest,
    (∀ fuel', (fuel ≤ fuel')%nat ->
       calculate_pyramiding_levels fuel' self entry "LONG"
       = Some (RebalanceLevel.mk entry true None 0 0 :: rest))
    ∧ strictly_decreasing (entry :: zscores rest) = true
    ∧ Forall (fun lv => RebalanceLevel.executed lv = false) rest
    ∧ list.last (zscores rest) = Some (- max_zscore self)%Qc.
Proof.
  intros Hi Habs.
  destruct (long_loop_fuel_exists (scale_interval self) (max_zscore self)
              entry entry Hi) as [fuel [body Hbody]].
  pose proof (long_loop_shape _ _ _ _ _ _ Hi Hbody) as [Hall Hdec].
  destruct fuel as [|fuel]; simpl in Hbody; unfold ltb in Hbody;
    rewrite bool_decide_eq_true_2 in Hbody by done; [done|].
  destruct (pyramid_loop fuel _ _ _ _) as [tail|] eqn:Etail; [|done].
  simpl in Hbody. injection Hbody as <-.
  pose proof (long_loop_shape _ _ _ _ _ _ Hi Etail) as [Htail _].
  unfold eqb in *. rewrite bool_decide_eq_true_2 in * by done.
  set (final := RebalanceLevel.mk (- max_zscore self)%Qc false None 0 0).
  exists (S fuel), (tail ++ [final]). split; [|split; [|split]].
  - intros fuel' Hle. apply (calculate_pyramiding_levels_fuel (S fuel)); [done|].
    unfold calculate_pyramiding_levels. simpl. unfold ltb, eqb.
    rewrite !bool_decide_eq_true_2 by done. by rewrite Etail.
  - rewrite zscores_snoc.
    change (entry :: zscores tail ++ [RebalanceLevel.zscore final])
      with ((entry :: zscores tail) ++ [- max_zscore self])%Qc.
    apply strictly_decreasing_snoc; [exact Hdec|].
    change (entry :: zscores tail)
      with (zscores (RebalanceLevel.mk entry true None 0 0 :: tail)).
    unfold zscores. apply Forall_fmap.
    eapply Forall_impl; [|exact Hall]. by intros lv (H1 & _).
  - apply Forall_app. split; [|by repeat constructor].
    eapply Forall_impl; [|exact Htail]. intros lv (_ & H2 & ->).
    apply bool_decide_eq_false_2. intros Heq. rewrite Heq in H2.
    apply (Qcle_not_lt _ _ H2). by apply Qcminus_lt.
  - by rewrite zscores_snoc, last_snoc.
Qed.

Lemma last_cons_some {A} (x : A) (l : list A) (y : A) :
  list.last l = Some y -> list.last (x :: l) = Some y.
Proof. destruct l; [done|]. done. Qed.

(** A LONG ladder that [calculate_pyramiding_levels] returns, for a
    positive interval and an entry inside the maximum: it starts with
    the entry level, executed; its z-scores are strictly decreasing; no
    later level is executed; its last level is minus the maximum.
    Nothing is said here about whether the loop ends. *)
Theorem long_ladder_shape (fuel : nat) (self : HybridRebalancer) (entry : Qc)
    (levels : list RebalanceLevel.t) :
  (0 < scale_interval self)%Qc ->
  (py_abs entry < max_zscore self)%Qc ->
  calculate_pyramiding_levels fuel self entry "LONG" = Some levels ->
  ∃ rest,
    levels = RebalanceLevel.mk entry true None 0 0 :: rest
    ∧ strictly_decreasing (zscores levels) = true
    ∧ Forall (fun lv => RebalanceLevel.executed lv = false) rest
    ∧ list.last (zscores levels) = Some (- max_zscore self)%Qc.
Proof.
  intros Hi Habs Hc.
  destruct (long_ladder_general self entry Hi Habs)
    as (f0 & rest & Hf & Hd & Hex & Hlast).
  pose proof (calculate_pyramiding_levels_fuel fuel (Nat.max fuel f0) _ _ _ _
                (Nat.le_max_l _ _) Hc) as H1.
  rewrite (Hf _ (Nat.le_max_r _ _)) in H1. injection H1 as <-.
  exists rest. repeat split; try done. by apply last_cons_some.
Qed.

Lemma Qcplus_gt (z i : Qc) : (0 < i)%Qc -> (z < z + i)%Qc.
Proof. intros Hi. qc_arith. Qed.

Lemma short_loop_shape (fuel : nat) (i max_z init z : Qc) (l : list RebalanceLevel.t) :
  (0 < i)%Qc ->
  pyramid_loop fuel (fun z => z + i)%Qc max_z init z = Some l ->
  Forall (short_level_ok max_z init z) l
  ∧ strictly_increasing (zscores l) = true.
Proof.
  intros Hi. revert z l. induction fuel as [|fuel IH]; intros z l; simpl.
  - unfold ltb. case_bool_decide; [done|]. intros [= <-]. by split.
  - unfold ltb at 1. case_bool_decide as Habs; [|intros [= <-]; by split].
    destruct (pyramid_loop fuel _ _ _ _) as [rest|] eqn:E; [|done].
    simpl. intros [= <-]. destruct (IH _ _ E) as [Hall Hinc].
    apply py_abs_lt in Habs as [Hlo Hhi].
    split.
    + constructor; [by repeat split|].
      eapply Forall_impl; [|exact Hall]. intros lv (H1 & H2 & H3).
      repeat split; [done| |done].
      apply Qclt_le_weak. eapply Qclt_le_trans; [|exact H2]. by apply Qcplus_gt.
    + unfold zscores. simpl. destruct rest as [|r rest']; [done|].
      simpl. rewrite andb_true_iff. split; [|exact Hinc].
      apply Forall_inv in Hall as (_ & H2 & _).
      apply bool_decide_eq_true_2.
      eapply Qclt_le_trans; [|exact H2]. by apply Qcplus_gt.
Qed.

Lemma short_loop_terminates (n : nat) (i max_z init z : Qc) :
  (0 < i)%Qc ->
  (max_z - z ≤ of_int (Z.of_nat n) * i)%Qc ->
  is_Some (pyramid_loop n (fun z => z + i)%Qc max_z init z).
Proof.
  intros Hi. revert z. induction n as [|n IH]; intros z Hz.
  - simpl. unfold ltb. case_bool_decide as Habs; [|by eexists].
    exfalso. apply py_abs_lt in Habs as [_ Hhi].
    change (of_int (Z.of_nat 0)) with 0%Qc in Hz.
    rewrite Qcmult_0_l in Hz. qc_arith.
  - simpl. unfold ltb. case_bool_decide as Habs; [|by eexists].
    destruct (IH (z + i)%Qc) as [rest ->]; [|by eexists].
    rewrite of_int_succ in Hz.
    assert ((of_int (Z.of_nat n) + 1) * i
            = of_int (Z.of_nat n) * i + i)%Qc as E by ring.
    rewrite E in Hz. clear E IH Habs.
    remember (of_int (Z.of_nat n) * i)%Qc as k eqn:Hk. clear Hk.
    qc_arith.
Qed.

Lemma short_loop_fuel_exists (i max_z init z : Qc) :
  (0 < i)%Qc ->
  ∃ n, is_Some (pyramid_loop n (fun z => z + i)%Qc max_z init z).
Proof.
  intros Hi.
  exists (Z.to_nat (Qceiling (this ((max_z - z) / i)%Qc))).
  apply short_loop_terminates; [done|].
  set (q := ((max_z - z) / i)%Qc).
  assert (max_z - z = q * i)%Qc as -> by (unfold q; field; by apply Qclt_ne_0).
  apply Qcmult_le_compat_r; [|by apply Qclt_le_weak].
  unfold Qcle, of_int, Q2Qc. cbn [this]. rewrite Qred_correct.
  eapply Qle_trans; [apply Qle_ceiling|].
  rewrite <- Zle_Qle. lia.
Qed.

Lemma strictly_increasing_snoc (l : list Qc) (y : Qc) :
  strictly_increasing l = true ->
  Forall (fun x => (x < y)%Qc) l ->
  strictly_increasing (l ++ [y]) = true.
Proof.
  induction l as [|a l IH]; [done|]. intros Hd Hall.
  apply Forall_cons_1 in Hall as [Ha Hall].
  destruct l as [|b l].
  - simpl. rewrite andb_true_r. by apply bool_decide_eq_true_2.
  - simpl in Hd. apply andb_true_iff in Hd as [Hab Hd].
    specialize (IH Hd Hall). simpl in *. by rewrite Hab.
Qed.

Lemma short_ladder_general (self : HybridRebalancer) (entry : Qc) (side : string) :
  side ≠ "LONG" ->
  (0 < scale_interval self)%Qc ->
  (py_abs entry < max_zscore self)%Qc ->
  ∃ fuel rest,
    (∀ fuel', (fuel ≤ fuel')%nat ->
       calculate_pyramiding_levels fuel' self entry side
       = Some (RebalanceLevel.mk entry true None 0 0 :: rest))
    ∧ strictly_increasing (entry :: zscores rest) = true
    ∧ Forall (fun lv => RebalanceLevel.executed lv = false) rest
    ∧ list.last (zscores rest) = Some (max_zscore self).
Proof.
  intros Hside Hi Habs.
  assert (String.eqb side "LONG" = false) as Hs by by apply String.eqb_neq.
  destruct (short_loop_fuel_exists (scale_interval self) (max_zscore self)
              entry entry Hi) as [fuel [body Hbody]].
  pose proof (short_loop_shape _ _ _ _ _ _ Hi Hbody) as [Hall Hinc].
  destruct fuel as [|fuel]; simpl in Hbody; unfold ltb in Hbody;
    rewrite bool_decide_eq_true_2 in Hbody by done; [done|].
  destruct (pyramid_loop fuel _ _ _ _) as [tail|] eqn:Etail; [|done].
  simpl in Hbody. injection Hbody as <-.
  pose proof (short_loop_shape _ _ _ _ _ _ Hi Etail) as [Htail _].
  unfold eqb in *. rewrite bool_decide_eq_true_2 in * by done.
  set (final := RebalanceLevel.mk (max_zscore self) false None 0 0).
  exists (S fuel), (tail ++ [final]). split; [|split; [|split]].
  - intros fuel' Hle. apply (calculate_pyramiding_levels_fuel (S fuel)); [done|].
    unfold calculate_pyramiding_levels. rewrite Hs. simpl. unfold ltb, eqb.
    rewrite !bool_decide_eq_true_2 by done. by rewrite Etail.
  - rewrite zscores_snoc.
    change (entry :: zscores tail ++ [RebalanceLevel.zscore final])
      with ((entry :: zscores tail) ++ [max_zscore self])%Qc.
    apply strictly_increasing_snoc; [exact Hinc|].
    change (entry :: zscores tail)
      with (zscores (RebalanceLevel.mk entry true None 0 0 :: tail)).
    unfold zscores. apply Forall_fmap.
    eapply Forall_impl; [|exact Hall]. by intros lv (H1 & _).
  - apply Forall_app. split; [|by repeat constructor].
    eapply Forall_impl; [|exact Htail]. intros lv (_ & H2 & ->).
    apply bool_decide_eq_false_2. intros Heq. rewrite Heq in H2.
    apply (Qcle_not_lt _ _ H2). by apply Qcplus_gt.
  - by rewrite zscores_snoc, last_snoc.
Qed.

(** A ladder that [calculate_pyramiding_levels] returns for any other
    side, mirrored: it starts with the executed entry level, is
    strictly increasing, has no later level executed and ends at the
    maximum. *)
Theorem short_ladder_shape (fuel : nat) (self : HybridRebalancer) (entry : Qc)
    (side : string) (levels : list RebalanceLevel.t) :
  side ≠ "LONG" ->
  (0 < scale_interval self)%Qc ->
  (py_abs entry < max_zscore self)%Qc ->
  calculate_pyramiding_levels fuel self entry side = Some levels ->
  ∃ rest,
    levels = RebalanceLevel.mk entry true None 0 0 :: rest
    ∧ strictly_increasing (zscores levels) = true
    ∧ Forall (fun lv => RebalanceLevel.executed lv = false) rest
    ∧ list.last (zscores levels) = Some (max_zscore self).
Proof.
  intros Hside Hi Habs Hc.
  destruct (short_ladder_general self entry side Hside Hi Habs)
    as (f0 & rest & Hf & Hd & Hex & Hlast).
  pose proof (calculate_pyramiding_levels_fuel fuel (Nat.max fuel f0) _ _ _ _
                (Nat.le_max_l _ _) Hc) as H1.
  rewrite (Hf _ (Nat.le_max_r _ _)) in H1. injection H1 as <-.
  exists rest. repeat split; try done. by apply last_cons_some.
Qed.

(** ** Hedge drift *)

Lemma check_hedge_drift_ready (self : HybridRebalancer) (sid : string)
    (hr now : Qc) (position : Position.t) :
  ready self sid now position -> target_of hr position ≠ 0%Qc ->
  check_hedge_drift self sid hr now
  = if negb (leb (hedge_drift_threshold self) (drift_pct_of hr position))
       && negb (leb (min_absolute_drift self) (py_abs (drift_of hr position)))
    then None else Some (adjustment_of sid hr position).
Proof.
  intros (Hen & Hpos & Hcool) Htarget. unfold check_hedge_drift.
  rewrite Hen, Hpos. simpl.
  unfold ltb at 1. rewrite bool_decide_eq_false_2 by by apply Qcle_not_lt.
  fold (target_of hr position). unfold eqb.
  rewrite bool_decide_eq_false_2 by done.
  fold (drift_of hr position). fold (drift_pct_of hr position).
  destruct (negb _ && negb _); [done|].
  unfold adjustment_of. by destruct (ltb 0 (drift_of hr position)).
Qed.

Lemma check_hedge_drift_Some (self : HybridRebalancer) (sid : string)
    (hr now : Qc) (position : Position.t) (adj : HedgeAdjustment.t) :
  check_hedge_drift self sid hr now = Some adj ->
  active_positions self !! sid = Some position ->
  adj = adjustment_of sid hr position
  ∧ triggered self hr position
  ∧ ready self sid now position
  ∧ target_of hr position ≠ 0%Qc.
Proof.
  unfold check_hedge_drift. intros Hc Hpos. rewrite Hpos in Hc.
  destruct (enable_hedge_adjustment self) eqn:Hen; [|done]. simpl in Hc.
  unfold ltb at 1 in Hc. case_bool_decide as Hcool; [done|].
  apply Qcnot_lt_le in Hcool.
  fold (target_of hr position) in Hc. unfold eqb in Hc.
  case_bool_decide as Ht; [done|].
  fold (drift_of hr position) in Hc. fold (drift_pct_of hr position) in Hc.
  assert (triggered self hr position) as Htrig.
  { unfold triggered. unfold leb in Hc.
    case_bool_decide; [by left|]. case_bool_decide; [by right|done]. }
  split; [|done].
  destruct (negb _ && negb _); [done|].
  unfold adjustment_of. destruct (ltb 0 (drift_of hr position)); congruence.
Qed.

(** [register_position] on the example data builds the example state. *)
Lemma example_state_registered (g s : Qc) :
  register_position 2 default_rebalancer "S1" "LONG" (fl (-2.0)) (fl 0.7179)
    g s (fl 0.3) "XAUUSD" "XAGUSD" 0%Qc
  = Some (example_position g s, example_state g s).
Proof.
  unfold register_position.
  assert (calculate_pyramiding_levels 2 default_rebalancer (fl (-2.0)) "LONG"
          = Some [level (-2.0) true; level (-2.5) false; level (-3.0) false])
    as -> by compute_done.
  assert ((fl 0.3 / of_int (Z.of_nat 3))%Qc = fl 0.1) as E
    by (apply Qc_is_canon; reflexivity).
  simpl. by rewrite E.
Qed.

(** C2.  For a registered position, with adjustment enabled, the
    cooldown over and a nonzero target, [check_hedge_drift] returns an
    adjustment exactly when the percentage drift reaches
    [hedge_drift_threshold] or the absolute drift reaches
    [min_absolute_drift].  With 0.05 primary lots, 0.02 secondary lots,
    hedge ratio 0.7179 and the default thresholds it returns BUY of
    0.015895 (about 0.0159) lots of the secondary instrument. *)
Theorem dual_threshold_trigger (self : HybridRebalancer) (sid : string)
    (hr now : Qc) (position : Position.t) :
  enable_hedge_adjustment self = true ->
  active_positions self !! sid = Some position ->
  (of_int (min_adjustment_interval self)
     ≤ now - default 0%Qc (last_adjustment self !! sid))%Qc ->
  (Position.gold_lots position * hr)%Qc ≠ 0%Qc ->
  let target := (Position.gold_lots position * hr)%Qc in
  let drift := (target - Position.silver_lots position)%Qc in
  let pct_drift := (py_abs drift / target)%Qc in
  (is_Some (check_hedge_drift self sid hr now)
   ↔ (hedge_drift_threshold self ≤ pct_drift)%Qc
     ∨ (min_absolute_drift self ≤ py_abs drift)%Qc)
  ∧ (Position.gold_lots position = fl 0.05 ->
     Position.silver_lots position = fl 0.02 ->
     hr = fl 0.7179 ->
     hedge_drift_threshold self = fl 0.05 ->
     min_absolute_drift self = fl 0.01 ->
     ∃ adj,
       check_hedge_drift self sid hr now = Some adj
       ∧ HedgeAdjustment.action adj = "BUY"
       ∧ HedgeAdjustment.symbol adj = Position.secondary_symbol position
       ∧ HedgeAdjustment.quantity adj = fl 0.015895
       ∧ (py_abs (HedgeAdjustment.quantity adj - fl 0.0159) < fl 0.00001)%Qc).
Proof.
  intros Hen Hpos Hcool Htarget. cbv zeta.
  pose proof (check_hedge_drift_ready self sid hr now position
                (conj Hen (conj Hpos Hcool)) Htarget) as Heq.
  change (Position.gold_lots position * hr - Position.silver_lots position)%Qc
    with (drift_of hr position).
  change (py_abs (drift_of hr position) / (Position.gold_lots position * hr))%Qc
    with (drift_pct_of hr position).
  split.
  - rewrite Heq. unfold leb. split.
    + intros [adj Hadj]. case_bool_decide; [by left|].
      case_bool_decide; [by right|done].
    + intros [Hp|Ha].
      * rewrite (bool_decide_eq_true_2 _ Hp). by eexists.
      * rewrite (bool_decide_eq_true_2 _ Ha), andb_false_r. by eexists.
  - intros Hg Hs -> Ht Hm. rewrite Heq.
    assert (drift_of (fl 0.7179) position = fl 0.015895) as Hd.
    { unfold drift_of, target_of. rewrite Hg, Hs. compute_done. }
    assert (py_abs (fl 0.015895) = fl 0.015895) as Habs by compute_done.
    rewrite Hm, Hd, Habs.
    assert (leb (fl 0.01) (fl 0.015895) = true) as -> by compute_done.
    rewrite andb_false_r. eexists. split; [done|].
    unfold adjustment_of. rewrite Hd.
    assert (ltb 0 (fl 0.015895) = true) as -> by compute_done.
    simpl. repeat split. compute_done.
Qed.

Lemma dual_threshold_trigger_witness :
  ∃ adj,
    check_hedge_drift (example_state (fl 0.05) (fl 0.02)) "S1"
      (fl 0.7179) (fl 3600) = Some adj
    ∧ HedgeAdjustment.action adj = "BUY"
    ∧ HedgeAdjustment.symbol adj = "XAGUSD"
    ∧ HedgeAdjustment.quantity adj = fl 0.015895
    ∧ (py_abs (HedgeAdjustment.quantity adj - fl 0.0159) < fl 0.00001)%Qc.
Proof.
  refine (proj2 (dual_threshold_trigger (example_state (fl 0.05) (fl 0.02)) "S1"
                   (fl 0.7179) (fl 3600) (example_position (fl 0.05) (fl 0.02))
                   _ _ _ _) _ _ _ _ _).
  - reflexivity.
  - reflexivity.
  - compute_done.
  - compute_done.
  - reflexivity.
  - reflexivity.
  - reflexivity.
  - reflexivity.
  - reflexivity.
Defined.

(** C3.  Whenever [check_hedge_drift] returns an adjustment its action
    is BUY.  For a positive drift (target above actual secondary) it
    buys [|drift|] lots of the secondary instrument; for a negative
    drift it buys [|drift| / current_hedge_ratio] lots of the primary
    instrument. *)
Theorem hedge_adjustment_direction (self : HybridRebalancer) (sid : string)
    (hr now : Qc) (position : Position.t) (adj : HedgeAdjustment.t) :
  active_positions self !! sid = Some position ->
  check_hedge_drift self sid hr now = Some adj ->
  let drift :=
    (Position.gold_lots position * hr - Position.silver_lots position)%Qc in
  HedgeAdjustment.action adj = "BUY"
  ∧ ((0 < drift)%Qc ->
     HedgeAdjustment.symbol adj = Position.secondary_symbol position
     ∧ HedgeAdjustment.quantity adj = py_abs drift)
  ∧ ((drift < 0)%Qc ->
     HedgeAdjustment.symbol adj = Position.primary_symbol position
     ∧ HedgeAdjustment.quantity adj = (py_abs drift / hr)%Qc).
Proof.
  intros Hpos Hc drift.
  destruct (check_hedge_drift_Some self sid hr now position adj Hc Hpos)
    as (-> & _). unfold adjustment_of.
  change (drift_of hr position) with drift. unfold ltb.
  split; [by case_bool_decide|]. split; intros Hd.
  - by rewrite bool_decide_eq_true_2.
  - rewrite bool_decide_eq_false_2; [done|].
    intros Hd'. by apply (Qclt_not_le _ _ Hd), Qclt_le_weak.
Qed.

Lemma hedge_adjustment_direction_witness :
  check_hedge_drift (example_state (fl 0.01) (fl 0.01)) "S1"
    (fl 0.7179) (fl 3600) = Some buy_primary_adjustment
  ∧ HedgeAdjustment.action buy_primary_adjustment = "BUY"
  ∧ HedgeAdjustment.symbol buy_primary_adjustment = "XAUUSD"
  ∧ HedgeAdjustment.quantity buy_primary_adjustment
    = (py_abs (fl 0.01 * fl 0.7179 - fl 0.01) / fl 0.7179)%Qc.
Proof.
  assert (check_hedge_drift (example_state (fl 0.01) (fl 0.01)) "S1"
            (fl 0.7179) (fl 3600) = Some buy_primary_adjustment) as Hc
    by compute_done.
  split; [exact Hc|].
  destruct (hedge_adjustment_direction (example_state (fl 0.01) (fl 0.01)) "S1"
              (fl 0.7179) (fl 3600) (example_position (fl 0.01) (fl 0.01))
              buy_primary_adjustment eq_refl Hc) as (Ha & _ & Hneg).
  split; [exact Ha|]. apply Hneg. reflexivity.
Defined.

(** C9, as stated, fails: the position with 0.01 primary and 0.0100
    secondary lots, registered on the default rebalancer (thresholds 5%
    and 0.01 lots), gets an adjustment at hedge ratio 0.7179 once the
    cooldown of 3600 seconds is over. *)
Lemma small_position_is_adjusted :
  register_position 2 default_rebalancer "S1" "LONG" (fl (-2.0)) (fl 0.7179)
    (fl 0.01) (fl 0.0100) (fl 0.3) "XAUUSD" "XAGUSD" 0%Qc
  = Some (example_position (fl 0.01) (fl 0.0100),
          example_state (fl 0.01) (fl 0.0100))
  ∧ hedge_drift_threshold default_rebalancer = fl 0.05
  ∧ min_absolute_drift default_rebalancer = fl 0.01
  ∧ check_hedge_drift (example_state (fl 0.01) (fl 0.0100)) "S1"
      (fl 0.7179) (fl 3600) ≠ None.
Proof.
  split; [apply example_state_registered|].
  split; [done|]. split; [done|]. compute_done.
Qed.

(** C9, amended.  For 0.01 primary lots, 0.0100 secondary lots and hedge
    ratio 0.7179 the drift is 0.002821 lots in absolute value, below
    the default absolute threshold of 0.01 lots, but it is 39.3% of the
    target, above the default percentage threshold of 5%.  So, with the
    default thresholds and the cooldown over, [check_hedge_drift]
    returns an adjustment: BUY of 0.002821 / 0.7179 lots of the primary
    instrument. *)
Theorem small_position_percentage_trigger (self : HybridRebalancer)
    (sid : string) (now : Qc) (position : Position.t) :
  enable_hedge_adjustment self = true ->
  active_positions self !! sid = Some position ->
  (of_int (min_adjustment_interval self)
     ≤ now - default 0%Qc (last_adjustment self !! sid))%Qc ->
  hedge_drift_threshold self = fl 0.05 ->
  min_absolute_drift self = fl 0.01 ->
  Position.gold_lots position = fl 0.01 ->
  Position.silver_lots position = fl 0.0100 ->
  let drift := (fl 0.01 * fl 0.7179 - fl 0.0100)%Qc in
  py_abs drift = fl 0.002821
  ∧ (py_abs drift < min_absolute_drift self)%Qc
  ∧ (hedge_drift_threshold self ≤ py_abs drift / (fl 0.01 * fl 0.7179))%Qc
  ∧ ∃ adj,
      check_hedge_drift self sid (fl 0.7179) now = Some adj
      ∧ HedgeAdjustment.action adj = "BUY"
      ∧ HedgeAdjustment.symbol adj = Position.primary_symbol position
      ∧ HedgeAdjustment.quantity adj = (fl 0.002821 / fl 0.7179)%Qc
      ∧ HedgeAdjustment.drift_pct adj = (fl 0.002821 / fl 0.007179)%Qc.
Proof.
  intros Hen Hpos Hcool Ht Hm Hg Hs. cbv zeta. rewrite Ht, Hm.
  split; [compute_done|]. split; [compute_done|]. split; [compute_done|].
  assert (target_of (fl 0.7179) position = fl 0.007179) as Htar
    by (unfold target_of; rewrite Hg; compute_done).
  assert (drift_of (fl 0.7179) position = (- fl 0.002821)%Qc) as Hd
    by (unfold drift_of; rewrite Htar, Hs; compute_done).
  assert (py_abs (- fl 0.002821) = fl 0.002821) as Habs by compute_done.
  rewrite (check_hedge_drift_ready self sid (fl 0.7179) now position);
    [|done|rewrite Htar; compute_done].
  unfold drift_pct_of. rewrite Ht, Hm, Hd, Htar, Habs.
  assert (leb (fl 0.05) (fl 0.002821 / fl 0.007179) = true) as ->
    by compute_done.
  simpl. eexists. split; [done|].
  unfold adjustment_of, drift_pct_of. rewrite Hd, Htar, Habs.
  assert (ltb 0 (- fl 0.002821) = false) as -> by compute_done.
  done.
Qed.

Lemma small_position_percentage_trigger_witness :
  ∃ adj,
    check_hedge_drift (example_state (fl 0.01) (fl 0.0100)) "S1"
      (fl 0.7179) (fl 3600) = Some adj
    ∧ HedgeAdjustment.action adj = "BUY"
    ∧ HedgeAdjustment.symbol adj = "XAUUSD"
    ∧ HedgeAdjustment.quantity adj = (fl 0.002821 / fl 0.7179)%Qc
    ∧ HedgeAdjustment.drift_pct adj = (fl 0.002821 / fl 0.007179)%Qc.
Proof.
  apply (small_position_percentage_trigger
           (example_state (fl 0.01) (fl 0.0100)) "S1" (fl 3600)
           (example_position (fl 0.01) (fl 0.0100))).
  - reflexivity.
  - reflexivity.
  - compute_done.
  - reflexivity.
  - reflexivity.
  - reflexivity.
  - reflexivity.
Defined.

(** ** Cooldown from registration *)

Lemma register_position_inv fuel self sid side z h g s total p1 p2 now pos self' :
  register_position fuel self sid side z h g s total p1 p2 now = Some (pos, self') ->
  min_adjustment_interval self' = min_adjustment_interval self
  ∧ last_adjustment self' = <[sid := now]> (last_adjustment self)
  ∧ active_positions self' = <[sid := pos]> (active_positions self)
  ∧ Position.gold_lots pos = g ∧ Position.silver_lots pos = s.
Proof.
  unfold register_position. intros Hr.
  destruct (calculate_pyramiding_levels _ _ _ _) as [levels|]; [|done].
  simpl in Hr. by injection Hr as <- <-.
Qed.

(** While the position stays registered its cooldown clock never reads
    earlier than the registration time. *)
Lemma cooling_later (sid : string) (t0 : Qc) (self self' : HybridRebalancer) :
  later_state sid t0 self self' ->
  cooling sid t0 (min_adjustment_interval self) self ->
  cooling sid t0 (min_adjustment_interval self) self'.
Proof.
  intros Hl Hc. induction Hl as
    [ self | self self' sid' z g s now Hl IH | self self' sid' adj q now Hl IH Hnow
    | self self' sid' Hl IH Hne
    | self self' fuel sid' side z h g s total p1 p2 now pos self'' Hl IH Hne Hr ];
    [done| | | |]; specialize (IH Hc); destruct IH as (Hi & t & Ht & Hle).
  - unfold mark_pyramiding_executed.
    destruct (active_positions self' !! sid'); [|by split; eauto].
    split; [done|]. by exists t.
  - unfold mark_hedge_adjusted.
    destruct (active_positions self' !! sid'); [|by split; eauto].
    split; [done|]. simpl.
    destruct (decide (sid' = sid)) as [->|Hne].
    + exists now. by rewrite lookup_insert_eq.
    + exists t. by rewrite lookup_insert_ne.
  - split; [done|]. exists t. simpl. by rewrite lookup_delete_ne.
  - apply register_position_inv in Hr as (Hi' & Hla & _).
    split; [congruence|]. exists t. rewrite Hla. by rewrite lookup_insert_ne.
Qed.

(** C10.  [register_position] sets the cooldown clock of the position to
    the registration time [t0].  From then on, however the rebalancer
    is used while the position stays registered, [check_hedge_drift]
    returns none for that position at every time [now] with
    [now - t0 < min_adjustment_interval], whatever the hedge ratio and
    the drift. *)
Theorem registration_starts_cooldown (fuel : nat) (self : HybridRebalancer)
    (sid side : string) (z h g s total : Qc) (p1 p2 : string) (t0 : Qc)
    (pos : Position.t) (self' self'' : HybridRebalancer) (hr now : Qc) :
  register_position fuel self sid side z h g s total p1 p2 t0 = Some (pos, self') ->
  later_state sid t0 self' self'' ->
  (now - t0 < of_int (min_adjustment_interval self))%Qc ->
  last_adjustment self' !! sid = Some t0
  ∧ check_hedge_drift self'' sid hr now = None.
Proof.
  intros Hr Hl Hnow.
  destruct (register_position_inv _ _ _ _ _ _ _ _ _ _ _ _ _ _ Hr)
    as (Hi & Hla & _).
  assert (last_adjustment self' !! sid = Some t0) as H0
    by (by rewrite Hla, lookup_insert_eq).
  split; [done|].
  destruct (cooling_later sid t0 self' self'' Hl) as (Hi' & t & Ht & Hle).
  { split; [done|]. by exists t0. }
  unfold check_hedge_drift.
  destruct (enable_hedge_adjustment self''); [|done]. simpl.
  destruct (active_positions self'' !! sid); [|done].
  rewrite Ht, Hi', Hi. simpl. unfold ltb.
  rewrite bool_decide_eq_true_2; [done|].
  apply Qcle_lt_trans with (now - t0)%Qc; [|done].
  unfold Qcminus. apply Qcplus_le_mono_l. by apply Qcopp_le_compat.
Qed.

Lemma registration_starts_cooldown_witness :
  last_adjustment (example_state (fl 0.05) (fl 0.02)) !! "S1" = Some 0%Qc
  ∧ check_hedge_drift (example_state (fl 0.05) (fl 0.02)) "S1"
      (fl 0.7179) (fl 3599) = None.
Proof.
  apply (registration_starts_cooldown 2 default_rebalancer "S1" "LONG"
           (fl (-2.0)) (fl 0.7179) (fl 0.05) (fl 0.02) (fl 0.3)
           "XAUUSD" "XAGUSD" 0%Qc (example_position (fl 0.05) (fl 0.02))
           (example_state (fl 0.05) (fl 0.02)) (example_state (fl 0.05) (fl 0.02))
           (fl 0.7179) (fl 3599)).
  - compute_done.
  - apply later_refl.
  - reflexivity.
Defined.

(** The same position one second later, when the cooldown is over: the
    drift that was held back is now adjusted. *)
Lemma cooldown_over_example :
  is_Some (check_hedge_drift (example_state (fl 0.05) (fl 0.02)) "S1"
             (fl 0.7179) (fl 3600)).
Proof. compute_done. Qed.

(** ** Applying an adjustment *)

(** C4.  What [mark_hedge_adjusted] does to a registered position: it
    adds the executed quantity to the secondary lots for a BUY (and
    subtracts it for any other action) whatever the symbol of the
    adjustment, leaves the primary lots as they were, sets
    [current_hedge_ratio] to the new hedge of the adjustment, sets the
    cooldown clock of the position to [now] and appends the adjustment
    to the history.  An adjustment that buys the primary instrument is
    therefore booked on the secondary leg. *)
Theorem mark_hedge_adjusted_books_secondary_leg (self : HybridRebalancer)
    (sid : string) (adj : HedgeAdjustment.t) (q now : Qc)
    (position : Position.t) :
  active_positions self !! sid = Some position ->
  let self' := mark_hedge_adjusted self sid adj q now in
  ∃ position',
    active_positions self' !! sid = Some position'
    ∧ Position.gold_lots position' = Position.gold_lots position
    ∧ Position.silver_lots position'
      = (if String.eqb (HedgeAdjustment.action adj) "BUY"
         then Position.silver_lots position + q
         else Position.silver_lots position - q)%Qc
    ∧ Position.current_hedge_ratio position' = HedgeAdjustment.new_hedge adj
    ∧ last_adjustment self' !! sid = Some now
    ∧ adjustment_history self' = adjustment_history self ++ [adj].
Proof.
  intros Hpos. cbv zeta. unfold mark_hedge_adjusted. rewrite Hpos. simpl.
  eexists. rewrite !lookup_insert_eq. by repeat split.
Qed.

Lemma mark_hedge_adjusted_books_secondary_leg_witness :
  let self := example_state (fl 0.01) (fl 0.01) in
  let self' := mark_hedge_adjusted self "S1" buy_primary_adjustment
                 (fl 0.002821 / fl 0.7179)%Qc (fl 3600) in
  check_hedge_drift self "S1" (fl 0.7179) (fl 3600) = Some buy_primary_adjustment
  ∧ HedgeAdjustment.symbol buy_primary_adjustment
    = Position.primary_symbol (example_position (fl 0.01) (fl 0.01))
  ∧ ∃ position',
      active_positions self' !! "S1" = Some position'
      ∧ Position.gold_lots position' = fl 0.01
      ∧ Position.silver_lots position'
        = (fl 0.01 + fl 0.002821 / fl 0.7179)%Qc.
Proof.
  cbv zeta. split; [compute_done|]. split; [reflexivity|].
  destruct (mark_hedge_adjusted_books_secondary_leg
              (example_state (fl 0.01) (fl 0.01)) "S1" buy_primary_adjustment
              (fl 0.002821 / fl 0.7179)%Qc (fl 3600)
              (example_position (fl 0.01) (fl 0.01)) eq_refl)
    as (position' & Hp & Hg & Hs & _).
  exists position'. split; [exact Hp|]. split; [exact Hg|exact Hs].
Defined.

(** After that booking the drift of the position is larger than
    before, although the adjustment was meant to remove it. *)
Lemma primary_adjustment_widens_drift :
  let self := example_state (fl 0.01) (fl 0.01) in
  let self' := mark_hedge_adjusted self "S1" buy_primary_adjustment
                 (fl 0.002821 / fl 0.7179)%Qc (fl 3600) in
  ∃ position',
    active_positions self' !! "S1" = Some position'
    ∧ (py_abs (drift_of (fl 0.7179) (example_position (fl 0.01) (fl 0.01)))
       < py_abs (drift_of (fl 0.7179) position'))%Qc.
Proof. cbv zeta. eexists. split; [reflexivity|compute_done]. Qed.

End hybrid_facts.

(** ** Closing every position of a setup *)

Section recovery_facts.
Import Recovery.

Section any_terminal.
Context {B : Type} `{Terminal B}.

(** Every success is one ticket of the list. *)
Lemma close_loop_count (sid : string) (tickets : list Z) (b : B)
    (sc : nat) (ft : list Z) :
  ((close_loop sid tickets b sc ft).1.1 ≤ sc + length tickets)%nat.
Proof.
  revert b sc ft. induction tickets as [|t rest IH]; intros b sc ft; simpl.
  - lia.
  - destruct (positions_get b t) as [|position ?].
    + specialize (IH b sc ft). lia.
    + destruct (order_send b _) as [[rc|] b'].
      * destruct (bool_decide _).
        -- specialize (IH b' sc (ft ++ [t])). lia.
        -- specialize (IH b' (S sc) ft). lia.
      * specialize (IH b' sc (ft ++ [t])). lia.
Qed.

(** The answer is [true] only when every ticket was counted as closed,
    and only then is the setup closed, with [exit_zscore = 0.0]. *)
Lemma close_all_result (self : SetupTracker) (b : B) (sid now : string) :
  let out := close_all_positions_in_setup self b sid now in
  let tickets := get_all_setup_tickets self sid in
  (result out = true ->
     tickets ≠ []
     ∧ (close_loop sid tickets b 0 []).1.1 = length tickets
     ∧ tracker_after out = close_setup self sid (fl 0.0) now)
  ∧ (result out = false -> tracker_after out = self).
Proof.
  unfold close_all_positions_in_setup.
  destruct (get_all_setup_tickets self sid) as [|t rest] eqn:Ht; simpl; [done|].
  destruct (close_loop sid (t :: rest) b 0 []) as [[sc ft] b'] eqn:Hl.
  simpl in Hl. rewrite Hl. simpl.
  case_bool_decide; simpl; done.
Qed.

(** On any terminal: a first ticket that is absent makes the answer
    [false], whatever happens to the other tickets. *)
Lemma close_all_absent_first (self : SetupTracker) (b : B) (sid now : string)
    (t : Z) (rest : list Z) :
  get_all_setup_tickets self sid = t :: rest ->
  positions_get b t = [] ->
  result (close_all_positions_in_setup self b sid now) = false.
Proof.
  intros Ht Habs. unfold close_all_positions_in_setup. rewrite Ht.
  pose proof (close_loop_count sid rest b 0 []) as Hc.
  simpl. rewrite Habs.
  destruct (close_loop sid rest b 0 []) as [[sc ft] b']. simpl in *.
  rewrite bool_decide_eq_false_2 by lia. done.
Qed.

End any_terminal.

Lemma filter_length_mono {A} (P Q : A -> Prop) `{∀ x, Decision (P x)}
    `{∀ x, Decision (Q x)} (l : list A) :
  (∀ x, P x -> Q x) -> (length (filter P l) ≤ length (filter Q l))%nat.
Proof.
  intros HPQ. induction l as [|x l IH]; [done|].
  rewrite !filter_cons. destruct (decide (P x)) as [HP|HP].
  - rewrite decide_True by auto. simpl. lia.
  - destruct (decide (Q x)); simpl; lia.
Qed.

(** On the example terminal a closed position never reappears, so the
    successes are bounded by the tickets open at the start. *)
Lemma sim_close_loop_bound (sid : string) (tickets : list Z) (b : SimTerminal)
    (sc : nat) (ft : list Z) :
  ((close_loop sid tickets b sc ft).1.1
   ≤ sc + length (filter (fun t => is_Some (open_positions b !! t)) tickets))%nat.
Proof.
  revert b sc ft. induction tickets as [|t rest IH]; intros b sc ft.
  - simpl. lia.
  - rewrite filter_cons.
    destruct (decide (is_Some (open_positions b !! t))) as [[p Hp]|Hn].
    + simpl. rewrite Hp. simpl.
      case_bool_decide as Hrej; simpl.
      * specialize (IH b sc (ft ++ [t])). lia.
      * specialize (IH {| open_positions := delete t (open_positions b);
                          rejecting := rejecting b |} (S sc) ft).
        etrans; [exact IH|]. simpl.
        assert (length (filter
                          (fun t' => is_Some (delete t (open_positions b) !! t'))
                          rest)
                ≤ length (filter (fun t' => is_Some (open_positions b !! t')) rest))%nat
          as Hm.
        { apply filter_length_mono. intros t' [q Hq].
          apply lookup_delete_Some in Hq as [_ Hq]. eauto. }
        lia.
    + simpl. destruct (open_positions b !! t) eqn:Hp; [exfalso; eauto|].
      simpl. apply IH.
Qed.

(** C6.  What [close_all_positions_in_setup] does when a ticket of the
    setup is already absent from the broker: the ticket is skipped
    without being counted as closed, the count of closed tickets then
    stays below the number of tickets, and the function answers [false]
    and leaves the setup as it was (still active, not marked CLOSED),
    even when every ticket still present closes successfully. *)
Theorem close_all_counts_absent_ticket_as_unclosed (self : SetupTracker)
    (b : SimTerminal) (sid now : string) (t : Z) :
  t ∈ get_all_setup_tickets self sid ->
  open_positions b !! t = None ->
  let out := close_all_positions_in_setup self b sid now in
  result out = false ∧ tracker_after out = self.
Proof.
  intros Hin Habs out.
  assert (result out = false) as Hr; [|split; [done|]].
  - unfold out, close_all_positions_in_setup.
    destruct (get_all_setup_tickets self sid) as [|t0 rest] eqn:Ht; [done|].
    pose proof (sim_close_loop_bound sid (t0 :: rest) b 0 []) as Hb.
    destruct (close_loop sid (t0 :: rest) b 0 []) as [[sc ft] b'].
    simpl in Hb.
    assert (length (filter (fun t => is_Some (open_positions b !! t)) (t0 :: rest))
            < length (t0 :: rest))%nat as Hlt.
    { apply (length_filter_lt _ _ t); [done|]. rewrite Habs. by intros [? ?]. }
    rewrite bool_decide_eq_false_2 by lia. done.
  - by apply (close_all_result self b sid now).
Qed.

Lemma close_all_counts_absent_ticket_as_unclosed_witness :
  let out := close_all_positions_in_setup example_tracker one_leg_left
               "setup_20250101_093000" "2025-01-02T08:00:00" in
  result out = false ∧ tracker_after out = example_tracker.
Proof.
  apply (close_all_counts_absent_ticket_as_unclosed example_tracker one_leg_left
           "setup_20250101_093000" "2025-01-02T08:00:00" 102).
  - compute_done.
  - reflexivity.
Defined.

(** The same call in full: the one open ticket is closed, no ticket is
    reported as failed, and still the answer is [false] and the setup
    stays active. *)
Lemma close_all_one_leg_left :
  let out := close_all_positions_in_setup example_tracker one_leg_left
               "setup_20250101_093000" "2025-01-02T08:00:00" in
  get_all_setup_tickets example_tracker "setup_20250101_093000" = [101; 102]
  ∧ result out = false
  ∧ failed out = []
  ∧ open_positions (terminal_after out) = ∅
  ∧ status <$> (active_setups (tracker_after out) !! "setup_20250101_093000")
    = Some "ACTIVE".
Proof. compute_each. Qed.

(** With both legs open and accepted the setup is closed, with
    [exit_zscore = 0.0]. *)
Lemma close_all_both_legs_open :
  let out := close_all_positions_in_setup example_tracker both_legs_open
               "setup_20250101_093000" "2025-01-02T08:00:00" in
  result out = true
  ∧ active_setups (tracker_after out) !! "setup_20250101_093000" = None
  ∧ status <$> (setup_files (tracker_after out) !! "setup_20250101_093000")
    = Some "CLOSED"
  ∧ exit_zscore <$> (setup_files (tracker_after out) !! "setup_20250101_093000")
    = Some (Some (fl 0.0)).
Proof. compute_each. Qed.

End recovery_facts.

(** ** Pyramiding checks, marking and removal *)

Section hybrid_more_facts.
Import Hybrid.

(** What [first_trigger] returns, on any ladder. *)
Lemma first_trigger_Some (side : string) (z : Qc)
    (levels : list RebalanceLevel.t) (lv : RebalanceLevel.t) :
  first_trigger side z levels = Some lv ->
  ∃ before after,
    levels = before ++ lv :: after
    ∧ RebalanceLevel.executed lv = false
    ∧ should_trigger side z lv = true
    ∧ Forall (fun l => RebalanceLevel.executed l = true
                       ∨ should_trigger side z l = false) before.
Proof.
  induction levels as [|l rest IH]; [done|]. simpl.
  destruct (RebalanceLevel.executed l) eqn:He.
  - intros Hf. destruct (IH Hf) as (before & after & -> & H1 & H2 & H3).
    exists (l :: before), after. repeat split; try done.
    constructor; [by left|done].
  - destruct (should_trigger side z l) eqn:Ht.
    + intros [= <-]. exists [], rest. by repeat split.
    + intros Hf. destruct (IH Hf) as (before & after & -> & H1 & H2 & H3).
      exists (l :: before), after. repeat split; try done.
      constructor; [by right|done].
Qed.

Lemma strictly_decreasing_head (a : Qc) (l : list Qc) :
  strictly_decreasing (a :: l) = true -> Forall (fun x => (x < a)%Qc) l.
Proof.
  revert a. induction l as [|b l IH]; intros a; [by constructor|].
  simpl. intros [Hab Hd]%andb_true_iff.
  apply bool_decide_eq_true_1 in Hab.
  constructor; [done|].
  eapply Forall_impl; [|apply (IH b Hd)].
  intros x Hx. by apply Qclt_trans with b.
Qed.

Lemma strictly_decreasing_tail (a : Qc) (l : list Qc) :
  strictly_decreasing (a :: l) = true -> strictly_decreasing l = true.
Proof. destruct l; [done|]. simpl. by intros [_ ?]%andb_true_iff. Qed.

Lemma strictly_decreasing_split (l1 l2 : list Qc) (a : Qc) :
  strictly_decreasing (l1 ++ a :: l2) = true ->
  Forall (fun x => (a < x)%Qc) l1 ∧ Forall (fun x => (x < a)%Qc) l2.
Proof.
  induction l1 as [|b l1 IH]; simpl.
  - intros Hd. split; [constructor|]. by apply strictly_decreasing_head.
  - intros Hd.
    pose proof (strictly_decreasing_head b (l1 ++ a :: l2) Hd) as Hb.
    destruct (IH (strictly_decreasing_tail _ _ Hd)) as [H1 H2].
    split; [|done]. constructor; [|done].
    apply Forall_app in Hb as [_ Hb]. by apply Forall_inv in Hb.
Qed.

Lemma strictly_increasing_head (a : Qc) (l : list Qc) :
  strictly_increasing (a :: l) = true -> Forall (fun x => (a < x)%Qc) l.
Proof.
  revert a. induction l as [|b l IH]; intros a; [by constructor|].
  simpl. intros [Hab Hd]%andb_true_iff.
  apply bool_decide_eq_true_1 in Hab.
  constructor; [done|].
  eapply Forall_impl; [|apply (IH b Hd)].
  intros x Hx. by apply Qclt_trans with b.
Qed.

Lemma strictly_increasing_tail (a : Qc) (l : list Qc) :
  strictly_increasing (a :: l) = true -> strictly_increasing l = true.
Proof. destruct l; [done|]. simpl. by intros [_ ?]%andb_true_iff. Qed.

Lemma strictly_increasing_split (l1 l2 : list Qc) (a : Qc) :
  strictly_increasing (l1 ++ a :: l2) = true ->
  Forall (fun x => (x < a)%Qc) l1 ∧ Forall (fun x => (a < x)%Qc) l2.
Proof.
  induction l1 as [|b l1 IH]; simpl.
  - intros Hd. split; [constructor|]. by apply strictly_increasing_head.
  - intros Hd.
    pose proof (strictly_increasing_head b (l1 ++ a :: l2) Hd) as Hb.
    destruct (IH (strictly_increasing_tail _ _ Hd)) as [H1 H2].
    split; [|done]. constructor; [|done].
    apply Forall_app in Hb as [_ Hb]. by apply Forall_inv in Hb.
Qed.

Lemma zscores_app (l1 l2 : list RebalanceLevel.t) :
  zscores (l1 ++ l2) = zscores l1 ++ zscores l2.
Proof. unfold zscores. by rewrite fmap_app. Qed.

(** On a sorted ladder a level that triggers makes every earlier level
    trigger too. *)
Lemma sorted_trigger_earlier (side : string) (z : Qc)
    (before after : list RebalanceLevel.t) (lv : RebalanceLevel.t) :
  ladder_sorted side (before ++ lv :: after) ->
  should_trigger side z lv = true ->
  Forall (fun l => should_trigger side z l = true) before.
Proof.
  unfold ladder_sorted, should_trigger, leb. rewrite zscores_app. simpl.
  destruct (String.eqb side "LONG"); intros Hs Ht;
    apply bool_decide_eq_true_1 in Ht.
  - apply strictly_decreasing_split in Hs as [Hb _].
    unfold zscores in Hb. rewrite Forall_fmap in Hb.
    eapply Forall_impl; [|exact Hb]. simpl. intros l Hl.
    apply bool_decide_eq_true_2. eapply Qcle_trans; [exact Ht|].
    by apply Qclt_le_weak.
  - apply strictly_increasing_split in Hs as [Hb _].
    unfold zscores in Hb. rewrite Forall_fmap in Hb.
    eapply Forall_impl; [|exact Hb]. simpl. intros l Hl.
    apply bool_decide_eq_true_2. eapply Qcle_trans; [|exact Ht].
    by apply Qclt_le_weak.
Qed.

Lemma first_trigger_skip (side : string) (z : Qc)
    (before rest : list RebalanceLevel.t) :
  Forall (fun l => RebalanceLevel.executed l = true) before ->
  first_trigger side z (before ++ rest) = first_trigger side z rest.
Proof.
  induction 1 as [|l before Hl Hb IH]; [done|]. simpl. by rewrite Hl.
Qed.

Lemma check_pyramiding_first_level (self : HybridRebalancer)
    (sid : string) (z : Qc) (position : Position.t) (action : PyramidAction.t) :
  active_positions self !! sid = Some position ->
  ladder_sorted (Position.side position) (Position.levels position) ->
  check_pyramiding self sid z = Some action ->
  ∃ before after,
    Position.levels position = before ++ PyramidAction.level action :: after
    ∧ Forall (fun l => RebalanceLevel.executed l = true) before
    ∧ RebalanceLevel.executed (PyramidAction.level action) = false
    ∧ should_trigger (Position.side position) z (PyramidAction.level action) = true
    ∧ PyramidAction.position_size action = Position.size_per_level position.
Proof.
  intros Hpos Hsorted. unfold check_pyramiding. rewrite Hpos.
  destruct (first_trigger _ _ _) as [lv|] eqn:Hf; [|done].
  simpl. intros [= <-]. simpl.
  destruct (first_trigger_Some _ _ _ _ Hf) as (before & after & Hl & He & Ht & Hb).
  exists before, after. repeat split; try done.
  rewrite Hl in Hsorted.
  pose proof (sorted_trigger_earlier _ z _ _ _ Hsorted Ht) as Hall.
  apply list.Forall_forall. intros l Hin.
  rewrite list.Forall_forall in Hb, Hall.
  destruct (Hb l Hin) as [?|Hn]; [done|]. rewrite (Hall l Hin) in Hn. done.
Qed.

(** On a ladder sorted for its side, [check_pyramiding] returns an
    action exactly when the first level that is not executed yet
    triggers at the current z-score, and the action is the one for that
    level, with the size per level of the position: every level before
    the returned one is executed, so a z-score that jumped past several
    levels fires only the nearest one, and nothing fires while the
    first unexecuted level does not trigger. *)
Theorem pyramiding_fires_first_unexecuted_level (self : HybridRebalancer)
    (sid : string) (z : Qc) (position : Position.t) (action : PyramidAction.t) :
  active_positions self !! sid = Some position ->
  ladder_sorted (Position.side position) (Position.levels position) ->
  check_pyramiding self sid z = Some action
  ↔ ∃ before lv after,
      Position.levels position = before ++ lv :: after
      ∧ Forall (fun l => RebalanceLevel.executed l = true) before
      ∧ RebalanceLevel.executed lv = false
      ∧ should_trigger (Position.side position) z lv = true
      ∧ action = PyramidAction.mk sid (Position.side position) lv
                   (Position.size_per_level position) z
                   (RebalanceLevel.zscore lv).
Proof.
  intros Hpos Hsorted. split.
  - intros Hc.
    destruct (check_pyramiding_first_level self sid z position action
                Hpos Hsorted Hc) as (before & after & Hl & Hb & He & Ht & _).
    exists before, (PyramidAction.level action), after.
    repeat split; try done.
    unfold check_pyramiding in Hc. rewrite Hpos in Hc.
    destruct (first_trigger _ _ _) as [lv|]; [|done].
    simpl in Hc. by injection Hc as <-.
  - intros (before & lv & after & Hl & Hb & He & Ht & ->).
    unfold check_pyramiding. rewrite Hpos, Hl.
    rewrite first_trigger_skip by done. simpl. by rewrite He, Ht.
Qed.

Lemma mark_level_zscores (levels : list RebalanceLevel.t) (z g s now : Qc) :
  zscores (mark_level levels z g s now) = zscores levels.
Proof.
  induction levels as [|l rest IH]; [done|]. simpl.
  destruct (ltb _ _); [done|]. unfold zscores in *.
  rewrite !fmap_cons. by rewrite IH.
Qed.

Lemma mark_level_none (levels : list RebalanceLevel.t) (z g s now : Qc) :
  Forall (fun l => near z l = false) levels ->
  mark_level levels z g s now = levels.
Proof.
  induction 1 as [|l rest Hl Hrest IH]; [done|]. simpl.
  unfold near in Hl. rewrite Hl. by rewrite IH.
Qed.

Lemma mark_level_first (before after : list RebalanceLevel.t)
    (lv : RebalanceLevel.t) (z g s now : Qc) :
  Forall (fun l => near z l = false) before ->
  near z lv = true ->
  mark_level (before ++ lv :: after) z g s now
  = before ++ filled lv g s now :: after.
Proof.
  intros Hb Hlv. induction Hb as [|l rest Hl Hrest IH]; simpl.
  - unfold near in Hlv. by rewrite Hlv.
  - unfold near in Hl. rewrite Hl. by rewrite IH.
Qed.

Lemma near_self (lv : RebalanceLevel.t) : near (RebalanceLevel.zscore lv) lv = true.
Proof.
  unfold near, ltb. apply bool_decide_eq_true_2.
  assert (RebalanceLevel.zscore lv - RebalanceLevel.zscore lv = 0)%Qc as -> by ring.
  reflexivity.
Qed.

Lemma first_trigger_in (side : string) (z : Qc)
    (levels : list RebalanceLevel.t) (lv : RebalanceLevel.t) :
  first_trigger side z levels = Some lv -> lv ∈ levels.
Proof.
  intros Hf. destruct (first_trigger_Some _ _ _ _ Hf) as (b & a & -> & _).
  apply elem_of_app. right. by left.
Qed.

(** [mark_pyramiding_executed] adds the lots to the totals of the
    position and counts one more execution, whether or not a level of
    the ladder lies within 0.01 of the z-score; when none does, the
    ladder is left as it was.  The z-scores of the ladder, the cooldown
    clocks, the adjustment history and the other positions never
    change. *)
Theorem mark_pyramiding_executed_effect (self : HybridRebalancer) (sid : string)
    (z g s now : Qc) (position : Position.t) :
  active_positions self !! sid = Some position ->
  let self' := mark_pyramiding_executed self sid z g s now in
  ∃ position',
    active_positions self' !! sid = Some position'
    ∧ Position.gold_lots position' = (Position.gold_lots position + g)%Qc
    ∧ Position.silver_lots position' = (Position.silver_lots position + s)%Qc
    ∧ Position.total_executed position' = Position.total_executed position + 1
    ∧ zscores (Position.levels position') = zscores (Position.levels position)
    ∧ (Forall (fun l => near z l = false) (Position.levels position) ->
       Position.levels position' = Position.levels position)
    ∧ last_adjustment self' = last_adjustment self
    ∧ adjustment_history self' = adjustment_history self
    ∧ (∀ sid', sid' ≠ sid ->
         active_positions self' !! sid' = active_positions self !! sid').
Proof.
  intros Hpos. cbv zeta. unfold mark_pyramiding_executed. rewrite Hpos. simpl.
  eexists. rewrite lookup_insert_eq. split; [done|]. simpl.
  repeat split.
  - apply mark_level_zscores.
  - apply mark_level_none.
  - intros sid' Hne. by rewrite lookup_insert_ne.
Qed.

Lemma mark_level_executed (levels : list RebalanceLevel.t) (z g s now : Qc) :
  Forall (fun l => RebalanceLevel.executed l = true) levels ->
  Forall (fun l => RebalanceLevel.executed l = true) (mark_level levels z g s now).
Proof.
  induction 1 as [|l rest Hl Hrest IH]; [done|]. simpl.
  destruct (ltb _ _); by constructor.
Qed.

Lemma mark_level_in_prefix (before rest : list RebalanceLevel.t) (z g s now : Qc) :
  Exists (fun l => near z l = true) before ->
  mark_level (before ++ rest) z g s now = mark_level before z g s now ++ rest.
Proof.
  induction 1 as [l before Hl|l before Hex IH]; simpl.
  - unfold near in Hl. by rewrite Hl.
  - destruct (ltb _ _); [done|]. by rewrite IH.
Qed.

(** After the level fired by [check_pyramiding] is marked executed at
    its own z-score, the next level to fire lies strictly beyond it
    (below for LONG, above otherwise), provided no other level of the
    ladder lies within 0.01 of the fired one. *)
Theorem marked_level_is_not_fired_again (self : HybridRebalancer) (sid : string)
    (z z' g s now : Qc) (position : Position.t)
    (action action' : PyramidAction.t) :
  active_positions self !! sid = Some position ->
  ladder_sorted (Position.side position) (Position.levels position) ->
  check_pyramiding self sid z = Some action ->
  let fired := RebalanceLevel.zscore (PyramidAction.level action) in
  (∀ l, l ∈ Position.levels position -> near fired l = true ->
        l = PyramidAction.level action) ->
  check_pyramiding (mark_pyramiding_executed self sid fired g s now) sid z'
    = Some action' ->
  if String.eqb (Position.side position) "LONG"
  then (RebalanceLevel.zscore (PyramidAction.level action') < fired)%Qc
  else (fired < RebalanceLevel.zscore (PyramidAction.level action'))%Qc.
Proof.
  intros Hpos Hsorted Hc fired Honly Hc'.
  destruct (check_pyramiding_first_level self sid z position action
              Hpos Hsorted Hc) as (before & after & Hl & Hb & He & _).
  assert (Forall (fun l => near fired l = false) before) as Hfar.
  { apply list.Forall_forall. intros l Hin.
    destruct (near fired l) eqn:Hn; [|done].
    assert (l = PyramidAction.level action) as ->.
    { apply Honly; [|done]. rewrite Hl. apply elem_of_app. by left. }
    rewrite list.Forall_forall in Hb. specialize (Hb _ Hin). congruence. }
  unfold mark_pyramiding_executed, check_pyramiding in Hc'.
  rewrite Hpos in Hc'. simpl in Hc'. rewrite lookup_insert_eq in Hc'.
  simpl in Hc'. rewrite Hl in Hc'.
  rewrite (mark_level_first before after _ fired g s now Hfar (near_self _)) in Hc'.
  rewrite (first_trigger_skip _ _ before) in Hc' by done.
  simpl in Hc'.
  destruct (first_trigger _ _ after) as [lv'|] eqn:Hf; [|done].
  simpl in Hc'. injection Hc' as <-. simpl.
  apply first_trigger_in in Hf.
  unfold ladder_sorted in Hsorted. rewrite Hl, zscores_app in Hsorted.
  simpl in Hsorted. destruct (String.eqb _ _).
  - apply strictly_decreasing_split in Hsorted as [_ Ha].
    unfold zscores in Ha. rewrite Forall_fmap, list.Forall_forall in Ha.
    by apply Ha.
  - apply strictly_increasing_split in Hsorted as [_ Ha].
    unfold zscores in Ha. rewrite Forall_fmap, list.Forall_forall in Ha.
    by apply Ha.
Qed.

Lemma Exists_first {A} (P : A -> Prop) `{∀ x, Decision (P x)} (l : list A) :
  Exists P l ->
  ∃ l1 x l2, l = l1 ++ x :: l2 ∧ Forall (fun y => ¬ P y) l1 ∧ P x.
Proof.
  induction l as [|a l IH]; [by intros ?%Exists_nil|].
  intros Hex. destruct (decide (P a)) as [Ha|Ha].
  - exists [], a, l. by repeat split.
  - apply Exists_cons in Hex as [?|Hex]; [done|].
    destruct (IH Hex) as (l1 & x & l2 & -> & Hl1 & Hx).
    exists (a :: l1), x, l2. repeat split; [|done]. by constructor.
Qed.

(** When an executed level before the fired one lies within 0.01 of
    it, marking the fired z-score records the fill on the first such
    earlier level (its lots and time are overwritten) and leaves every
    other level as it was; the fired level stays unexecuted and
    [check_pyramiding] returns the same action again. *)
Theorem close_levels_fire_again (self : HybridRebalancer) (sid : string)
    (z g s now : Qc) (position : Position.t)
    (before after : list RebalanceLevel.t) (lv : RebalanceLevel.t) :
  active_positions self !! sid = Some position ->
  Position.levels position = before ++ lv :: after ->
  Forall (fun l => RebalanceLevel.executed l = true) before ->
  RebalanceLevel.executed lv = false ->
  should_trigger (Position.side position) z lv = true ->
  Exists (fun l => near (RebalanceLevel.zscore lv) l = true) before ->
  let action :=
    PyramidAction.mk sid (Position.side position) lv
      (Position.size_per_level position) z (RebalanceLevel.zscore lv) in
  let marked :=
    mark_pyramiding_executed self sid (RebalanceLevel.zscore lv) g s now in
  check_pyramiding self sid z = Some action
  ∧ (∃ position' earlier hit later,
       active_positions marked !! sid = Some position'
       ∧ before = earlier ++ hit :: later
       ∧ Forall (fun l => near (RebalanceLevel.zscore lv) l = false) earlier
       ∧ near (RebalanceLevel.zscore lv) hit = true
       ∧ Position.levels position'
         = earlier ++ filled hit g s now :: later ++ lv :: after)
  ∧ check_pyramiding marked sid z = Some action.
Proof.
  intros Hpos Hl Hb He Ht Hnear action marked.
  assert (∀ b, Forall (fun l => RebalanceLevel.executed l = true) b ->
               first_trigger (Position.side position) z (b ++ lv :: after)
               = Some lv) as Hfirst.
  { intros b Hbx. rewrite first_trigger_skip by done. simpl. by rewrite He, Ht. }
  split; [|split].
  - unfold check_pyramiding. rewrite Hpos, Hl, (Hfirst before Hb). done.
  - destruct (Exists_first _ _ Hnear) as (earlier & hit & later & -> & Hfar & Hhit).
    unfold marked, mark_pyramiding_executed. rewrite Hpos. cbn.
    rewrite lookup_insert_eq. eexists _, earlier, hit, later.
    split; [done|]. split; [done|].
    assert (Forall (fun l => near (RebalanceLevel.zscore lv) l = false) earlier)
      as Hfar'.
    { eapply list.Forall_impl; [exact Hfar|]. intros l Hn.
      by apply not_true_is_false. }
    split; [done|]. split; [done|]. cbn. rewrite Hl, <- app_assoc. simpl.
    by apply mark_level_first.
  - unfold marked, check_pyramiding, mark_pyramiding_executed. rewrite Hpos.
    cbn. rewrite lookup_insert_eq. cbn. rewrite Hl.
    rewrite mark_level_in_prefix by done.
    rewrite Hfirst by by apply mark_level_executed. done.
Qed.

(** *** Registration, removal and the per-position clock *)

(** Registering a position under a fresh id and removing it again
    gives back the rebalancer as it was; a removed position gets no
    hedge adjustment and no pyramiding action. *)
Theorem register_then_remove (fuel : nat) (self : HybridRebalancer)
    (sid side : string) (z h g s total : Qc) (p1 p2 : string) (t0 : Qc)
    (pos : Position.t) (self' : HybridRebalancer) :
  active_positions self !! sid = None ->
  last_adjustment self !! sid = None ->
  register_position fuel self sid side z h g s total p1 p2 t0 = Some (pos, self') ->
  remove_position self' sid = self
  ∧ (∀ hr now, check_hedge_drift (remove_position self' sid) sid hr now = None)
  ∧ (∀ zc, check_pyramiding (remove_position self' sid) sid zc = None).
Proof.
  intros Ha Hl Hr.
  assert (remove_position self' sid = self) as ->.
  { unfold register_position in Hr.
    destruct (calculate_pyramiding_levels _ _ _ _) as [levels|]; [|done].
    simpl in Hr. injection Hr as <- <-.
    unfold remove_position, with_tracking, with_positions. simpl.
    rewrite !delete_insert_eq, !delete_id by done. by destruct self. }
  split; [done|]. split.
  - intros hr now. unfold check_hedge_drift. rewrite Ha.
    by destruct (negb _).
  - intros zc. unfold check_pyramiding. by rewrite Ha.
Qed.

(** Applying an adjustment to one position changes neither the hedge
    check nor the pyramiding check of any other position: the cooldown
    clock is kept per position. *)
Theorem adjustment_clock_is_per_position (self : HybridRebalancer)
    (sid sid' : string) (adj : HedgeAdjustment.t) (q now hr t : Qc) :
  sid' ≠ sid ->
  check_hedge_drift (mark_hedge_adjusted self sid adj q now) sid' hr t
  = check_hedge_drift self sid' hr t
  ∧ (∀ zc, check_pyramiding (mark_hedge_adjusted self sid adj q now) sid' zc
           = check_pyramiding self sid' zc).
Proof.
  intros Hne. unfold mark_hedge_adjusted.
  destruct (active_positions self !! sid) as [position|]; [|done].
  unfold check_hedge_drift, check_pyramiding. cbn.
  by rewrite !lookup_insert_ne.
Qed.

(** After [mark_hedge_adjusted] at time [now] the position gets no
    further adjustment before [now + min_adjustment_interval]. *)
Theorem adjustment_restarts_cooldown (self : HybridRebalancer) (sid : string)
    (adj : HedgeAdjustment.t) (q now hr t : Qc) (position : Position.t) :
  active_positions self !! sid = Some position ->
  (t - now < of_int (min_adjustment_interval self))%Qc ->
  last_adjustment (mark_hedge_adjusted self sid adj q now) !! sid = Some now
  ∧ check_hedge_drift (mark_hedge_adjusted self sid adj q now) sid hr t = None.
Proof.
  intros Hpos Ht. unfold mark_hedge_adjusted. rewrite Hpos.
  unfold check_hedge_drift. cbn. rewrite !lookup_insert_eq. cbn.
  split; [done|]. destruct (negb _); [done|].
  unfold ltb. by rewrite bool_decide_eq_true_2.
Qed.

Lemma py_abs_0 : py_abs 0 = 0%Qc.
Proof. by apply Qc_is_canon. Qed.

(** In exact arithmetic (the floats of the program taken as exact
    rationals; the float sum of the program can miss the target in the
    last place): an adjustment for a positive drift (buy secondary),
    executed in full and applied with [mark_hedge_adjusted], brings the
    secondary lots exactly to the target; with positive thresholds the
    position then gets no adjustment at that hedge ratio, at any
    time. *)
Theorem secondary_adjustment_in_full_removes_drift (self : HybridRebalancer)
    (sid : string) (hr now : Qc) (position : Position.t)
    (adj : HedgeAdjustment.t) :
  active_positions self !! sid = Some position ->
  check_hedge_drift self sid hr now = Some adj ->
  (0 < Position.gold_lots position * hr - Position.silver_lots position)%Qc ->
  let self' := mark_hedge_adjusted self sid adj (HedgeAdjustment.quantity adj) now in
  ∃ position',
    active_positions self' !! sid = Some position'
    ∧ Position.silver_lots position' = (Position.gold_lots position * hr)%Qc
    ∧ Position.gold_lots position' = Position.gold_lots position
    ∧ ((0 < hedge_drift_threshold self)%Qc ->
       (0 < min_absolute_drift self)%Qc ->
       ∀ t, check_hedge_drift self' sid hr t = None).
Proof.
  intros Hpos Hc Hd. cbv zeta.
  destruct (check_hedge_drift_Some self sid hr now position adj Hc Hpos)
    as (-> & _ & _ & Htarget).
  assert (HedgeAdjustment.action (adjustment_of sid hr position) = "BUY") as Hact
    by (unfold adjustment_of; by destruct (ltb _ _)).
  assert (HedgeAdjustment.quantity (adjustment_of sid hr position)
          = (Position.gold_lots position * hr - Position.silver_lots position)%Qc)
    as Hq.
  { unfold adjustment_of, ltb, drift_of, target_of.
    rewrite bool_decide_eq_true_2 by done. simpl.
    apply Qcabs_pos. by apply Qclt_le_weak. }
  unfold mark_hedge_adjusted. rewrite Hpos, Hact, Hq. simpl.
  eexists. rewrite lookup_insert_eq. split; [done|]. simpl.
  split; [ring|]. split; [done|].
  intros Hthr Habs t. unfold check_hedge_drift. cbn.
  rewrite !lookup_insert_eq. cbn.
  destruct (negb _); [done|]. destruct (ltb _ _); [done|].
  fold (target_of hr position) in Htarget |- *.
  unfold eqb. rewrite bool_decide_eq_false_2 by done.
  assert (target_of hr position
          - (Position.silver_lots position
             + (target_of hr position - Position.silver_lots position)) = 0)%Qc
    as -> by ring.
  rewrite py_abs_0.
  assert (0 / target_of hr position = 0)%Qc as -> by (by field).
  unfold leb. by rewrite !bool_decide_eq_false_2 by by apply Qclt_not_le.
Qed.

(** For a negative drift the adjustment names the primary instrument,
    and, in exact arithmetic (the floats of the program taken as exact
    rationals; the float product of the program can miss the equality
    in the last place), its quantity is the one that restores the
    ratio: the primary lots plus the quantity, times the hedge ratio,
    equal the secondary lots. *)
Theorem primary_adjustment_quantity_restores_ratio (self : HybridRebalancer)
    (sid : string) (hr now : Qc) (position : Position.t)
    (adj : HedgeAdjustment.t) :
  active_positions self !! sid = Some position ->
  check_hedge_drift self sid hr now = Some adj ->
  (Position.gold_lots position * hr - Position.silver_lots position < 0)%Qc ->
  HedgeAdjustment.symbol adj = Position.primary_symbol position
  ∧ ((Position.gold_lots position + HedgeAdjustment.quantity adj) * hr
     = Position.silver_lots position)%Qc.
Proof.
  intros Hpos Hc Hd.
  destruct (check_hedge_drift_Some self sid hr now position adj Hc Hpos)
    as (-> & _ & _ & Htarget).
  assert (hr ≠ 0%Qc) as Hhr.
  { intros ->. apply Htarget. unfold target_of. ring. }
  unfold adjustment_of, ltb, drift_of, target_of.
  rewrite bool_decide_eq_false_2
    by (intros H0; by apply (Qclt_not_le _ _ Hd), Qclt_le_weak).
  simpl. split; [done|].
  unfold py_abs. rewrite Qcabs_neg by by apply Qclt_le_weak.
  by field.
Qed.

(** *** The guards of [check_hedge_drift], and all positions at once *)

Lemma check_hedge_drift_disabled (self : HybridRebalancer) (sid : string)
    (hr now : Qc) :
  enable_hedge_adjustment self = false
  ∨ active_positions self !! sid = None
  ∨ (now - default 0%Qc (last_adjustment self !! sid)
     < of_int (min_adjustment_interval self))%Qc
  ∨ (∃ position, active_positions self !! sid = Some position
                 ∧ (Position.gold_lots position = 0%Qc ∨ hr = 0%Qc)) ->
  check_hedge_drift self sid hr now = None.
Proof.
  unfold check_hedge_drift.
  intros [->|[->|[Hcool|(position & -> & Hzero)]]];
    [reflexivity|by destruct (negb _)| |].
  - destruct (negb _); [done|].
    destruct (active_positions self !! sid); [|done].
    unfold ltb. by rewrite bool_decide_eq_true_2.
  - destruct (negb _); [done|]. destruct (ltb _ _); [done|].
    unfold eqb. rewrite bool_decide_eq_true_2; [done|].
    destruct Hzero as [->| ->]; ring.
Qed.

(** The guards of [check_hedge_drift]: it returns none when adjustment
    is disabled, when the position is not registered, during the
    cooldown, and when the target is zero (no primary lots or a zero
    hedge ratio), where the percentage drift would divide by zero. *)
Theorem check_hedge_drift_guards (self : HybridRebalancer) (sid : string)
    (hr now : Qc) :
  enable_hedge_adjustment self = false
  ∨ active_positions self !! sid = None
  ∨ (now - default 0%Qc (last_adjustment self !! sid)
     < of_int (min_adjustment_interval self))%Qc
  ∨ (∃ position, active_positions self !! sid = Some position
                 ∧ (Position.gold_lots position = 0%Qc ∨ hr = 0%Qc)) ->
  check_hedge_drift self sid hr now = None.
Proof. intros. eapply check_hedge_drift_disabled; eassumption. Qed.

Lemma omap_length_le {A B} (f : A -> option B) (l : list A) :
  (length (omap f l) ≤ length l)%nat.
Proof.
  induction l as [|x l IH]; [done|]. csimpl.
  destruct (f x); csimpl; lia.
Qed.

Lemma keys_of_map {A} (m : gmap string A) (k : string) :
  k ∈ (map_to_list m).*1 ↔ is_Some (m !! k).
Proof.
  rewrite list_elem_of_fmap. split.
  - intros ([k' x] & -> & Hin). apply elem_of_map_to_list in Hin. by exists x.
  - intros [x Hx]. exists (k, x). split; [done|]. by apply elem_of_map_to_list.
Qed.

(** [check_all_rebalancing] returns exactly the pyramiding actions and
    the hedge adjustments of the registered positions, at most one of
    each per position, and no adjustment at all when adjustment is
    disabled. *)
Theorem check_all_rebalancing_members (self : HybridRebalancer)
    (zc hr now : Qc) :
  let '(pyramid_actions, hedge_adjustments) :=
    check_all_rebalancing self zc hr now in
  (∀ a, a ∈ pyramid_actions
        ↔ ∃ sid, is_Some (active_positions self !! sid)
                 ∧ check_pyramiding self sid zc = Some a)
  ∧ (∀ adj, adj ∈ hedge_adjustments
            ↔ ∃ sid, is_Some (active_positions self !! sid)
                     ∧ check_hedge_drift self sid hr now = Some adj)
  ∧ (length pyramid_actions ≤ size (active_positions self))%nat
  ∧ (length hedge_adjustments ≤ size (active_positions self))%nat
  ∧ (enable_hedge_adjustment self = false -> hedge_adjustments = []).
Proof.
  unfold check_all_rebalancing.
  assert (∀ {A} (f : string -> option A),
            (length (omap f (map_to_list (active_positions self)).*1)
             ≤ size (active_positions self))%nat) as Hlen.
  { intros A f. etrans; [apply omap_length_le|].
    by rewrite length_fmap, length_map_to_list. }
  repeat split.
  - intros Hin. apply list_elem_of_omap in Hin as (sid & Hk & Hc).
    exists sid. by rewrite <- keys_of_map.
  - intros (sid & Hk & Hc). apply list_elem_of_omap. exists sid.
    by rewrite keys_of_map.
  - intros Hin. apply list_elem_of_omap in Hin as (sid & Hk & Hc).
    exists sid. by rewrite <- keys_of_map.
  - intros (sid & Hk & Hc). apply list_elem_of_omap. exists sid.
    by rewrite keys_of_map.
  - apply Hlen.
  - apply Hlen.
  - intros Hdis. clear Hlen.
    induction ((map_to_list (active_positions self)).*1) as [|k ks IH]; [done|].
    csimpl. rewrite (check_hedge_drift_disabled self k hr now) by by left.
    exact IH.
Qed.

(** The ladder [register_position] stores is sorted for its side (for a
    positive interval and an entry inside the maximum), and
    [mark_pyramiding_executed] keeps the ladder of every position
    sorted. *)
Theorem registered_ladder_is_sorted (fuel : nat) (self : HybridRebalancer)
    (sid side : string) (z h g s total : Qc) (p1 p2 : string) (t0 : Qc)
    (pos : Position.t) (self' : HybridRebalancer) :
  (0 < scale_interval self)%Qc ->
  (py_abs z < max_zscore self)%Qc ->
  register_position fuel self sid side z h g s total p1 p2 t0 = Some (pos, self') ->
  active_positions self' !! sid = Some pos
  ∧ ladder_sorted (Position.side pos) (Position.levels pos)
  ∧ (∀ zm gm sm now pos',
       active_positions (mark_pyramiding_executed self' sid zm gm sm now) !! sid
         = Some pos' ->
       ladder_sorted (Position.side pos') (Position.levels pos')).
Proof.
  intros Hi Habs Hr.
  destruct (register_position_inv _ _ _ _ _ _ _ _ _ _ _ _ _ _ Hr)
    as (_ & _ & Hap & _).
  assert (active_positions self' !! sid = Some pos) as Hpos
    by (by rewrite Hap, lookup_insert_eq).
  split; [done|].
  assert (ladder_sorted (Position.side pos) (Position.levels pos)) as Hsorted.
  { unfold register_position in Hr.
    destruct (calculate_pyramiding_levels fuel self z side) as [levels|] eqn:Hc;
      [|done].
    simpl in Hr. injection Hr as <- _. simpl. unfold ladder_sorted.
    destruct (String.eqb side "LONG") eqn:Hside.
    - apply String.eqb_eq in Hside as ->.
      destruct (long_ladder_general self z Hi Habs) as (f0 & rest & Hf & Hd & _).
      pose proof (calculate_pyramiding_levels_fuel fuel (Nat.max fuel f0) _ _ _ _
                    (Nat.le_max_l _ _) Hc) as H1.
      rewrite (Hf _ (Nat.le_max_r _ _)) in H1. injection H1 as <-.
      exact Hd.
    - apply String.eqb_neq in Hside.
      destruct (short_ladder_general self z side Hside Hi Habs)
        as (f0 & rest & Hf & Hd & _).
      pose proof (calculate_pyramiding_levels_fuel fuel (Nat.max fuel f0) _ _ _ _
                    (Nat.le_max_l _ _) Hc) as H1.
      rewrite (Hf _ (Nat.le_max_r _ _)) in H1. injection H1 as <-.
      exact Hd. }
  split; [done|].
  intros zm gm sm now pos'. unfold mark_pyramiding_executed. rewrite Hpos.
  simpl. rewrite lookup_insert_eq. intros [= <-]. simpl.
  unfold ladder_sorted in *. by rewrite mark_level_zscores.
Qed.

(** *** Worked instances *)

(** The z-score jumps from the entry at -2.0 past -3.0: only the level
    -2.5 fires. *)
Lemma pyramiding_fires_first_unexecuted_level_witness :
  check_pyramiding (example_state (fl 0.05) (fl 0.02)) "S1" (fl (-3.2))
  = Some (PyramidAction.mk "S1" "LONG" (level (-2.5) false) (fl 0.1)
            (fl (-3.2)) (fl (-2.5)))
  ↔ ∃ before lv after,
      Position.levels (example_position (fl 0.05) (fl 0.02))
      = before ++ lv :: after
      ∧ Forall (fun l => RebalanceLevel.executed l = true) before
      ∧ RebalanceLevel.executed lv = false
      ∧ should_trigger "LONG" (fl (-3.2)) lv = true
      ∧ PyramidAction.mk "S1" "LONG" (level (-2.5) false) (fl 0.1)
          (fl (-3.2)) (fl (-2.5))
        = PyramidAction.mk "S1" "LONG" lv (fl 0.1) (fl (-3.2))
            (RebalanceLevel.zscore lv).
Proof.
  apply (pyramiding_fires_first_unexecuted_level
           (example_state (fl 0.05) (fl 0.02)) "S1" (fl (-3.2))
           (example_position (fl 0.05) (fl 0.02))
           (PyramidAction.mk "S1" "LONG" (level (-2.5) false) (fl 0.1)
              (fl (-3.2)) (fl (-2.5))));
    reflexivity.
Defined.

Lemma mark_pyramiding_executed_effect_witness :
  ∃ position',
    active_positions
      (mark_pyramiding_executed (example_state (fl 0.05) (fl 0.02)) "S1"
         (fl (-2.7)) (fl 0.05) (fl 0.02) (fl 100)) !! "S1" = Some position'
    ∧ Position.gold_lots position' = (fl 0.05 + fl 0.05)%Qc
    ∧ Position.levels position'
      = Position.levels (example_position (fl 0.05) (fl 0.02)).
Proof.
  destruct (mark_pyramiding_executed_effect (example_state (fl 0.05) (fl 0.02))
              "S1" (fl (-2.7)) (fl 0.05) (fl 0.02) (fl 100)
              (example_position (fl 0.05) (fl 0.02)) eq_refl)
    as (position' & Hp & Hg & _ & _ & _ & Hnone & _).
  exists position'. split; [exact Hp|]. split; [exact Hg|].
  apply Hnone. repeat constructor; compute_done.
Defined.

Lemma marked_level_is_not_fired_again_witness :
  (RebalanceLevel.zscore (level (-3.0) false) < fl (-2.5))%Qc.
Proof.
  apply (marked_level_is_not_fired_again
           (example_state (fl 0.05) (fl 0.02)) "S1" (fl (-3.2)) (fl (-3.2))
           (fl 0.05) (fl 0.02) (fl 100)
           (example_position (fl 0.05) (fl 0.02))
           (PyramidAction.mk "S1" "LONG" (level (-2.5) false) (fl 0.1)
              (fl (-3.2)) (fl (-2.5)))
           (PyramidAction.mk "S1" "LONG" (level (-3.0) false) (fl 0.1)
              (fl (-3.2)) (fl (-3.0)))).
  - reflexivity.
  - reflexivity.
  - compute_done.
  - intros l Hin Hn. simpl in Hin, Hn.
    repeat (apply elem_of_cons in Hin as [->|Hin]); try done.
    by apply elem_of_nil in Hin.
  - compute_done.
Defined.

(** On the ladder -2.0, -2.5, -3.0 (executed) and -3.005, marking the
    fill at -3.005 hits the level -3.0; the level -3.005 fires again. *)
Lemma close_levels_fire_again_witness :
  let action :=
    PyramidAction.mk "S1" "LONG" (level (-3.005) false) (fl 0.1)
      (fl (-3.1)) (fl (-3.005)) in
  let marked :=
    mark_pyramiding_executed tight_state "S1" (fl (-3.005))
      (fl 0.05) (fl 0.03) (fl 300) in
  let before :=
    [filled (level (-2.0) true) (fl 0.05) (fl 0.03) 0%Qc;
     filled (level (-2.5) true) (fl 0.05) (fl 0.03) (fl 100);
     filled (level (-3.0) true) (fl 0.05) (fl 0.03) (fl 200)] in
  check_pyramiding tight_state "S1" (fl (-3.1)) = Some action
  ∧ (∃ position' earlier hit later,
       active_positions marked !! "S1" = Some position'
       ∧ before = earlier ++ hit :: later
       ∧ Forall (fun l => near (fl (-3.005)) l = false) earlier
       ∧ near (fl (-3.005)) hit = true
       ∧ Position.levels position'
         = earlier ++ filled hit (fl 0.05) (fl 0.03) (fl 300) :: later
             ++ level (-3.005) false :: [])
  ∧ check_pyramiding marked "S1" (fl (-3.1)) = Some action.
Proof.
  cbv zeta.
  assert (∃ position, active_positions tight_state !! "S1" = Some position
                      ∧ Position.side position = "LONG"
                      ∧ Position.size_per_level position = fl 0.1
                      ∧ Position.levels position
                        = [filled (level (-2.0) true) (fl 0.05) (fl 0.03) 0%Qc;
                           filled (level (-2.5) true) (fl 0.05) (fl 0.03) (fl 100);
                           filled (level (-3.0) true) (fl 0.05) (fl 0.03) (fl 200)]
                          ++ level (-3.005) false :: [])
    as (position & Hpos & Hside & Hsize & Hl).
  { eexists. split; [reflexivity|]. compute_each. }
  pose proof (close_levels_fire_again tight_state "S1" (fl (-3.1))
                (fl 0.05) (fl 0.03) (fl 300) position _ _ _ Hpos Hl) as H.
  rewrite Hside, Hsize in H. apply H.
  - repeat constructor.
  - reflexivity.
  - compute_done.
  - do 2 apply Exists_cons_tl. apply Exists_cons_hd. compute_done.
Defined.

Lemma register_then_remove_witness :
  remove_position (example_state (fl 0.05) (fl 0.02)) "S1" = default_rebalancer.
Proof.
  refine (proj1 (register_then_remove 2 default_rebalancer "S1" "LONG"
                   (fl (-2.0)) (fl 0.7179) (fl 0.05) (fl 0.02) (fl 0.3)
                   "XAUUSD" "XAGUSD" 0%Qc (example_position (fl 0.05) (fl 0.02))
                   (example_state (fl 0.05) (fl 0.02)) _ _ _)).
  - reflexivity.
  - reflexivity.
  - compute_done.
Defined.

(** An adjustment applied to "S2" at time 3600 does not hold back the
    adjustment of "S1" at that time. *)
Lemma adjustment_clock_is_per_position_witness :
  check_hedge_drift
    (mark_hedge_adjusted two_positions "S2" buy_primary_adjustment
       (fl 0.01) (fl 3600)) "S1" (fl 0.7179) (fl 3600)
  = check_hedge_drift two_positions "S1" (fl 0.7179) (fl 3600)
  ∧ is_Some (check_hedge_drift two_positions "S1" (fl 0.7179) (fl 3600)).
Proof.
  split; [|compute_done].
  refine (proj1 (adjustment_clock_is_per_position two_positions "S2" "S1"
                   buy_primary_adjustment (fl 0.01) (fl 3600) (fl 0.7179)
                   (fl 3600) _)).
  compute_done.
Defined.

Lemma adjustment_restarts_cooldown_witness :
  check_hedge_drift
    (mark_hedge_adjusted (example_state (fl 0.05) (fl 0.02)) "S1"
       buy_primary_adjustment (fl 0.001) (fl 3600)) "S1" (fl 0.7179) (fl 7199)
  = None.
Proof.
  refine (proj2 (adjustment_restarts_cooldown (example_state (fl 0.05) (fl 0.02))
                   "S1" buy_primary_adjustment (fl 0.001) (fl 3600) (fl 0.7179)
                   (fl 7199) (example_position (fl 0.05) (fl 0.02)) _ _)).
  - reflexivity.
  - reflexivity.
Defined.

Lemma secondary_adjustment_in_full_removes_drift_witness :
  ∃ position',
    active_positions
      (mark_hedge_adjusted (example_state (fl 0.05) (fl 0.02)) "S1"
         (adjustment_of "S1" (fl 0.7179) (example_position (fl 0.05) (fl 0.02)))
         (HedgeAdjustment.quantity
            (adjustment_of "S1" (fl 0.7179)
               (example_position (fl 0.05) (fl 0.02))))
         (fl 3600)) !! "S1" = Some position'
    ∧ Position.silver_lots position' = (fl 0.05 * fl 0.7179)%Qc.
Proof.
  destruct (secondary_adjustment_in_full_removes_drift
              (example_state (fl 0.05) (fl 0.02)) "S1" (fl 0.7179) (fl 3600)
              (example_position (fl 0.05) (fl 0.02))
              (adjustment_of "S1" (fl 0.7179)
                 (example_position (fl 0.05) (fl 0.02))))
    as (position' & Hp & Hs & _).
  - reflexivity.
  - compute_done.
  - reflexivity.
  - exists position'. split; [exact Hp|exact Hs].
Defined.

Lemma primary_adjustment_quantity_restores_ratio_witness :
  ((fl 0.01 + HedgeAdjustment.quantity buy_primary_adjustment) * fl 0.7179
   = fl 0.01)%Qc.
Proof.
  refine (proj2 (primary_adjustment_quantity_restores_ratio
                   (example_state (fl 0.01) (fl 0.01)) "S1" (fl 0.7179) (fl 3600)
                   (example_position (fl 0.01) (fl 0.01))
                   buy_primary_adjustment _ _ _)).
  - reflexivity.
  - compute_done.
  - reflexivity.
Defined.

(** A hedge ratio of zero: no adjustment, and no division by zero. *)
Lemma check_hedge_drift_guards_witness :
  check_hedge_drift (example_state (fl 0.05) (fl 0.02)) "S1" 0%Qc (fl 3600)
  = None.
Proof.
  apply check_hedge_drift_guards. right. right. right.
  exists (example_position (fl 0.05) (fl 0.02)).
  split; [reflexivity|]. right. reflexivity.
Defined.

Lemma registered_ladder_is_sorted_witness :
  ladder_sorted "LONG" (Position.levels (example_position (fl 0.05) (fl 0.02))).
Proof.
  refine (proj1 (proj2 (registered_ladder_is_sorted 2 default_rebalancer "S1"
                          "LONG" (fl (-2.0)) (fl 0.7179) (fl 0.05) (fl 0.02)
                          (fl 0.3) "XAUUSD" "XAGUSD" 0%Qc
                          (example_position (fl 0.05) (fl 0.02))
                          (example_state (fl 0.05) (fl 0.02)) _ _ _))).
  - reflexivity.
  - reflexivity.
  - compute_done.
Defined.

Lemma long_ladder_shape_witness :
  ∃ rest,
    [level (-2.0) true; level (-2.5) false; level (-3.0) false;
     level (-3.5) false]
    = RebalanceLevel.mk (fl (-2.0)) true None 0 0 :: rest
    ∧ strictly_decreasing
        (zscores [level (-2.0) true; level (-2.5) false; level (-3.0) false;
                  level (-3.5) false]) = true
    ∧ Forall (fun lv => RebalanceLevel.executed lv = false) rest
    ∧ list.last
        (zscores [level (-2.0) true; level (-2.5) false; level (-3.0) false;
                  level (-3.5) false])
      = Some (- max_zscore example_config)%Qc.
Proof.
  apply (long_ladder_shape 3 example_config (fl (-2.0)));
    [reflexivity|reflexivity|compute_done].
Defined.

Lemma short_ladder_shape_witness :
  ∃ rest,
    [level 2.0 true; level 2.5 false; level 3.0 false; level 3.5 false]
    = RebalanceLevel.mk (fl 2.0) true None 0 0 :: rest
    ∧ strictly_increasing
        (zscores [level 2.0 true; level 2.5 false; level 3.0 false;
                  level 3.5 false]) = true
    ∧ Forall (fun lv => RebalanceLevel.executed lv = false) rest
    ∧ list.last
        (zscores [level 2.0 true; level 2.5 false; level 3.0 false;
                  level 3.5 false])
      = Some (max_zscore example_config).
Proof.
  apply (short_ladder_shape 3 example_config (fl 2.0) "SHORT");
    [compute_done|reflexivity|reflexivity|compute_done].
Defined.

End hybrid_more_facts.

(** ** Orders, volumes and closing deals of the executor *)

Section executor_more_facts.
Import Executor.

(** *** Rounding distance *)

(** [round(volume / volume_step) * volume_step] with a positive step
    moves the volume by at most half a step, and lands on a whole
    multiple of the step. *)
Theorem rounding_moves_at_most_half_a_step (vol step v : Qc) :
  (0 < step)%Qc ->
  round_to_step vol step = Return v ->
  (py_abs (v - vol) ≤ step / fl 2)%Qc
  ∧ ∃ k : Z, v = (of_int k * step)%Qc.
Proof.
  intros Hs. rewrite round_to_step_Return by by apply Qclt_ne_0.
  intros [= <-]. split; [by apply stepped_close|]. by eexists.
Qed.

Lemma rounding_moves_at_most_half_a_step_witness :
  (py_abs (fl 0.02 - fl 0.016) ≤ fl 0.01 / fl 2)%Qc
  ∧ ∃ k : Z, fl 0.02 = (of_int k * fl 0.01)%Qc.
Proof.
  apply (rounding_moves_at_most_half_a_step (fl 0.016) (fl 0.01) (fl 0.02));
    compute_done.
Defined.

(** *** Outcomes of [place_spread_orders] *)

(** A side that is neither LONG nor SHORT (in any letter case) makes
    [place_spread_orders] raise [ValueError] naming the side as given,
    before any volume is computed and before any order is sent. *)
Theorem invalid_side_sends_nothing (self : MT5TradeExecutor) (mt5 : Terminal)
    (gold_volume silver_volume : Qc) (side : string) (entry_zscore : Qc)
    (sl_gold tp_gold sl_silver tp_silver : option Qc) (short_id : string)
    (log : list OrderRequest) :
  upper side ≠ "LONG" -> upper side ≠ "SHORT" ->
  place_spread_orders self mt5 gold_volume silver_volume side entry_zscore
    sl_gold tp_gold sl_silver tp_silver short_id log
  = (Raise (ValueError ("Invalid side: " +:+ side)), log).
Proof.
  intros H1 H2. unfold place_spread_orders, exec_bind.
  apply String.eqb_neq in H1, H2. by rewrite H1, H2.
Qed.

Lemma invalid_side_sends_nothing_witness :
  place_spread_orders example_executor (example_terminal accept_all)
    (fl 0.01) (fl 0.1) "flat" (fl (-2.0)) None None None None "093000" []
  = (Raise (ValueError "Invalid side: flat"), []).
Proof.
  apply (invalid_side_sends_nothing example_executor
           (example_terminal accept_all) (fl 0.01) (fl 0.1) "flat" (fl (-2.0))
           None None None None "093000" []);
    compute_done.
Defined.

(** Whenever [place_spread_orders] hands back a value, it is the
    three-part tuple and the primary order succeeded; the spread id and
    the entry z-score are present exactly when the secondary order
    succeeded too, the id being the two tickets joined by a dash, and
    both are [None] otherwise. *)
Theorem spread_id_only_on_full_success (self : MT5TradeExecutor) (mt5 : Terminal)
    (gold_volume silver_volume : Qc) (side : string) (entry_zscore : Qc)
    (sl_gold tp_gold sl_silver tp_silver : option Qc) (short_id : string)
    (log log' : list OrderRequest) (r : SpreadReturn) :
  place_spread_orders self mt5 gold_volume silver_volume side entry_zscore
    sl_gold tp_gold sl_silver tp_silver short_id log = (Return r, log') ->
  ∃ gold_result silver_result spread_id zscore,
    r = Triple3 (gold_result, silver_result) spread_id zscore
    ∧ success gold_result = true
    ∧ (success silver_result = true ->
       spread_id = Some (ticket_text (order_ticket gold_result) +:+ "-"
                           +:+ ticket_text (order_ticket silver_result))
       ∧ zscore = Some entry_zscore)
    ∧ (success silver_result = false -> spread_id = None ∧ zscore = None).
Proof.
  intros Hp.
  assert (upper side = "LONG" ∨ upper side = "SHORT") as Hside.
  { destruct (String.eqb (upper side) "LONG") eqn:H1;
      [left; by apply String.eqb_eq|].
    destruct (String.eqb (upper side) "SHORT") eqn:H2;
      [right; by apply String.eqb_eq|].
    unfold place_spread_orders, exec_bind in Hp. by rewrite H1, H2 in Hp. }
  destruct (plan_volumes self mt5 gold_volume silver_volume) as [plan|e] eqn:Hplan.
  2:{ unfold place_spread_orders, exec_bind, exec_lift in Hp.
      rewrite Hplan in Hp.
      destruct Hside as [Hs|Hs]; rewrite Hs in Hp; by simpl in Hp. }
  rewrite (place_spread_orders_unfold _ _ _ _ _ _ _ _ _ _ _ _ plan Hside Hplan) in Hp.
  destruct (_place_order_no_adjustment self mt5 (primary_symbol self) _ _ _ _ _ _ log)
    as [[g|e] log1]; [|done].
  destruct (success g) eqn:Hg; [|done]. simpl in Hp.
  destruct (_place_order_no_adjustment self mt5 (secondary_symbol self) _ _ _ _ _ _ log1)
    as [[sv|e] log2]; [|done].
  destruct (success sv) eqn:Hsv; simpl in Hp; injection Hp as <- <-;
    eexists _, _, _, _; repeat split; try done; congruence.
Qed.

Lemma spread_id_only_on_full_success_witness :
  ∃ gold_result silver_result spread_id zscore,
    Triple3 (filled 1000 (fl 0.01) (fl 2650.5),
             filled 1001 (fl 0.10) (fl 2650.0))
            (Some "1000-1001") (Some (fl (-2.0)))
    = Triple3 (gold_result, silver_result) spread_id zscore
    ∧ success gold_result = true
    ∧ (success silver_result = true ->
       spread_id = Some (ticket_text (order_ticket gold_result) +:+ "-"
                           +:+ ticket_text (order_ticket silver_result))
       ∧ zscore = Some (fl (-2.0)))
    ∧ (success silver_result = false -> spread_id = None ∧ zscore = None).
Proof.
  apply (spread_id_only_on_full_success example_executor
           (example_terminal accept_all) (fl 0.01) (fl 0.1) "long" (fl (-2.0))
           None None None None "093000" []
           (place_spread_orders example_executor (example_terminal accept_all)
              (fl 0.01) (fl 0.1) "long" (fl (-2.0)) None None None None
              "093000" []).2).
  compute_done.
Defined.

(** When [place_spread_orders] hands back a spread id, exactly two
    requests reached the terminal, the primary one first: each for its
    symbol with the volume of the plan, of opposite types chosen by the
    side (BUY then SELL for LONG, SELL then BUY otherwise), and each
    carrying the comment [ID:] followed by the short id. *)
Theorem spread_orders_filled (self : MT5TradeExecutor) (mt5 : Terminal)
    (gold_volume silver_volume : Qc) (side : string) (entry_zscore : Qc)
    (sl_gold tp_gold sl_silver tp_silver : option Qc) (short_id : string)
    (log log' : list OrderRequest) (gold_result silver_result : TradeResult)
    (spread_id : string) (zscore : option Qc) :
  place_spread_orders self mt5 gold_volume silver_volume side entry_zscore
    sl_gold tp_gold sl_silver tp_silver short_id log
  = (Return (Triple3 (gold_result, silver_result) (Some spread_id) zscore), log') ->
  ∃ plan rq1 rq2,
    plan_volumes self mt5 gold_volume silver_volume = Return plan
    ∧ log' = log ++ [rq1; rq2]
    ∧ req_symbol rq1 = primary_symbol self
    ∧ req_volume rq1 = gold_adjusted plan
    ∧ req_symbol rq2 = secondary_symbol self
    ∧ req_volume rq2 = silver_adjusted plan
    ∧ (req_type rq1, req_type rq2)
      = (if String.eqb (upper side) "LONG"
         then (ORDER_TYPE_BUY, ORDER_TYPE_SELL)
         else (ORDER_TYPE_SELL, ORDER_TYPE_BUY))
    ∧ req_comment rq1 = "ID:" +:+ short_id
    ∧ req_comment rq2 = "ID:" +:+ short_id.
Proof.
  intros Hp.
  assert (upper side = "LONG" ∨ upper side = "SHORT") as Hside.
  { destruct (String.eqb (upper side) "LONG") eqn:H1;
      [left; by apply String.eqb_eq|].
    destruct (String.eqb (upper side) "SHORT") eqn:H2;
      [right; by apply String.eqb_eq|].
    unfold place_spread_orders, exec_bind in Hp. by rewrite H1, H2 in Hp. }
  destruct (plan_volumes self mt5 gold_volume silver_volume) as [plan|e] eqn:Hplan.
  2:{ unfold place_spread_orders, exec_bind, exec_lift in Hp.
      rewrite Hplan in Hp.
      destruct Hside as [Hs|Hs]; rewrite Hs in Hp; by simpl in Hp. }
  rewrite (place_spread_orders_unfold _ _ _ _ _ _ _ _ _ _ _ _ plan Hside Hplan) in Hp.
  destruct (_place_order_no_adjustment self mt5 (primary_symbol self) _ _ _ _ _ _ log)
    as [[g|e] log1] eqn:Hg1; [|done].
  destruct (success g) eqn:Hg; [|done]. simpl in Hp.
  destruct (_place_order_no_adjustment self mt5 (secondary_symbol self) _ _ _ _ _ _ log1)
    as [[sv|e] log2] eqn:Hs1; [|done].
  destruct (success sv) eqn:Hsv; simpl in Hp; [|done].
  injection Hp as <- <- _ _ <-.
  destruct (place_order_success _ _ _ _ _ _ _ _ _ _ _ _ Hg1 Hg)
    as (rq1 & a1 & -> & Hy1 & Hv1 & Ht1 & Hc1 & _).
  destruct (place_order_success _ _ _ _ _ _ _ _ _ _ _ _ Hs1 Hsv)
    as (rq2 & a2 & -> & Hy2 & Hv2 & Ht2 & Hc2 & _).
  exists plan, rq1, rq2. rewrite <- app_assoc. repeat split; try done.
  - rewrite Ht1, Ht2. unfold gold_type_of, silver_type_of.
    destruct Hside as [Hs|Hs]; rewrite Hs; done.
Qed.

Lemma spread_orders_filled_witness :
  ∃ plan rq1 rq2,
    plan_volumes example_executor (example_terminal accept_all)
      (fl 0.01) (fl 0.1) = Return plan
    ∧ (place_spread_orders example_executor (example_terminal accept_all)
         (fl 0.01) (fl 0.1) "SHORT" (fl 2.0) None None None None
         "093000" []).2 = [] ++ [rq1; rq2]
    ∧ req_symbol rq1 = "XAUUSD"
    ∧ req_volume rq1 = gold_adjusted plan
    ∧ req_symbol rq2 = "XAGUSD"
    ∧ req_volume rq2 = silver_adjusted plan
    ∧ (req_type rq1, req_type rq2) = (ORDER_TYPE_SELL, ORDER_TYPE_BUY)
    ∧ req_comment rq1 = "ID:093000"
    ∧ req_comment rq2 = "ID:093000".
Proof.
  apply (spread_orders_filled example_executor (example_terminal accept_all)
           (fl 0.01) (fl 0.1) "SHORT" (fl 2.0) None None None None "093000" []
           _ (filled 1000 (fl 0.01) (fl 2650.0))
           (filled 1001 (fl 0.10) (fl 2650.5)) "1000-1001" (Some (fl 2.0))).
  compute_done.
Defined.

(** *** Volumes of market orders *)

Lemma clamp_market_within (lo hi v : Qc) :
  (lo ≤ hi)%Qc -> (lo ≤ clamp_market lo hi v ∧ clamp_market lo hi v ≤ hi)%Qc.
Proof.
  intros Hle. unfold clamp_market, ltb.
  repeat case_bool_decide; split; try done; try apply Qcle_refl.
  - by apply Qcnot_lt_le.
  - by apply Qcnot_lt_le.
Qed.

(** [place_market_order] sends at most one request, and when the
    symbol's minimum volume does not exceed its maximum, the volume of
    that request lies between the two, whatever volume was asked for. *)
Theorem market_order_volume_within_limits (self : MT5TradeExecutor)
    (mt5 : Terminal) (symbol order_type : string) (vol : Qc)
    (sl tp : option Qc) (deviation : Z) (cmt : string)
    (log : list OrderRequest) (info : SymbolInfo) :
  symbol_info mt5 symbol = Some info ->
  (volume_min info ≤ volume_max info)%Qc ->
  let '(_, log') :=
    place_market_order self mt5 symbol order_type vol sl tp deviation cmt log in
  log' = log
  ∨ ∃ rq, log' = log ++ [rq]
          ∧ req_symbol rq = symbol
          ∧ (volume_min info ≤ req_volume rq ≤ volume_max info)%Qc.
Proof.
  intros Hinfo Hle. unfold place_market_order. rewrite Hinfo.
  destruct (negb (visible info) && negb (symbol_select mt5 symbol));
    [by left|].
  unfold exec_bind, exec_lift, adjust_volume_market, round_to_step, py_div.
  case_bool_decide; [by left|]. cbn.
  destruct (symbol_info_tick mt5 symbol) as [tick|]; [|by left].
  destruct (order_side order_type tick) as [px ty]. unfold send. cbn.
  match goal with
  | |- context [order_send mt5 log ?r] =>
      set (rq := r);
      assert ((volume_min info ≤ req_volume rq ≤ volume_max info)%Qc) as Hv
        by apply (clamp_market_within _ _ _ Hle)
  end.
  destruct (order_send mt5 log rq) as [ans|];
    [case_bool_decide|]; right; by exists rq.
Qed.

Lemma market_order_volume_within_limits_witness :
  let '(_, log') :=
    place_market_order example_executor (example_terminal accept_all)
      "XAUUSD" "BUY" (fl 250) None None 20 "PairBot" [] in
  log' = []
  ∨ ∃ rq, log' = [] ++ [rq]
          ∧ req_symbol rq = "XAUUSD"
          ∧ (fl 0.01 ≤ req_volume rq ≤ fl 100)%Qc.
Proof.
  apply (market_order_volume_within_limits example_executor
           (example_terminal accept_all) "XAUUSD" "BUY" (fl 250) None None 20
           "PairBot" [] example_info);
    [reflexivity|compute_done].
Defined.

(** *** Division by a zero step *)

Lemma adjust_or_round2_cases (info : option SymbolInfo) (vol : Qc) :
  (adjust_or_round2 info vol = Raise ZeroDivisionError
   ∧ ∃ i, info = Some i ∧ volume_step i = 0%Qc)
  ∨ ((∃ v, adjust_or_round2 info vol = Return v)
     ∧ ∀ i, info = Some i -> volume_step i ≠ 0%Qc).
Proof.
  destruct info as [i|]; simpl.
  - unfold adjust_volume_spread, round_to_step, py_div.
    case_bool_decide as Hz; simpl.
    + left. split; [done|]. by exists i.
    + right. split; [by eexists|]. by intros ? [= <-].
  - right. split; [by eexists|]. done.
Qed.

Lemma py_div_pos (x y : Qc) : (0 < y)%Qc -> py_div x y = Return (x / y)%Qc.
Proof.
  intros Hy. unfold py_div. case_bool_decide as Hz; [|done].
  rewrite Hz in Hy. by apply Qclt_not_eq in Hy.
Qed.

Lemma guarded_div (c x y d : Qc) :
  ∃ v, (if ltb 0 y then py_div x y else mret d) = Return v.
Proof.
  unfold ltb. case_bool_decide as Hy; [|by eexists].
  rewrite py_div_pos by done. by eexists.
Qed.

Lemma plan_volumes_cases (self : MT5TradeExecutor) (mt5 : Terminal)
    (gold_volume silver_volume : Qc) :
  (plan_volumes self mt5 gold_volume silver_volume = Raise ZeroDivisionError
   ∧ (zero_step mt5 (primary_symbol self)
      ∨ zero_step mt5 (secondary_symbol self)))
  ∨ ((∃ plan, plan_volumes self mt5 gold_volume silver_volume = Return plan)
     ∧ ¬ zero_step mt5 (primary_symbol self)
     ∧ ¬ zero_step mt5 (secondary_symbol self)).
Proof.
  unfold plan_volumes. cbv zeta.
  destruct (guarded_div 0 (silver_volume * volume_multiplier self)
              (gold_volume * volume_multiplier self) (fl 1.0)) as [h ->].
  simpl.
  destruct (adjust_or_round2_cases (symbol_info mt5 (primary_symbol self))
              (gold_volume * volume_multiplier self)) as [[-> Hz]|[[g ->] Hg]].
  { left. split; [done|]. by left. }
  simpl.
  destruct (adjust_or_round2_cases (symbol_info mt5 (secondary_symbol self))
              (g * h)) as [[-> Hz]|[[sv ->] Hsv]].
  { left. split; [done|]. by right. }
  simpl. right. split.
  - destruct (guarded_div 0 sv g 0) as [f ->]. simpl.
    unfold ltb. case_bool_decide as Hh; [|by eexists].
    rewrite py_div_pos by done. by eexists.
  - split; intros (i & Hi & Hstep); [by apply (Hg i)|by apply (Hsv i)].
Qed.

Lemma place_order_raises (self : MT5TradeExecutor) (mt5 : Terminal)
    (symbol order_type : string) (vol : Qc) (sl tp : option Qc)
    (deviation : Z) (cmt : string) (log log' : list OrderRequest) (e : exn) :
  _place_order_no_adjustment self mt5 symbol order_type vol sl tp deviation cmt log
  = (Raise e, log') ->
  e = AttributeError (tick_attr order_type) ∧ log' = log.
Proof.
  unfold _place_order_no_adjustment.
  destruct (symbol_info mt5 symbol) as [info|]; [|done].
  destruct (negb (visible info) && negb (symbol_select mt5 symbol)); [done|].
  destruct (symbol_info_tick mt5 symbol) as [tick|]; [|by intros [= <- <-]].
  destruct (order_side order_type tick).
  unfold exec_bind, send. simpl.
  destruct (order_send mt5 log _); [by case_bool_decide|done].
Qed.

(** For a valid side, [place_spread_orders] raises
    [ZeroDivisionError] exactly when the terminal reports a volume step
    of zero for one of the two symbols, and then no order has been
    sent.  The guarded divisions by the primary volume and by the hedge
    ratio never raise. *)
Theorem zero_step_is_the_only_division_by_zero (self : MT5TradeExecutor)
    (mt5 : Terminal) (gold_volume silver_volume : Qc) (side : string)
    (entry_zscore : Qc) (sl_gold tp_gold sl_silver tp_silver : option Qc)
    (short_id : string) (log : list OrderRequest) :
  upper side = "LONG" ∨ upper side = "SHORT" ->
  let outcome :=
    place_spread_orders self mt5 gold_volume silver_volume side entry_zscore
      sl_gold tp_gold sl_silver tp_silver short_id log in
  (outcome.1 = Raise ZeroDivisionError
   ↔ zero_step mt5 (primary_symbol self)
     ∨ zero_step mt5 (secondary_symbol self))
  ∧ (outcome.1 = Raise ZeroDivisionError -> outcome.2 = log).
Proof.
  intros Hside. cbv zeta.
  destruct (plan_volumes_cases self mt5 gold_volume silver_volume)
    as [[Hplan Hz]|[[plan Hplan] [Hz1 Hz2]]].
  - assert (place_spread_orders self mt5 gold_volume silver_volume side
              entry_zscore sl_gold tp_gold sl_silver tp_silver short_id log
            = (Raise ZeroDivisionError, log)) as ->.
    { unfold place_spread_orders, exec_bind, exec_lift.
      rewrite Hplan. by destruct Hside as [-> | ->]. }
    done.
  - rewrite (place_spread_orders_unfold _ _ _ _ _ _ _ _ _ _ _ _ plan Hside Hplan).
    assert (∀ o : py_result SpreadReturn * list OrderRequest,
              o.1 ≠ Raise ZeroDivisionError ->
              (o.1 = Raise ZeroDivisionError
               ↔ zero_step mt5 (primary_symbol self)
                 ∨ zero_step mt5 (secondary_symbol self))
              ∧ (o.1 = Raise ZeroDivisionError -> o.2 = log)) as Hno.
    { intros o Ho. split; [split|]; [done| |done]. by intros [?|?]. }
    apply Hno.
    destruct (_place_order_no_adjustment self mt5 (primary_symbol self) _ _ _ _ _ _ log)
      as [[g|e] log1] eqn:Hg1.
    2:{ apply place_order_raises in Hg1 as [-> _]. done. }
    destruct (success g); simpl; [|done].
    destruct (_place_order_no_adjustment self mt5 (secondary_symbol self) _ _ _ _ _ _ log1)
      as [[sv|e] log2] eqn:Hs1.
    2:{ apply place_order_raises in Hs1 as [-> _]. done. }
    by destruct (success sv).
Qed.

Lemma zero_step_is_the_only_division_by_zero_witness :
  let outcome :=
    place_spread_orders example_executor (example_terminal accept_all)
      (fl 0.01) (fl 0.1) "LONG" (fl (-2.0)) None None None None "093000" [] in
  (outcome.1 = Raise ZeroDivisionError
   ↔ zero_step (example_terminal accept_all) "XAUUSD"
     ∨ zero_step (example_terminal accept_all) "XAGUSD")
  ∧ (outcome.1 = Raise ZeroDivisionError -> outcome.2 = []).
Proof.
  apply (zero_step_is_the_only_division_by_zero example_executor
           (example_terminal accept_all) (fl 0.01) (fl 0.1) "LONG" (fl (-2.0))
           None None None None "093000" []).
  left. reflexivity.
Defined.

(** *** Closing positions *)

(** [close_position] on a ticket the terminal does not know returns
    a failed result that carries the ticket, and sends nothing. *)
Lemma close_position_absent_ticket (self : MT5TradeExecutor)
    (mt5 : ClosingTerminal) (ticket : Z) (vol : option Qc) (deviation : Z)
    (log : list CloseDeal) :
  ct_positions_get mt5 log ticket = [] ->
  ∃ r, close_position self mt5 ticket vol deviation log = (Return r, log)
       ∧ success r = false ∧ order_ticket r = Some ticket.
Proof.
  intros Hget. unfold close_position. rewrite Hget. by eexists.
Qed.

(** When [close_position] is called without a volume and sends a
    deal, it sends exactly one: for the ticket, on the symbol of the
    position found, for the whole volume of that position, and of the
    type opposite to the position. *)
Theorem close_position_sends_opposite_deal (self : MT5TradeExecutor)
    (mt5 : ClosingTerminal) (ticket : Z) (deviation : Z)
    (log log' : list CloseDeal) (r : py_result TradeResult) :
  close_position self mt5 ticket None deviation log = (r, log') ->
  log' ≠ log ->
  ∃ position deal,
    head (ct_positions_get mt5 log ticket) = Some position
    ∧ log' = log ++ [deal]
    ∧ cd_position deal = ticket
    ∧ cd_symbol deal = pos_symbol position
    ∧ cd_volume deal = pos_volume position
    ∧ cd_type deal = match pos_type position with
                     | POSITION_TYPE_BUY => ORDER_TYPE_SELL
                     | POSITION_TYPE_SELL => ORDER_TYPE_BUY
                     end.
Proof.
  unfold close_position.
  destruct (ct_positions_get mt5 log ticket) as [|position rest];
    [by intros [= <- <-]|].
  destruct (ct_symbol_info_tick mt5 (pos_symbol position)) as [tick|];
    [|by intros [= <- <-]].
  intros Hc _. exists position.
  destruct (pos_type position); simpl in Hc;
    (destruct (ct_order_send mt5 log _); [case_bool_decide|]);
    injection Hc as <- <-; by eexists.
Qed.

Lemma close_position_sends_opposite_deal_witness :
  ∃ position deal,
    head (ct_positions_get example_closing_terminal [] 1001) = Some position
    ∧ (close_position example_executor example_closing_terminal 1001 None 20
         []).2 = [] ++ [deal]
    ∧ cd_position deal = 1001
    ∧ cd_symbol deal = pos_symbol position
    ∧ cd_volume deal = pos_volume position
    ∧ cd_type deal = match pos_type position with
                     | POSITION_TYPE_BUY => ORDER_TYPE_SELL
                     | POSITION_TYPE_SELL => ORDER_TYPE_BUY
                     end.
Proof.
  apply (close_position_sends_opposite_deal example_executor
           example_closing_terminal 1001 20 []
           _ (close_position example_executor example_closing_terminal 1001
                None 20 []).1).
  - by destruct (close_position example_executor example_closing_terminal
                   1001 None 20 []).
  - compute_done.
Defined.

(** [close_spread_positions], when the primary position is on the
    terminal at the call and the secondary position is still there
    after the closing deal of the primary one, sends a closing deal for
    the primary ticket and then one for the secondary ticket, whether
    the first was accepted or rejected; each result reports success
    exactly when the broker answered its deal with
    [TRADE_RETCODE_DONE]. *)
Theorem close_spread_tries_both_legs (self : MT5TradeExecutor)
    (mt5 : ClosingTerminal) (gold_ticket silver_ticket : Z)
    (log : list CloseDeal) :
  ct_positions_get mt5 log gold_ticket ≠ [] ->
  (∀ d, cd_position d = gold_ticket ->
        ct_positions_get mt5 (log ++ [d]) silver_ticket ≠ []) ->
  (∀ symbol, ct_symbol_info_tick mt5 symbol ≠ None) ->
  ∃ gold_result silver_result d1 d2,
    close_spread_positions self mt5 gold_ticket silver_ticket log
    = (Return (gold_result, silver_result), log ++ [d1; d2])
    ∧ cd_position d1 = gold_ticket ∧ cd_position d2 = silver_ticket
    ∧ (success gold_result = true
       ↔ ∃ ans, ct_order_send mt5 log d1 = Some ans
                ∧ retcode ans = TRADE_RETCODE_DONE)
    ∧ (success silver_result = true
       ↔ ∃ ans, ct_order_send mt5 (log ++ [d1]) d2 = Some ans
                ∧ retcode ans = TRADE_RETCODE_DONE).
Proof.
  intros Hg Hs Ht.
  assert (∀ ticket l, ct_positions_get mt5 l ticket ≠ [] ->
            ∃ r d, close_position self mt5 ticket None 20 l
                   = (Return r, l ++ [d])
                   ∧ cd_position d = ticket
                   ∧ (success r = true
                      ↔ ∃ ans, ct_order_send mt5 l d = Some ans
                               ∧ retcode ans = TRADE_RETCODE_DONE)) as Hone.
  { intros ticket l Hne. unfold close_position.
    destruct (ct_positions_get mt5 l ticket) as [|position rest]; [done|].
    specialize (Ht (pos_symbol position)).
    destruct (ct_symbol_info_tick mt5 (pos_symbol position)) as [tick|];
      [|done].
    destruct (pos_type position); simpl;
      (match goal with
       | |- context [ct_order_send mt5 l ?d] =>
           destruct (ct_order_send mt5 l d) as [ans|] eqn:Hsend
       end;
       [case_bool_decide as Hrc|]);
      eexists _, _; (split; [reflexivity|]); (split; [reflexivity|]);
      rewrite Hsend; simpl; split;
      try done; try (by intros (? & [= <-] & ?)); try (by intros (? & ? & ?)).
    all: intros _; exists ans; split; [done|].
    all: destruct (decide (retcode ans = TRADE_RETCODE_DONE)); done. }
  destruct (Hone gold_ticket log Hg) as (g & d1 & Eg & Hp1 & Hs1).
  destruct (Hone silver_ticket (log ++ [d1]) (Hs d1 Hp1))
    as (sv & d2 & Es & Hp2 & Hs2).
  exists g, sv, d1, d2.
  unfold close_spread_positions, exec_bind, exec_ret.
  rewrite Eg, Es, <- app_assoc. done.
Qed.

Lemma close_spread_tries_both_legs_witness :
  ∃ gold_result silver_result d1 d2,
    close_spread_positions example_executor filling_closing_terminal
      1000 1001 []
    = (Return (gold_result, silver_result), [] ++ [d1; d2])
    ∧ cd_position d1 = 1000 ∧ cd_position d2 = 1001
    ∧ (success gold_result = true
       ↔ ∃ ans, ct_order_send filling_closing_terminal [] d1 = Some ans
                ∧ retcode ans = TRADE_RETCODE_DONE)
    ∧ (success silver_result = true
       ↔ ∃ ans, ct_order_send filling_closing_terminal ([] ++ [d1]) d2
                = Some ans
                ∧ retcode ans = TRADE_RETCODE_DONE).
Proof.
  apply (close_spread_tries_both_legs example_executor
           filling_closing_terminal 1000 1001 []).
  - compute_done.
  - intros d Hd. simpl. rewrite Hd. compute_done.
  - by intros.
Defined.

(** On that terminal both deals are filled: the first is accepted and
    the second is still sent.  On the terminal that rejects the first
    deal the second is sent as well. *)
Lemma close_spread_after_accepted_first :
  (∃ g sv log,
     close_spread_positions example_executor filling_closing_terminal
       1000 1001 [] = (Return (g, sv), log)
     ∧ success g = true ∧ success sv = true
     ∧ cd_position <$> log = [1000; 1001])
  ∧ (∃ g sv log,
       close_spread_positions example_executor example_closing_terminal
         1000 1001 [] = (Return (g, sv), log)
       ∧ success g = false ∧ success sv = true
       ∧ cd_position <$> log = [1000; 1001]).
Proof. split; eexists _, _, _; (split; [reflexivity|]); compute_each. Qed.

End executor_more_facts.

(** ** The tracker's files and the recovery workflow *)

Section recovery_more_facts.
Import Recovery.

Lemma load_lookup (files : gmap string Setup) (index : gmap string IndexEntry)
    (k : string) :
  _load_setups files index !! k = index !! k ≫= fun _ => files !! k.
Proof. unfold _load_setups. by rewrite map_lookup_imap. Qed.

Lemma on_disk_init (files : gmap string Setup) (index : gmap string IndexEntry) :
  well_named files -> on_disk (init files index).
Proof.
  intros Hn. split; simpl.
  - intros k s Hk. rewrite load_lookup in Hk.
    destruct (index !! k); [|done]. simpl in Hk. by apply Hn in Hk.
  - intros k. apply load_lookup.
Qed.

Lemma on_disk_restart (t : SetupTracker) :
  on_disk t -> init (setup_files t) (setups_index t) = t.
Proof.
  intros [_ Hl]. destruct t as [a f i]. unfold init. simpl in *. f_equal.
  apply map_eq. intros k. by rewrite load_lookup, Hl.
Qed.

(** Saving the object held under its own id keeps memory and disk in
    step, whatever the index was before. *)
Lemma on_disk_save (self : SetupTracker) (sid : string) (s : Setup)
    (index : gmap string IndexEntry) :
  on_disk self ->
  setup_id s = sid ->
  on_disk (_save_setup
             {| active_setups := <[sid := s]> (active_setups self);
                setup_files := setup_files self;
                setups_index := index |} s).
Proof.
  intros [Hn Hl] Hid. split; simpl.
  - by apply map_Forall_insert_2.
  - intros k. rewrite lookup_fmap. rewrite Hid.
    destruct (decide (k = sid)) as [->|Hne].
    + by rewrite !lookup_insert_eq.
    + rewrite !lookup_insert_ne by done.
      destruct (active_setups self !! k) as [v|] eqn:Hk; [|done]. simpl.
      rewrite Hl in Hk. by destruct (setups_index self !! k).
Qed.

Lemma tracker_step_on_disk (t t' : SetupTracker) :
  on_disk t -> tracker_step t t' -> on_disk t'.
Proof.
  intros Hd Hs. destruct Hs.
  - simpl. by apply on_disk_save.
  - unfold add_position_to_setup.
    destruct (active_setups self !! sid) as [setup|] eqn:Hsid; [|done].
    apply on_disk_save; [done|]. simpl. by apply Hd in Hsid.
  - unfold close_setup.
    destruct (active_setups self !! sid) as [setup|] eqn:Hsid; [|done].
    destruct Hd as [Hn Hl]. pose proof (Hn _ _ Hsid) as Hid. simpl in Hid.
    split; simpl.
    + apply map_Forall_delete. by apply map_Forall_insert_2.
    + intros k. rewrite lookup_fmap, Hid.
      destruct (decide (k = sid)) as [->|Hne].
      * by rewrite !lookup_delete_eq.
      * rewrite !lookup_delete_ne, !lookup_insert_ne by done.
        destruct (active_setups self !! k) as [v|] eqn:Hk; [|done]. simpl.
        rewrite Hl in Hk. by destruct (setups_index self !! k).
Qed.

(** From a directory whose detail files are named after the setups
    they hold, and after any sequence of [create_setup],
    [add_position_to_setup] and [close_setup], a tracker started anew on
    the directory as it was left loads exactly the setups that were in
    memory: closed setups stay on disk but are not loaded. *)
Theorem restart_recovers_active_setups (files : gmap string Setup)
    (index : gmap string IndexEntry) (t : SetupTracker) :
  well_named files ->
  rtc tracker_step (init files index) t ->
  init (setup_files t) (setups_index t) = t.
Proof.
  intros Hn Hr. apply on_disk_restart.
  apply (on_disk_init files index) in Hn.
  induction Hr as [|t0 t1 t2 Hstep _ IH]; [done|].
  apply IH. by eapply tracker_step_on_disk.
Qed.

Lemma restart_recovers_active_setups_witness :
  init (setup_files example_history) (setups_index example_history)
  = example_history.
Proof.
  apply (restart_recovers_active_setups ∅ ∅ example_history).
  - apply map_Forall_empty.
  - unfold example_history.
    eapply rtc_l; [apply step_create|].
    eapply rtc_l; [apply step_add|].
    apply rtc_refl.
Defined.

(** *** Tickets of a setup *)

Lemma missing_is_filter (tks : gset Z) (l : list SetupPosition) :
  flat_map (fun pos =>
              (if bool_decide (mt5_primary_ticket pos ∈ tks)
               then [] else [mt5_primary_ticket pos])
              ++ (if bool_decide (mt5_secondary_ticket pos ∈ tks)
                  then [] else [mt5_secondary_ticket pos])) l
  = filter (fun t => t ∉ tks)
      (flat_map (fun pos => [mt5_primary_ticket pos; mt5_secondary_ticket pos]) l).
Proof.
  induction l as [|pos l IH]; [done|]. simpl. rewrite IH.
  rewrite !filter_cons.
  repeat case_bool_decide; repeat case_decide; done.
Qed.

Lemma filter_none {A} (P : A -> Prop) `{∀ x, Decision (P x)} (l : list A) :
  (∀ x, x ∈ l -> ¬ P x) -> filter P l = [].
Proof.
  induction l as [|x l IH]; [done|]. intros Hall.
  rewrite filter_cons_False by (apply Hall; left).
  apply IH. intros y Hy. apply Hall. by right.
Qed.

Lemma verify_setup_on_mt5_spec (self : SetupTracker) (sid : string)
    (tks : gset Z) :
  let '(all_found, missing) := verify_setup_on_mt5 self sid tks in
  missing = filter (fun t => t ∉ tks) (get_all_setup_tickets self sid)
  ∧ (all_found = true
     ↔ is_Some (active_setups self !! sid)
       ∧ ∀ t, t ∈ get_all_setup_tickets self sid -> t ∈ tks).
Proof.
  unfold verify_setup_on_mt5, get_all_setup_tickets.
  destruct (active_setups self !! sid) as [setup|].
  2:{ split; [done|]. split; [done|]. by intros [[? ?] _]. }
  rewrite missing_is_filter. split; [done|].
  rewrite bool_decide_eq_true, length_zero_iff_nil.
  set (tickets := flat_map _ _). split.
  - intros Hnil. split; [done|]. intros t Ht.
    destruct (decide (t ∈ tks)) as [|Hn]; [done|].
    by destruct (filter_nil_not_elem_of _ _ t Hnil Hn).
  - intros [_ Hall]. apply filter_none. intros t Ht Hn. by apply Hn, Hall.
Qed.

(** [verify_setup_on_mt5] reports as missing exactly the tickets of
    the setup that are not open on the terminal, in the order of
    [get_all_setup_tickets]; it answers that all were found exactly when
    the setup is tracked and every ticket is open.  For a setup that is
    not tracked the answer is [False] with an empty list. *)
Theorem verify_reports_missing_tickets (self : SetupTracker) (sid : string)
    (tks : gset Z) :
  (verify_setup_on_mt5 self sid tks).2
  = filter (fun t => t ∉ tks) (get_all_setup_tickets self sid)
  ∧ ((verify_setup_on_mt5 self sid tks).1 = true
     ↔ is_Some (active_setups self !! sid)
       ∧ ∀ t, t ∈ get_all_setup_tickets self sid -> t ∈ tks)
  ∧ (active_setups self !! sid = None ->
     verify_setup_on_mt5 self sid tks = (false, [])).
Proof.
  pose proof (verify_setup_on_mt5_spec self sid tks) as Hv.
  destruct (verify_setup_on_mt5 self sid tks) as [all_found missing] eqn:Hr.
  destruct Hv as [Hm Hiff]. split; [done|]. split; [done|].
  intros Hnone. unfold verify_setup_on_mt5 in Hr. rewrite Hnone in Hr.
  by injection Hr as <- <-.
Qed.

(** *** Adding positions *)

(** [add_position_to_setup] on a tracked setup appends the two
    tickets of the new position to the tickets of the setup, saves the
    changed setup to its detail file and leaves every other setup as it
    was; on an id that is not tracked it changes nothing, in memory or
    on disk. *)
Theorem add_position_appends (self : SetupTracker) (sid : string)
    (spread short : string) (t1 t2 : Z) (z primary secondary : Qc)
    (lvl t_position t_updated : string) :
  let self' :=
    add_position_to_setup self sid spread short t1 t2 z primary secondary lvl
      t_position t_updated in
  match active_setups self !! sid with
  | None => self' = self
  | Some setup =>
      get_all_setup_tickets self' sid
      = get_all_setup_tickets self sid ++ [t1; t2]
      ∧ length (get_setup_positions self' sid)
        = S (length (get_setup_positions self sid))
      ∧ setup_files self' !! setup_id setup = active_setups self' !! sid
      ∧ ∀ other, other ≠ sid ->
          active_setups self' !! other = active_setups self !! other
  end.
Proof.
  unfold add_position_to_setup, get_all_setup_tickets, get_setup_positions.
  destruct (active_setups self !! sid) as [setup|] eqn:Hsid; [|done].
  simpl. rewrite !lookup_insert_eq. simpl.
  repeat split.
  - by rewrite flat_map_app.
  - rewrite length_app. simpl. lia.
  - intros other Hne. by rewrite lookup_insert_ne.
Qed.

(** [create_setup] names the setup after the clock, and the new setup
    has no tickets and is verified as found on any terminal; after
    [add_position_to_setup] under the returned id its tickets are
    exactly the two given, whatever the tracker held under that id
    before, and the index and the detail file show the setup as it is
    in memory. *)
Theorem create_then_add_then_tickets (self : SetupTracker) (z : Qc)
    (sd pr : string) (ratio : Qc) (stamp t_entry t_updated : string)
    (spread short : string) (t1 t2 : Z) (z1 primary secondary : Qc)
    (lvl t_position t_added : string) (tks : gset Z) :
  let '(sid, created) :=
    create_setup self z sd pr ratio stamp t_entry t_updated in
  let added :=
    add_position_to_setup created sid spread short t1 t2 z1 primary secondary
      lvl t_position t_added in
  sid = "setup_" +:+ stamp
  ∧ get_all_setup_tickets created sid = []
  ∧ verify_setup_on_mt5 created sid tks = (true, [])
  ∧ get_all_setup_tickets added sid = [t1; t2]
  ∧ is_Some (setups_index added !! sid)
  ∧ setup_files added !! sid = active_setups added !! sid.
Proof.
  unfold create_setup, add_position_to_setup, get_all_setup_tickets,
    verify_setup_on_mt5.
  simpl. rewrite !lookup_insert_eq. simpl. rewrite !lookup_insert_eq. simpl.
  rewrite lookup_fmap, lookup_insert_eq. simpl. done.
Qed.

(** *** Closing *)

Section any_terminal_more.
Context {B : Type} `{Terminal B}.

(** Every ticket is closed, reported as failed, or skipped. *)
Lemma close_loop_accounts (sid : string) (tickets : list Z) (b : B)
    (sc : nat) (ft : list Z) :
  let out := close_loop sid tickets b sc ft in
  (out.1.1 + length out.1.2 ≤ sc + length ft + length tickets)%nat
  ∧ ∃ more, out.1.2 = ft ++ more ∧ more ⊆ tickets.
Proof.
  revert b sc ft. induction tickets as [|t rest IH]; intros b sc ft; simpl.
  - split; [lia|]. exists []. by rewrite app_nil_r.
  - assert (∀ b' , let out := close_loop sid rest b' sc (ft ++ [t]) in
              (out.1.1 + length out.1.2 ≤ sc + length ft + S (length rest))%nat
              ∧ ∃ more, out.1.2 = ft ++ more ∧ more ⊆ t :: rest) as Hfail.
    { intros b'. destruct (IH b' sc (ft ++ [t])) as [Hc (more & Hm & Hsub)].
      rewrite length_app in Hc. simpl in Hc. split; [lia|].
      exists (t :: more). rewrite Hm, <- app_assoc. split; [done|].
      intros x [->|Hx]%elem_of_cons; [by left|right; by apply Hsub]. }
    assert (∀ b' n, (n ≤ S sc)%nat ->
              let out := close_loop sid rest b' n ft in
              (out.1.1 + length out.1.2 ≤ sc + length ft + S (length rest))%nat
              ∧ ∃ more, out.1.2 = ft ++ more ∧ more ⊆ t :: rest) as Hok.
    { intros b' n Hn. destruct (IH b' n ft) as [Hc (more & Hm & Hsub)].
      split; [lia|]. exists more. split; [done|].
      intros x Hx. right. by apply Hsub. }
    destruct (positions_get b t) as [|position ?]; [by apply Hok; lia|].
    destruct (order_send b _) as [[rc|] b']; [|by apply Hfail].
    destruct (bool_decide _); [by apply Hfail|by apply Hok].
Qed.

(** When [close_all_positions_in_setup] answers [True], on any
    terminal: no ticket was recorded as failed; the setup is gone from
    memory and from the index, while its detail file holds it with
    status CLOSED and exit z-score 0.0; and a second call for the same
    id answers [False]. *)
Theorem closed_setup_cannot_be_closed_again (self : SetupTracker) (b b2 : B)
    (sid now now2 : string) :
  let out := close_all_positions_in_setup self b sid now in
  result out = true ->
  failed out = []
  ∧ active_setups (tracker_after out) !! sid = None
  ∧ setups_index (tracker_after out) !! sid = None
  ∧ (∃ setup, active_setups self !! sid = Some setup
              ∧ setup_files (tracker_after out) !! setup_id setup
                = Some (closed setup (fl 0.0) now))
  ∧ result (close_all_positions_in_setup (tracker_after out) b2 sid now2)
    = false.
Proof.
  intros out Hres.
  destruct (close_all_result self b sid now) as [Ht _].
  destruct (Ht Hres) as (Hne & Hcount & Htr). clear Ht.
  fold out in Htr.
  assert (∃ setup, active_setups self !! sid = Some setup) as [setup Hsid].
  { unfold get_all_setup_tickets in Hne.
    destruct (active_setups self !! sid); [by eexists|done]. }
  assert (active_setups (tracker_after out) !! sid = None) as Hgone.
  { rewrite Htr. unfold close_setup. rewrite Hsid. simpl.
    by rewrite lookup_delete_eq. }
  split; [|split; [done|split; [|split]]].
  - destruct (close_loop_accounts sid (get_all_setup_tickets self sid) b 0 [])
      as [Hacc _].
    unfold out, close_all_positions_in_setup in *.
    destruct (get_all_setup_tickets self sid) as [|t rest] eqn:Htk; [done|].
    destruct (close_loop sid (t :: rest) b 0 []) as [[sc ft] b'].
    simpl in Hacc, Hcount. 
    case_bool_decide; simpl in *; [|done].
    apply length_zero_iff_nil. lia.
  - rewrite Htr. unfold close_setup. rewrite Hsid. simpl.
    by rewrite lookup_fmap, lookup_delete_eq.
  - exists setup. split; [done|]. rewrite Htr. unfold close_setup.
    rewrite Hsid. simpl. by rewrite lookup_insert_eq.
  - unfold close_all_positions_in_setup at 1, get_all_setup_tickets.
    by rewrite Hgone.
Qed.


End any_terminal_more.

Lemma closed_setup_cannot_be_closed_again_witness :
  let out := close_all_positions_in_setup example_tracker both_legs_open
               "setup_20250101_093000" "2025-01-02T08:00:00" in
  failed out = []
  ∧ active_setups (tracker_after out) !! "setup_20250101_093000" = None
  ∧ setups_index (tracker_after out) !! "setup_20250101_093000" = None
  ∧ (∃ setup, active_setups example_tracker !! "setup_20250101_093000"
              = Some setup
              ∧ setup_files (tracker_after out) !! setup_id setup
                = Some (closed setup (fl 0.0) "2025-01-02T08:00:00"))
  ∧ result (close_all_positions_in_setup (tracker_after out) both_legs_open
              "setup_20250101_093000" "2025-01-02T08:05:00")
    = false.
Proof.
  apply (closed_setup_cannot_be_closed_again example_tracker both_legs_open
           both_legs_open "setup_20250101_093000" "2025-01-02T08:00:00"
           "2025-01-02T08:05:00").
  compute_done.
Defined.

(** *** The recovery workflow *)

Section workflow_any_terminal.
Context {B : Type} `{Terminal B}.
Variable positions_get_all : B -> list MT5Position.

Lemma check_loop_spec (self : SetupTracker) (b : B)
    (setups valid invalid : list (string * Setup)) :
  check_loop positions_get_all self b setups valid invalid
  = (valid ++ filter (found_on positions_get_all self b) setups,
     invalid ++ filter (fun s => ¬ found_on positions_get_all self b s) setups).
Proof.
  revert valid invalid.
  induction setups as [|s rest IH]; intros valid invalid; simpl.
  - by rewrite !app_nil_r.
  - rewrite !filter_cons.
    destruct (decide (found_on positions_get_all self b s)) as [Hf|Hf].
    + rewrite decide_False by auto. unfold found_on in Hf.
      destruct (verify_setup_on_mt5 self (setup_id s.2) _) as [all_found ?].
      simpl in Hf. subst all_found. rewrite IH. by rewrite <- app_assoc.
    + rewrite decide_True by auto. unfold found_on in Hf.
      destruct (verify_setup_on_mt5 self (setup_id s.2) _) as [[] ?];
        [done|].
      rewrite IH. by rewrite <- app_assoc.
Qed.

Lemma check_all_setups_spec (self : SetupTracker) (b : B) :
  let '(valid, invalid) := check_all_setups positions_get_all self b in
  valid ++ invalid ≡ₚ get_active_setups self
  ∧ Forall (found_on positions_get_all self b) valid
  ∧ Forall (fun s => ¬ found_on positions_get_all self b s) invalid.
Proof.
  unfold check_all_setups.
  assert (let '(valid, invalid) :=
            check_loop positions_get_all self b (get_active_setups self) [] [] in
          valid ++ invalid ≡ₚ get_active_setups self
          ∧ Forall (found_on positions_get_all self b) valid
          ∧ Forall (fun s => ¬ found_on positions_get_all self b s) invalid) as Hl.
  { rewrite check_loop_spec. simpl. split; [apply filter_app_complement|].
    split; apply list.Forall_forall; by intros s [? _]%list_elem_of_filter. }
  destruct (get_active_setups self); [|done].
  by repeat split.
Qed.

(** [check_all_setups] splits the ACTIVE setups of the tracker in two:
    every one of them lands in exactly one of the two lists, the valid
    ones being those for which [verify_setup_on_mt5], asked by the
    setup's own id, finds all tickets. *)
Theorem check_all_setups_partitions (self : SetupTracker) (b : B) :
  (check_all_setups positions_get_all self b).1
    ++ (check_all_setups positions_get_all self b).2
  ≡ₚ get_active_setups self
  ∧ Forall (found_on positions_get_all self b)
      (check_all_setups positions_get_all self b).1
  ∧ Forall (fun s => ¬ found_on positions_get_all self b s)
      (check_all_setups positions_get_all self b).2.
Proof.
  pose proof (check_all_setups_spec self b) as Hs.
  by destruct (check_all_setups positions_get_all self b).
Qed.

End workflow_any_terminal.

(** On the example terminal a closing run only removes positions. *)
Lemma sim_close_loop_shrinks (sid : string) (tickets : list Z)
    (b : SimTerminal) (sc : nat) (ft : list Z) (t : Z) :
  open_positions b !! t = None ->
  open_positions (close_loop sid tickets b sc ft).2 !! t = None.
Proof.
  revert b sc ft. induction tickets as [|t0 rest IH]; intros b sc ft Hb;
    [done|].
  simpl. destruct (open_positions b !! t0) as [p|]; simpl; [|by apply IH].
  case_bool_decide; [by apply IH|].
  apply IH. simpl. apply lookup_delete_None. by right.
Qed.

Lemma sim_close_all_shrinks (self : SetupTracker) (b : SimTerminal)
    (sid now : string) (t : Z) :
  open_positions b !! t = None ->
  open_positions (terminal_after (close_all_positions_in_setup self b sid now))
    !! t = None.
Proof.
  intros Hb. unfold close_all_positions_in_setup.
  destruct (get_all_setup_tickets self sid) as [|t0 rest]; [done|].
  pose proof (sim_close_loop_shrinks sid (t0 :: rest) b 0 [] t Hb) as Hs.
  destruct (close_loop sid (t0 :: rest) b 0 []) as [[sc ft] b'].
  by case_bool_decide.
Qed.

(** A setup with a ticket that is not open cannot be closed. *)
Lemma sim_close_all_needs_every_ticket (self : SetupTracker) (b : SimTerminal)
    (sid now : string) :
  result (close_all_positions_in_setup self b sid now) = true ->
  ∀ t, t ∈ get_all_setup_tickets self sid -> is_Some (open_positions b !! t).
Proof.
  intros Hres t Hin.
  destruct (open_positions b !! t) eqn:Habs; [done|]. exfalso.
  unfold close_all_positions_in_setup in Hres.
  destruct (get_all_setup_tickets self sid) as [|t0 rest] eqn:Ht;
    [by apply not_elem_of_nil in Hin|].
  pose proof (sim_close_loop_bound sid (t0 :: rest) b 0 []) as Hb.
  destruct (close_loop sid (t0 :: rest) b 0 []) as [[sc ft] b'].
  simpl in Hb.
  assert (length (filter (fun t => is_Some (open_positions b !! t)) (t0 :: rest))
          < length (t0 :: rest))%nat as Hlt.
  { apply (length_filter_lt _ _ t); [done|]. rewrite Habs. by intros [? ?]. }
  rewrite bool_decide_eq_false_2 in Hres by lia. done.
Qed.

Lemma sim_tickets_open (b : SimTerminal) (t : Z) :
  well_keyed b ->
  is_Some (open_positions b !! t) -> t ∈ mt5_tickets sim_positions b.
Proof.
  intros Hk [p Hp]. unfold mt5_tickets, sim_positions.
  apply elem_of_list_to_set, list_elem_of_fmap. exists p.
  split; [symmetry; by apply (Hk t p)|].
  apply list_elem_of_fmap. exists (t, p). split; [done|].
  by apply elem_of_map_to_list.
Qed.

Lemma sim_invalid_stays (self : SetupTracker) (b : SimTerminal)
    (setup : string * Setup) :
  well_keyed b ->
  ¬ found_on sim_positions self b setup -> stays_invalid self b setup.
Proof.
  intros Hk Hnot. unfold found_on in Hnot.
  pose proof (verify_setup_on_mt5_spec self (setup_id setup.2)
                (mt5_tickets sim_positions b)) as Hv.
  destruct (verify_setup_on_mt5 _ _ _) as [all_found missing].
  destruct Hv as [_ Hiff]. simpl in Hnot.
  destruct (active_setups self !! setup_id setup.2) as [s|] eqn:Hs;
    [|by left].
  right.
  destruct (decide (Exists (fun t => open_positions b !! t = None)
                      (get_all_setup_tickets self (setup_id setup.2))))
    as [Hex|Hnex].
  - apply list.Exists_exists in Hex as (t & Hin & Hnone). by exists t.
  - exfalso. apply Hnot, Hiff. split; [done|]. intros t Hin.
    apply sim_tickets_open; [done|].
    destruct (open_positions b !! t) eqn:Ht; [done|].
    exfalso. apply Hnex, list.Exists_exists. by exists t.
Qed.

Lemma sim_recover_loop_keeps_tracker (self : SetupTracker) (b : SimTerminal)
    (invalid valid : list (string * Setup)) (inputs : list string)
    (clock : nat -> string) (i : nat) :
  Forall (stays_invalid self b) invalid ->
  recovered_tracker (recover_loop self b invalid valid inputs clock i) = self.
Proof.
  revert b valid inputs i.
  induction invalid as [|setup rest IH]; intros b valid inputs i Hall;
    [done|].
  apply list.Forall_cons in Hall as [Hsetup Hrest]. simpl.
  destruct (prompt_user_close_all inputs) as [[[]|stop] inputs']; [|by apply IH|done].
  set (out := close_all_positions_in_setup self b (setup_id setup.2) (clock i)).
  assert (result out = false) as Hres.
  { destruct (result out) eqn:Hr; [|done]. exfalso.
    pose proof (sim_close_all_needs_every_ticket _ _ _ _ Hr) as Hneed.
    destruct Hsetup as [Hnone|(t & Hin & Habs)].
    - destruct (close_all_result self b (setup_id setup.2) (clock i))
        as [Ht _].
      destruct (Ht Hr) as [Hne _]. apply Hne.
      unfold get_all_setup_tickets. by rewrite Hnone.
    - destruct (Hneed t Hin) as [p Hp]. congruence. }
  assert (tracker_after out = self) as Htr
    by by apply (close_all_result self b (setup_id setup.2) (clock i)).
  rewrite Hres, Htr. apply IH.
  eapply list.Forall_impl; [exact Hrest|].
  intros s [Hnone|(t & Hin & Habs)]; [by left|right].
  exists t. split; [done|]. by apply sim_close_all_shrinks.
Qed.

(** On a terminal where a closed position does not come back,
    [recover_or_close_all] leaves the tracker as it was, whatever the
    operator answers: a setup is offered for closing only when one of
    its tickets is missing, and then [close_all_positions_in_setup]
    does not count that ticket and does not mark the setup closed. *)
Theorem recovery_never_closes_an_invalid_setup (self : SetupTracker)
    (b : SimTerminal) (inputs : list string) (clock : nat -> string) :
  well_keyed b ->
  recovered_tracker (recover_or_close_all sim_positions self b inputs clock)
  = self.
Proof.
  intros Hk. unfold recover_or_close_all.
  pose proof (check_all_setups_spec sim_positions self b) as Hp.
  destruct (check_all_setups sim_positions self b) as [valid invalid].
  destruct Hp as (_ & _ & Hinv).
  destruct invalid as [|s rest]; [done|].
  apply sim_recover_loop_keeps_tracker.
  eapply list.Forall_impl; [exact Hinv|].
  intros x Hx. by apply sim_invalid_stays.
Qed.

Lemma recovery_never_closes_an_invalid_setup_witness :
  recovered_tracker
    (recover_or_close_all sim_positions example_tracker one_leg_left ["1"]
       (fun _ => "2025-01-02T08:00:00"))
  = example_tracker.
Proof.
  apply (recovery_never_closes_an_invalid_setup example_tracker one_leg_left
           ["1"] (fun _ => "2025-01-02T08:00:00")).
  compute_done.
Defined.

(** The tracker of the worked examples is what [create_setup] and
    [add_position_to_setup] leave from an empty directory. *)
Lemma example_tracker_history : example_history = example_tracker.
Proof. compute_done. Qed.

(** The recovery of the setup whose secondary leg was closed by hand,
    with the operator choosing to close all: the primary leg is closed
    on the terminal, the setup is not among those returned, and the
    tracker still holds it as ACTIVE. *)
Lemma recovery_one_leg_left :
  let out := recover_or_close_all sim_positions example_tracker one_leg_left
               ["x"; " 1 "] (fun _ => "2025-01-02T08:00:00") in
  returned out = inl []
  ∧ open_positions (recovered_terminal out) = ∅
  ∧ inputs_left out = []
  ∧ get_active_setups (recovered_tracker out)
    = [("setup_20250101_093000", example_setup)].
Proof. compute_each. Qed.

End recovery_more_facts.
